(** * Weekly report synthesis of the OpenProject MCP server

    A shallow embedding of [src/utils/report_formatter.py] and of the report
    entry point of [src/tools/weekly_reports.py], with the properties of the
    report engine stated over it.

    Conventions of the embedding:
    - a work package is a JSON object in the source; here it is a record with
      one optional field per path the code reads ([None] when a key of the
      path is absent, so [dict_get default field] is Python's
      [.get(key, default)]);
    - text is [string], the bytes of its UTF-8 encoding; [lower] folds ASCII
      letters only;
    - Python integers are [Z], Python floats are binary64 [float];
    - a [for] loop over a list is a [fold_left] of the loop body;
    - a naive [datetime] is its position on the proleptic Gregorian time
      line, in microseconds, which is what Python compares and subtracts. *)

From Stdlib Require Import String Ascii List ZArith Bool Lia Permutation.
From Stdlib Require Import Floats.PrimFloat DecimalString.
Import ListNotations.

Local Open Scope string_scope.
Local Open Scope Z_scope.

(** ** Python primitives used by the report code *)

Module Py.

(** [d.get(key, default)] on a field that may be absent. *)
Definition dict_get {A : Type} (default : A) (field : option A) : A :=
  match field with
  | Some v => v
  | None => default
  end.

(** [c.lower()] for one byte. *)
Definition lower_ascii (c : ascii) : ascii :=
  let n := nat_of_ascii c in
  if (andb (Nat.leb 65 n) (Nat.leb n 90)) then ascii_of_nat (n + 32) else c.

(** [s.lower()] on ASCII text: a byte outside [A-Z] is left as it is. *)
Fixpoint lower (s : string) : string :=
  match s with
  | EmptyString => EmptyString
  | String c rest => String (lower_ascii c) (lower rest)
  end.

(** [needle in hay] for strings: [needle] occurs as a substring. *)
Fixpoint contains (needle hay : string) : bool :=
  match hay with
  | EmptyString => String.prefix needle EmptyString
  | String _ rest => String.prefix needle hay || contains needle rest
  end.

(** [not s]: the empty string is falsy. *)
Definition is_empty (s : string) : bool :=
  match s with
  | EmptyString => true
  | String _ _ => false
  end.

(** [a or b] on strings. *)
Definition str_or (a b : string) : string :=
  if is_empty a then b else a.

(** [s.replace(old, new)] for a one-character [old]. *)
Fixpoint replace_char (old : ascii) (new : string) (s : string) : string :=
  match s with
  | EmptyString => EmptyString
  | String c rest =>
      if Ascii.eqb c old then new ++ replace_char old new rest
      else String c (replace_char old new rest)
  end.

(** The outcome of a call that may raise. *)
Inductive result (A : Type) : Type :=
| Ok (value : A)
| Raise (exc : string).
Arguments Ok {A} value.
Arguments Raise {A} exc.

End Py.
Import Py.

(** ** Data model *)

Record WorkPackage : Type := mkWorkPackage {
  wp_id : option Z;                        (* wp['id'] *)
  wp_subject : option string;              (* wp['subject'] *)
  wp_embedded_status_name : option string; (* wp['_embedded']['status']['name'] *)
  wp_links_status_title : option string;   (* wp['_links']['status']['title'] *)
  wp_embedded_type_name : option string;   (* wp['_embedded']['type']['name'] *)
  wp_embedded_assignee_name : option string; (* wp['_embedded']['assignee']['name'] *)
  wp_updatedAt : option string;
  wp_createdAt : option string;
  wp_closedOn : option string;
  wp_closedAt : option string;
  wp_dueDate : option string
}.

Record TimeEntry : Type := mkTimeEntry {
  te_hours : option float;                 (* te['hours'] *)
  te_embedded_activity_name : option string (* te['_embedded']['activity']['name'] *)
}.

(** ** report_formatter.py *)

Module ReportFormatter.

Record Metrics : Type := mkMetrics {
  total_wps : Z;
  done_count : Z;
  in_progress_count : Z;
  planned_count : Z;
  blocked_count : Z;
  bug_count : Z;
  feature_count : Z;
  total_hours : float;
  dev_hours : float;
  qa_hours : float;
  management_hours : float
}.

(** [metrics[key] += 1] for each counter, [metrics[key] += hours] for each
    hour total. *)
Definition incr_done (m : Metrics) : Metrics :=
  mkMetrics (total_wps m) (done_count m + 1) (in_progress_count m) (planned_count m)
    (blocked_count m) (bug_count m) (feature_count m)
    (total_hours m) (dev_hours m) (qa_hours m) (management_hours m).
Definition incr_in_progress (m : Metrics) : Metrics :=
  mkMetrics (total_wps m) (done_count m) (in_progress_count m + 1) (planned_count m)
    (blocked_count m) (bug_count m) (feature_count m)
    (total_hours m) (dev_hours m) (qa_hours m) (management_hours m).
Definition incr_planned (m : Metrics) : Metrics :=
  mkMetrics (total_wps m) (done_count m) (in_progress_count m) (planned_count m + 1)
    (blocked_count m) (bug_count m) (feature_count m)
    (total_hours m) (dev_hours m) (qa_hours m) (management_hours m).
Definition incr_blocked (m : Metrics) : Metrics :=
  mkMetrics (total_wps m) (done_count m) (in_progress_count m) (planned_count m)
    (blocked_count m + 1) (bug_count m) (feature_count m)
    (total_hours m) (dev_hours m) (qa_hours m) (management_hours m).
Definition incr_bug (m : Metrics) : Metrics :=
  mkMetrics (total_wps m) (done_count m) (in_progress_count m) (planned_count m)
    (blocked_count m) (bug_count m + 1) (feature_count m)
    (total_hours m) (dev_hours m) (qa_hours m) (management_hours m).
Definition incr_feature (m : Metrics) : Metrics :=
  mkMetrics (total_wps m) (done_count m) (in_progress_count m) (planned_count m)
    (blocked_count m) (bug_count m) (feature_count m + 1)
    (total_hours m) (dev_hours m) (qa_hours m) (management_hours m).
Definition add_total_hours (h : float) (m : Metrics) : Metrics :=
  mkMetrics (total_wps m) (done_count m) (in_progress_count m) (planned_count m)
    (blocked_count m) (bug_count m) (feature_count m)
    (PrimFloat.add (total_hours m) h) (dev_hours m) (qa_hours m) (management_hours m).
Definition add_dev_hours (h : float) (m : Metrics) : Metrics :=
  mkMetrics (total_wps m) (done_count m) (in_progress_count m) (planned_count m)
    (blocked_count m) (bug_count m) (feature_count m)
    (total_hours m) (PrimFloat.add (dev_hours m) h) (qa_hours m) (management_hours m).
Definition add_qa_hours (h : float) (m : Metrics) : Metrics :=
  mkMetrics (total_wps m) (done_count m) (in_progress_count m) (planned_count m)
    (blocked_count m) (bug_count m) (feature_count m)
    (total_hours m) (dev_hours m) (PrimFloat.add (qa_hours m) h) (management_hours m).
Definition add_management_hours (h : float) (m : Metrics) : Metrics :=
  mkMetrics (total_wps m) (done_count m) (in_progress_count m) (planned_count m)
    (blocked_count m) (bug_count m) (feature_count m)
    (total_hours m) (dev_hours m) (qa_hours m) (PrimFloat.add (management_hours m) h).

(** The dictionary [calculate_metrics] starts from. *)
Definition initial_metrics (work_packages : list WorkPackage) : Metrics :=
  mkMetrics (Z.of_nat (length work_packages)) 0 0 0 0 0 0 0%float 0%float 0%float 0%float.

(** Body of [for wp in work_packages] in [calculate_metrics]: the status
    analysis, then the type analysis. *)
Definition metrics_wp_step (metrics : Metrics) (wp : WorkPackage) : Metrics :=
  let status_name := lower (dict_get "" (wp_embedded_status_name wp)) in
  let status_name :=
    if is_empty status_name || (status_name =? "unknown")%string
    then lower (dict_get "" (wp_links_status_title wp))
    else status_name in
  let metrics :=
    if is_empty status_name || (status_name =? "unknown")%string then
      incr_planned metrics
    else if contains "closed" status_name || contains "done" status_name
            || contains "resolved" status_name || contains "completed" status_name
            || contains "finished" status_name then
      incr_done metrics
    else if contains "progress" status_name || contains "development" status_name
            || contains "implementing" status_name then
      incr_in_progress metrics
    else if contains "blocked" status_name then
      incr_blocked metrics
    else if contains "new" status_name || contains "open" status_name
            || contains "specified" status_name || contains "to do" status_name then
      incr_planned metrics
    else
      incr_planned metrics in
  let wp_type := lower (dict_get "" (wp_embedded_type_name wp)) in
  if contains "bug" wp_type || contains "defect" wp_type then
    incr_bug metrics
  else if contains "feature" wp_type || contains "story" wp_type
          || contains "task" wp_type then
    incr_feature metrics
  else
    metrics.

(** Body of [for te in time_entries] in [calculate_metrics]. *)
Definition metrics_te_step (metrics : Metrics) (te : TimeEntry) : Metrics :=
  let hours := dict_get 0%float (te_hours te) in
  let metrics := add_total_hours hours metrics in
  let activity := lower (dict_get "" (te_embedded_activity_name te)) in
  if contains "development" activity || contains "implement" activity then
    add_dev_hours hours metrics
  else if contains "test" activity || contains "qa" activity then
    add_qa_hours hours metrics
  else if contains "management" activity || contains "meeting" activity then
    add_management_hours hours metrics
  else
    metrics.

Definition calculate_metrics
    (work_packages : list WorkPackage) (time_entries : list TimeEntry) : Metrics :=
  fold_left metrics_te_step time_entries
    (fold_left metrics_wp_step work_packages (initial_metrics work_packages)).

(** The dictionary of lists [group_by_status] fills. *)
Record Groups : Type := mkGroups {
  done : list WorkPackage;
  in_progress : list WorkPackage;
  planned : list WorkPackage;
  blocked : list WorkPackage;
  de_scoped : list WorkPackage;
  other : list WorkPackage
}.

Definition empty_groups : Groups := mkGroups [] [] [] [] [] [].

(** [groups[key].append(wp)]. *)
Definition append_done (wp : WorkPackage) (g : Groups) : Groups :=
  mkGroups (done g ++ [wp]) (in_progress g) (planned g) (blocked g) (de_scoped g) (other g).
Definition append_in_progress (wp : WorkPackage) (g : Groups) : Groups :=
  mkGroups (done g) (in_progress g ++ [wp]) (planned g) (blocked g) (de_scoped g) (other g).
Definition append_planned (wp : WorkPackage) (g : Groups) : Groups :=
  mkGroups (done g) (in_progress g) (planned g ++ [wp]) (blocked g) (de_scoped g) (other g).
Definition append_blocked (wp : WorkPackage) (g : Groups) : Groups :=
  mkGroups (done g) (in_progress g) (planned g) (blocked g ++ [wp]) (de_scoped g) (other g).
Definition append_de_scoped (wp : WorkPackage) (g : Groups) : Groups :=
  mkGroups (done g) (in_progress g) (planned g) (blocked g) (de_scoped g ++ [wp]) (other g).

(** Body of [for wp in work_packages] in [group_by_status]. *)
Definition group_step (groups : Groups) (wp : WorkPackage) : Groups :=
  let status_name := lower (dict_get "" (wp_embedded_status_name wp)) in
  let status_name :=
    if is_empty status_name || (status_name =? "unknown")%string
    then lower (dict_get "" (wp_links_status_title wp))
    else status_name in
  if is_empty status_name || (status_name =? "unknown")%string then
    append_planned wp groups
  else if contains "closed" status_name || contains "done" status_name
          || contains "resolved" status_name || contains "completed" status_name
          || contains "finished" status_name then
    append_done wp groups
  else if contains "progress" status_name || contains "development" status_name
          || contains "implementing" status_name then
    append_in_progress wp groups
  else if contains "blocked" status_name then
    append_blocked wp groups
  else if contains "rejected" status_name || contains "cancelled" status_name then
    append_de_scoped wp groups
  else if contains "new" status_name || contains "open" status_name
          || contains "specified" status_name || contains "to do" status_name then
    append_planned wp groups
  else
    append_planned wp groups.

Definition group_by_status (work_packages : list WorkPackage) : Groups :=
  fold_left group_step work_packages empty_groups.

(** The dictionary [detect_blockers] builds for a blocked work package. *)
Record Blocker : Type := mkBlocker {
  blocker_id : option Z;
  blocker_subject : option string;
  blocker_assignee : string;
  blocker_status : option string;
  blocker_reason : string
}.

(** Body of [for wp in work_packages] in [detect_blockers]. *)
Definition blockers_step (blockers : list Blocker) (wp : WorkPackage) : list Blocker :=
  let status_name := lower (dict_get "" (wp_embedded_status_name wp)) in
  if contains "blocked" status_name then
    blockers ++ [ mkBlocker (wp_id wp) (wp_subject wp)
                            (dict_get "Unassigned" (wp_embedded_assignee_name wp))
                            (wp_embedded_status_name wp)
                            "Status marked as blocked" ]
  else
    blockers.

(** [relations] is accepted (default [None]) and never read. *)
Definition detect_blockers {Relation : Type}
    (work_packages : list WorkPackage) (relations : option (list Relation))
    : list Blocker :=
  fold_left blockers_step work_packages [].

(** The status indicator of [format_weekly_report_markdown] (section B):
    the [if]/[elif]/[else] that assigns the local variable [status]. *)
Definition status_indicator (metrics : Metrics) : string :=
  if blocked_count metrics >? 0 then "ðŸ”´ Off track"
  else if done_count metrics <? in_progress_count metrics then "ðŸŸ¡ At risk"
  else "ðŸŸ¢ On track".

(** The de-scoped table of section C assigns the same local variable
    [status] once per de-scoped work package. *)
Definition status_after_de_scoped (status : string) (de_scoped_wps : list WorkPackage)
    : string :=
  fold_left (fun _ wp => dict_get "Unknown" (wp_embedded_status_name wp))
            de_scoped_wps status.

(** Section E appends one table row per blocker and slices the subject of
    each ([blocker['subject'][:40]]): the [TypeError] of the first blocker
    whose subject is [None], if there is one.  On the data modelled here it
    is the only statement of [format_weekly_report_markdown] that raises. *)
Fixpoint impediments_exception (blockers : list Blocker) : option string :=
  match blockers with
  | [] => None
  | blocker :: rest =>
      match blocker_subject blocker with
      | Some _ => impediments_exception rest
      | None => Some "'NoneType' object is not subscriptable"
      end
  end.

(** The parts of [format_weekly_report_markdown] that show the status, with
    the values the variable [status] holds when each is appended to the
    list [report]: the line of section B and the count of section C, both
    appended before section E, and the line of the appendix, which is
    appended only if section E did not raise; otherwise the field holds the
    exception, and the function returns no report.  The other lines of the
    report (tables, hour formatting) are not part of this model. *)
Record StatusLines : Type := mkStatusLines {
  progress_line : string;       (* "**Progress vs Sprint Goal:** {status}\n" *)
  main_impediment_count : Z;    (* len(blockers) *)
  appendix_status_line : result string (* "**Status:** {status}" *)
}.

Definition newline : string := String (ascii_of_nat 10) EmptyString.

Definition format_weekly_report_markdown {Relation : Type}
    (work_packages : list WorkPackage) (time_entries : list TimeEntry)
    (relations : option (list Relation)) : StatusLines :=
  let metrics := calculate_metrics work_packages time_entries in
  let grouped_wps := group_by_status work_packages in
  let blockers := detect_blockers work_packages relations in
  let status := status_indicator metrics in
  let line_b := "**Progress vs Sprint Goal:** " ++ status ++ newline in
  let status := status_after_de_scoped status (de_scoped grouped_wps) in
  mkStatusLines line_b (Z.of_nat (length blockers))
    match impediments_exception blockers with
    | Some exc => Raise exc
    | None => Ok ("**Status:** " ++ status)
    end.

End ReportFormatter.

(** ** The [datetime] functions the report uses *)

Module DateTime.

(** A naive datetime: microseconds since 0001-01-01T00:00:00 plus one day
    (day ordinals start at 1, as [date.toordinal]). *)
Definition datetime : Type := Z.

(** An aware-or-naive datetime as [fromisoformat] returns it: the wall-clock
    fields and the UTC offset in microseconds, if the text had one. *)
Record datetime_tz : Type := mkDatetimeTz {
  wall_clock : datetime;
  utcoffset : option Z
}.

(** [dt.replace(tzinfo=None)]: the wall-clock fields, unchanged. *)
Definition replace_tzinfo_none (dt : datetime_tz) : datetime := wall_clock dt.

Definition is_leap (year : Z) : bool :=
  (year mod 4 =? 0) && (negb (year mod 100 =? 0) || (year mod 400 =? 0)).

Definition days_in_month (year month : Z) : Z :=
  if month =? 2 then (if is_leap year then 29 else 28)
  else if (month =? 4) || (month =? 6) || (month =? 9) || (month =? 11) then 30
  else 31.

Definition days_before_year (year : Z) : Z :=
  let y := year - 1 in
  y * 365 + y / 4 - y / 100 + y / 400.

Fixpoint days_before_month_nat (year : Z) (month : nat) : Z :=
  match month with
  | O => 0
  | S m => days_before_month_nat year m + days_in_month year (Z.of_nat (S m))
  end.

Definition days_before_month (year month : Z) : Z :=
  days_before_month_nat year (Z.to_nat (month - 1)).

Definition ymd2ord (year month day : Z) : Z :=
  days_before_year year + days_before_month year month + day.

Definition microseconds_per_day : Z := 86400 * 1000000.

(** The [datetime(...)] constructor: [None] is its [ValueError]. *)
Definition make_datetime (year month day hour minute second microsecond : Z)
    : option datetime :=
  if (1 <=? year) && (year <=? 9999) && (1 <=? month) && (month <=? 12)
     && (1 <=? day) && (day <=? days_in_month year month)
     && (0 <=? hour) && (hour <=? 23) && (0 <=? minute) && (minute <=? 59)
     && (0 <=? second) && (second <=? 59)
     && (0 <=? microsecond) && (microsecond <=? 999999)
  then Some ((((ymd2ord year month day * 24 + hour) * 60 + minute) * 60 + second)
             * 1000000 + microsecond)
  else None.

(** [dt - timedelta(days=n)]; [None] is the [OverflowError] below year 1. *)
Definition sub_days (dt : datetime) (days : Z) : option datetime :=
  let r := dt - days * microseconds_per_day in
  if microseconds_per_day <=? r then Some r else None.

Definition digit (c : ascii) : option Z :=
  let n := nat_of_ascii c in
  if andb (Nat.leb 48 n) (Nat.leb n 57) then Some (Z.of_nat (n - 48)) else None.

Fixpoint parse_digits (s : string) (acc : Z) : option Z :=
  match s with
  | EmptyString => Some acc
  | String c rest =>
      match digit c with
      | Some d => parse_digits rest (10 * acc + d)
      | None => None
      end
  end.

Definition two_digits (a b : ascii) : option Z :=
  match digit a, digit b with
  | Some x, Some y => Some (10 * x + y)
  | _, _ => None
  end.

Definition four_digits (a b c d : ascii) : option Z :=
  match two_digits a b, two_digits c d with
  | Some x, Some y => Some (100 * x + y)
  | _, _ => None
  end.

(** The month of [%m]: [1[0-2]|0[1-9]|[1-9]], up to the next [-]. *)
Definition strptime_month (s : string) : option (Z * string) :=
  match s with
  | String a (String "-" rest) =>
      match digit a with
      | Some x => if 1 <=? x then Some (x, rest) else None
      | None => None
      end
  | String a (String b (String "-" rest)) =>
      match two_digits a b with
      | Some x => if (1 <=? x) && (x <=? 12) then Some (x, rest) else None
      | None => None
      end
  | _ => None
  end.

(** The first character of a text: the code point its UTF-8 sequence
    encodes, and the text after it. *)
Definition continuation_byte (c : ascii) : option Z :=
  let n := Z.of_nat (nat_of_ascii c) in
  if (128 <=? n) && (n <=? 191) then Some (n - 128) else None.

Definition utf8_head (s : string) : option (Z * string) :=
  match s with
  | EmptyString => None
  | String a rest =>
      let n := Z.of_nat (nat_of_ascii a) in
      if n <? 128 then Some (n, rest)
      else if (194 <=? n) && (n <=? 223) then
        match rest with
        | String b rest =>
            match continuation_byte b with
            | Some x => Some ((n - 192) * 64 + x, rest)
            | None => None
            end
        | EmptyString => None
        end
      else if (224 <=? n) && (n <=? 239) then
        match rest with
        | String b (String c rest) =>
            match continuation_byte b, continuation_byte c with
            | Some x, Some y =>
                let cp := ((n - 224) * 64 + x) * 64 + y in
                if 2048 <=? cp then Some (cp, rest) else None
            | _, _ => None
            end
        | _ => None
        end
      else if (240 <=? n) && (n <=? 244) then
        match rest with
        | String b (String c (String d rest)) =>
            match continuation_byte b, continuation_byte c, continuation_byte d with
            | Some x, Some y, Some z =>
                let cp := (((n - 240) * 64 + x) * 64 + y) * 64 + z in
                if 65536 <=? cp then Some (cp, rest) else None
            | _, _, _ => None
            end
        | _ => None
        end
      else None
  end.

(** The code points of the digit zero of each script: the characters of
    category Nd come in runs of ten, zero to nine.  The table is that of
    Unicode 14 (CPython 3.11); a later version of Unicode adds runs to it. *)
Definition decimal_zeros : list Z :=
  [48; 1632; 1776; 1984; 2406; 2534; 2662; 2790; 2918; 3046; 3174; 3302;
   3430; 3558; 3664; 3792; 3872; 4160; 4240; 6112; 6160; 6470; 6608; 6784;
   6800; 6992; 7088; 7232; 7248; 42528; 43216; 43264; 43472; 43504; 43600;
   44016; 65296; 66720; 68912; 69734; 69872; 69942; 70096; 70384; 70736;
   70864; 71248; 71360; 71472; 71904; 72016; 72784; 73040; 73120; 92768;
   92864; 93008; 120782; 120792; 120802; 120812; 120822; 123200; 123632;
   125264; 130032].

(** The value of a decimal digit of any script, as [int] reads it. *)
Definition decimal_value (code_point : Z) : option Z :=
  match find (fun zero => (zero <=? code_point) && (code_point <? zero + 10))
             decimal_zeros with
  | Some zero => Some (code_point - zero)
  | None => None
  end.

(** One character matched by [\d], with its value. *)
Definition take_decimal (s : string) : option (Z * string) :=
  match utf8_head s with
  | Some (code_point, rest) =>
      match decimal_value code_point with
      | Some d => Some (d, rest)
      | None => None
      end
  | None => None
  end.

(** The year of [%Y]: [\d\d\d\d], digits of any script. *)
Definition strptime_year (s : string) : option (Z * string) :=
  match take_decimal s with
  | Some (a, s) =>
      match take_decimal s with
      | Some (b, s) =>
          match take_decimal s with
          | Some (c, s) =>
              match take_decimal s with
              | Some (d, s) => Some (((a * 10 + b) * 10 + c) * 10 + d, s)
              | None => None
              end
          | None => None
          end
      | None => None
      end
  | None => None
  end.

(** An ASCII digit from [lo] up, at the end of the text. *)
Definition last_digit_from (lo : Z) (s : string) : option Z :=
  match s with
  | String b EmptyString =>
      match digit b with
      | Some y => if lo <=? y then Some y else None
      | None => None
      end
  | _ => None
  end.

(** The day of [%d]: [3[0-1]|[1-2]\d|0[1-9]|[1-9]| [1-9]], up to the end.
    Only the [\d] after 1 or 2 takes a digit of any script. *)
Definition strptime_day (s : string) : option Z :=
  match s with
  | EmptyString => None
  | String a EmptyString => last_digit_from 1 s
  | String a rest =>
      if Ascii.eqb a " " then last_digit_from 1 rest
      else
        match digit a with
        | Some x =>
            if x =? 3 then
              match last_digit_from 0 rest with
              | Some y => if y <=? 1 then Some (30 + y) else None
              | None => None
              end
            else if (x =? 1) || (x =? 2) then
              match take_decimal rest with
              | Some (y, EmptyString) => Some (10 * x + y)
              | _ => None
              end
            else if x =? 0 then last_digit_from 1 rest
            else None
        | None => None
        end
  end.

(** [datetime.strptime(s, "%Y-%m-%d")]; [None] is its [ValueError].  The
    result is midnight of the day. *)
Definition strptime_ymd (s : string) : option datetime :=
  match strptime_year s with
  | Some (year, String "-" rest) =>
      match strptime_month rest with
      | Some (month, rest) =>
          match strptime_day rest with
          | Some day => make_datetime year month day 0 0 0 0
          | None => None
          end
      | None => None
      end
  | _ => None
  end.

(** The fraction after the decimal point: three or six digits. *)
Definition parse_fraction (s : string) : option Z :=
  match String.length s with
  | 3%nat => option_map (Z.mul 1000) (parse_digits s 0)
  | 6%nat => parse_digits s 0
  | _ => None
  end.

(** [HH[:MM[:SS[.fff[fff]]]]]. *)
Definition parse_hh_mm_ss_ff (tstr : string) : option (Z * Z * Z * Z) :=
  match tstr with
  | String h1 (String h2 rest) =>
      match two_digits h1 h2, rest with
      | Some hh, EmptyString => Some (hh, 0, 0, 0)
      | Some hh, String ":" (String m1 (String m2 rest)) =>
          match two_digits m1 m2, rest with
          | Some mm, EmptyString => Some (hh, mm, 0, 0)
          | Some mm, String ":" (String s1 (String s2 rest)) =>
              match two_digits s1 s2, rest with
              | Some ss, EmptyString => Some (hh, mm, ss, 0)
              | Some ss, String "." frac =>
                  option_map (fun us => (hh, mm, ss, us)) (parse_fraction frac)
              | _, _ => None
              end
          | _, _ => None
          end
      | _, _ => None
      end
  | _ => None
  end.

(** Position of the first [-] of [s], else of its first [+]. *)
Fixpoint find_char (c : ascii) (s : string) : option nat :=
  match s with
  | EmptyString => None
  | String a rest =>
      if Ascii.eqb a c then Some O else option_map S (find_char c rest)
  end.

Definition find_tz_sign (tstr : string) : option nat :=
  match find_char "-" tstr with
  | Some p => Some p
  | None => find_char "+" tstr
  end.

(** The time part with its optional offset
    [HH[:MM[:SS[.fff[fff]]]][+HH:MM[:SS[.ffffff]]]]. *)
Definition parse_isoformat_time (tstr : string)
    : option (Z * Z * Z * Z * option Z) :=
  match find_tz_sign tstr with
  | None => option_map (fun t => (t, None)) (parse_hh_mm_ss_ff tstr)
  | Some p =>
      let timestr := String.substring 0 p tstr in
      let tzstr := String.substring (S p) (String.length tstr - S p) tstr in
      let negative :=
        match String.get p tstr with
        | Some c => Ascii.eqb c "-"
        | None => false
        end in
      let len := String.length tzstr in
      if Nat.eqb len 5 || Nat.eqb len 8 || Nat.eqb len 15 then
        match parse_hh_mm_ss_ff timestr, parse_hh_mm_ss_ff tzstr with
        | Some t, Some (h, m, s, us) =>
            let off := ((h * 60 + m) * 60 + s) * 1000000 + us in
            if off <? microseconds_per_day
            then Some (t, Some (if negative then - off else off))
            else None
        | _, _ => None
        end
      else None
  end.

(** [datetime.fromisoformat(s)] for the texts [isoformat()] emits,
    [YYYY-MM-DD[*HH[:MM[:SS[.fff[fff]]]][+HH:MM[:SS[.ffffff]]]]]; [None] is
    its [ValueError]. *)
Definition fromisoformat (date_string : string) : option datetime_tz :=
  let dstr := String.substring 0 10 date_string in
  let tstr := String.substring 11 (String.length date_string - 11) date_string in
  match dstr with
  | String y1 (String y2 (String y3 (String y4 (String "-"
      (String m1 (String m2 (String "-" (String d1 (String d2 EmptyString))))))))) =>
      match four_digits y1 y2 y3 y4, two_digits m1 m2, two_digits d1 d2 with
      | Some year, Some month, Some day =>
          if is_empty tstr then
            option_map (fun w => mkDatetimeTz w None)
                       (make_datetime year month day 0 0 0 0)
          else
            match parse_isoformat_time tstr with
            | Some (hh, mm, ss, us, tz) =>
                option_map (fun w => mkDatetimeTz w tz)
                           (make_datetime year month day hh mm ss us)
            | None => None
            end
      | _, _, _ => None
      end
  | _ => None
  end.

End DateTime.


(** ** weekly_reports.py *)

Module WeeklyReports.

Import DateTime.

(** *** The collaborator: an OpenProject client *)

(** The envelope of a listing: [result["_embedded"]["elements"]] and
    [result["total"]]. *)
Record Envelope (A : Type) : Type := mkEnvelope {
  env_elements : option (list A);
  env_total : option Z
}.
Arguments mkEnvelope {A} env_elements env_total.
Arguments env_elements {A} e.
Arguments env_total {A} e.

Record Project : Type := mkProject {
  project_id_field : option Z;
  project_name : option string;
  project_description_raw : option string
}.

Record Member : Type := mkMember { member_name : option string }.

Record Relation : Type := mkRelation { relation_type : option string }.

(** The five operations of the client the report code calls.  A client
    answers by a function of the request: the data it serves do not change
    during a report run. *)
Record Client : Type := mkClient {
  get_project : Z -> result Project;
  get_work_packages : Z -> string -> Z -> Z -> result (Envelope WorkPackage);
  get_memberships : Z -> result (Envelope Member);
  get_time_entries : string -> result (Envelope TimeEntry);
  get_relations : Z -> result (Envelope Relation)
}.

(** A request sent to the collaborator. *)
Inductive request : Type :=
| ReqProject (project_id : Z)
| ReqWorkPackages (project_id : Z) (filters : string) (offset page_size : Z)
| ReqMemberships (project_id : Z)
| ReqTimeEntries (filters : string)
| ReqRelations (work_package_id : Z).

(** *** Computations that call the client

    A computation takes the requests sent so far and, unless its loop runs
    out of fuel ([None]), gives a value or an exception together with the
    requests sent by then. *)
Definition M (A : Type) : Type :=
  list request -> option (result A * list request).

Definition ret {A : Type} (a : A) : M A :=
  fun log => Some (Ok a, log).

Definition raise {A : Type} (exc : string) : M A :=
  fun log => Some (Raise exc, log).

Definition bind {A B : Type} (c : M A) (k : A -> M B) : M B :=
  fun log =>
    match c log with
    | Some (Ok a, log') => k a log'
    | Some (Raise exc, log') => Some (Raise exc, log')
    | None => None
    end.

(** [try: c  except Exception as e: handler(str(e))]. *)
Definition try_except {A : Type} (c : M A) (handler : string -> M A) : M A :=
  fun log =>
    match c log with
    | Some (Raise exc, log') => handler exc log'
    | r => r
    end.

(** [await client.op(...)]: the request is sent, the response returned or
    raised. *)
Definition call {A : Type} (req : request) (response : result A) : M A :=
  fun log => Some (response, (log ++ [req])%list).

(** A call that may raise without sending anything. *)
Definition lift {A : Type} (r : result A) : M A :=
  fun log => Some (r, log).

Definition out_of_fuel {A : Type} : M A := fun _ => None.

Declare Scope report_scope.
Delimit Scope report_scope with report.
Notation "x <- c ;; k" := (bind c (fun x => k))
  (at level 61, c at next level, right associativity) : report_scope.
Local Open Scope report_scope.

(** [for x in xs: acc = body(acc, x)] with a body that calls the client. *)
Fixpoint for_each {A B : Type} (body : B -> A -> M B) (xs : list A) (acc : B) : M B :=
  match xs with
  | [] => ret acc
  | x :: rest => acc' <- body acc x ;; for_each body rest acc'
  end.

Definition dquote : string := String (ascii_of_nat 34) EmptyString.

(** [json.dumps(s)] for a text without characters to escape. *)
Definition json_str (s : string) : string := dquote ++ s ++ dquote.

(** [str(n)] for an integer. *)
Definition str_of_int (n : Z) : string :=
  DecimalString.NilZero.string_of_int (Z.to_int n).

(** [json.dumps([{"status": {"operator": "*", "values": []}}])]. *)
Definition all_status_filters_json : string :=
  "[{" ++ json_str "status" ++ ": {" ++ json_str "operator" ++ ": "
  ++ json_str "*" ++ ", " ++ json_str "values" ++ ": []}}]".

Definition page_size : Z := 500.

(** The [while True] loop of [_fetch_all_project_work_packages]; one unit of
    fuel per page request. *)
Fixpoint fetch_loop (fuel : nat) (client : Client) (project_id : Z)
    (all_work_packages : list WorkPackage) (offset : Z) : M (list WorkPackage) :=
  match fuel with
  | O => out_of_fuel
  | S fuel' =>
      wp_result <- call (ReqWorkPackages project_id all_status_filters_json offset page_size)
                        (get_work_packages client project_id all_status_filters_json
                                           offset page_size) ;;
      let elements := dict_get [] (env_elements wp_result) in
      match elements with
      | [] => ret all_work_packages
      | _ :: _ =>
          let all_work_packages := (all_work_packages ++ elements)%list in
          let total := dict_get 0 (env_total wp_result) in
          if offset + page_size >=? total then ret all_work_packages
          else fetch_loop fuel' client project_id all_work_packages (offset + page_size)
      end
  end.

Definition _fetch_all_project_work_packages (fuel : nat) (client : Client)
    (project_id : Z) : M (list WorkPackage) :=
  fetch_loop fuel client project_id [] 0.

(** *** The relevance filter of [_generate_weekly_report_impl] *)

Definition closed_status_keywords : list string :=
  ["closed"; "done"; "resolved"; "completed"; "finished"].

(** [any(keyword in status_name for keyword in closed_status_keywords)]. *)
Definition is_closed_status (wp : WorkPackage) : bool :=
  let status_name := lower (dict_get "" (wp_embedded_status_name wp)) in
  existsb (fun keyword => contains keyword status_name) closed_status_keywords.

(** [datetime.fromisoformat(s.replace('Z', '+00:00')).replace(tzinfo=None)];
    raises [ValueError] on text that does not parse. *)
Definition parse_timestamp (s : string) : result datetime :=
  match fromisoformat (replace_char "Z" "+00:00" s) with
  | Some dt => Ok (replace_tzinfo_none dt)
  | None => Raise ("Invalid isoformat string: " ++ s)
  end.

(** [lo <= dt <= hi]. *)
Definition between (lo dt hi : datetime) : bool := (lo <=? dt) && (dt <=? hi).

Definition bind_result {A B : Type} (r : result A) (k : A -> result B) : result B :=
  match r with
  | Ok a => k a
  | Raise exc => Raise exc
  end.

(** The last part of the [try] body, for a work package with a closed-type
    status: updated within 30 days before the report end, or a closed date
    within the window. *)
Definition closed_status_checks (from_dt to_dt : datetime) (wp : WorkPackage)
    : result bool :=
  let updated_at := dict_get "" (wp_updatedAt wp) in
  let closed_date_check :=
    let closed_on := str_or (dict_get "" (wp_closedOn wp)) (dict_get "" (wp_closedAt wp)) in
    if negb (is_empty closed_on) then
      bind_result (parse_timestamp closed_on) (fun closed_dt =>
        Ok (between from_dt closed_dt to_dt))
    else Ok false in
  if negb (is_empty updated_at) then
    bind_result (parse_timestamp updated_at) (fun updated_dt =>
      match sub_days to_dt 30 with
      | None => Raise "date value out of range"
      | Some cutoff_date =>
          if between cutoff_date updated_dt to_dt then Ok true
          else closed_date_check
      end)
  else closed_date_check.

(** The [try] body of the filter loop: [Ok true] when the work package is
    appended, [Ok false] when no check matched, [Raise] when a date did not
    parse. *)
Definition relevance_checks (from_dt to_dt : datetime) (wp : WorkPackage)
    : result bool :=
  let updated_at := dict_get "" (wp_updatedAt wp) in
  let created_at := dict_get "" (wp_createdAt wp) in
  let after_created :=
    if is_closed_status wp then closed_status_checks from_dt to_dt wp
    else Ok false in
  let after_updated :=
    if negb (is_empty created_at) then
      bind_result (parse_timestamp created_at) (fun created_dt =>
        if between from_dt created_dt to_dt then Ok true else after_created)
    else after_created in
  if negb (is_empty updated_at) then
    bind_result (parse_timestamp updated_at) (fun updated_dt =>
      if between from_dt updated_dt to_dt then Ok true else after_updated)
  else after_updated.

(** One work package of the filter loop: the [try] body, and the [except]
    branch that keeps the work package only if its status is closed-type
    (the warning it logs is left out). *)
Definition is_relevant (from_dt to_dt : datetime) (wp : WorkPackage) : bool :=
  match relevance_checks from_dt to_dt wp with
  | Ok appended => appended
  | Raise _ => is_closed_status wp
  end.

(** The filter loop [for wp in all_work_packages]. *)
Definition filter_relevant (from_dt to_dt : datetime)
    (all_work_packages : list WorkPackage) : list WorkPackage :=
  fold_left (fun work_packages wp =>
               if is_relevant from_dt to_dt wp then (work_packages ++ [wp])%list
               else work_packages)
            all_work_packages [].

(** *** The report entry point *)

Record GenerateWeeklyReportInput : Type := mkGenerateWeeklyReportInput {
  project_id : Z;
  from_date : string;
  to_date : string;
  sprint_goal : option string;
  team_name : option string;
  format : string
}.

Record GetReportDataInput : Type := mkGetReportDataInput {
  data_project_id : Z;
  data_from_date : string;
  data_to_date : string
}.

(** The filter expression of the time-entry listing: [json.dumps] of the
    [spentOn] range and the project. *)
Definition time_filters_json (from_date to_date : string) (project_id : Z) : string :=
  "[{" ++ json_str "spentOn" ++ ": {" ++ json_str "operator" ++ ": " ++ json_str "<>d"
  ++ ", " ++ json_str "values" ++ ": [" ++ json_str from_date ++ ", "
  ++ json_str to_date ++ "]}}, {" ++ json_str "project" ++ ": {"
  ++ json_str "operator" ++ ": " ++ json_str "=" ++ ", " ++ json_str "values" ++ ": ["
  ++ json_str (str_of_int project_id) ++ "]}}]".

(** Body of [for wp in work_packages[:10]]: the relations of one work
    package, any failure ignored. *)
Definition relations_step (client : Client) (relations : list Relation)
    (wp : WorkPackage) : M (list Relation) :=
  try_except
    (match wp_id wp with
     | None => raise "'id'"
     | Some work_package_id =>
         rel_result <- call (ReqRelations work_package_id)
                            (get_relations client work_package_id) ;;
         ret (relations ++ dict_get [] (env_elements rel_result))%list
     end)
    (fun _ => ret relations).

Section EntryPoint.

(** [format_error] of [src.utils.formatting], which turns a message into
    the error line returned to the caller. *)
Variable format_error : string -> string.

(** [get_client()] of [src.server]: the configured client, or the exception
    it raises. *)
Variable get_client : result Client.

(** The two renderings as text: [format_weekly_report_markdown(...)], and
    [json.dumps(format_report_data_json(...), indent=2, ensure_ascii=False)].
    Each gives the text or the exception raised while it is built. *)
Variable render_markdown :
  Project -> list WorkPackage -> list TimeEntry -> list Member ->
  string -> string -> option string -> option string -> list Relation ->
  result string.
Variable render_json :
  Project -> list WorkPackage -> list TimeEntry -> list Member ->
  list Relation -> result string.

Definition _generate_weekly_report_impl (fuel : nat)
    (input : GenerateWeeklyReportInput) : M string :=
  try_except
    (client <- lift get_client ;;
     match strptime_ymd (from_date input), strptime_ymd (to_date input) with
     | Some from_dt, Some to_dt =>
         if from_dt >? to_dt then
           ret (format_error "from_date must be before or equal to to_date")
         else
           project <- call (ReqProject (project_id input))
                           (get_project client (project_id input)) ;;
           all_work_packages <-
             _fetch_all_project_work_packages fuel client (project_id input) ;;
           let work_packages := filter_relevant from_dt to_dt all_work_packages in
           members_result <- call (ReqMemberships (project_id input))
                                  (get_memberships client (project_id input)) ;;
           let members := dict_get [] (env_elements members_result) in
           let time_filters :=
             time_filters_json (from_date input) (to_date input) (project_id input) in
           te_result <- call (ReqTimeEntries time_filters)
                             (get_time_entries client time_filters) ;;
           let time_entries := dict_get [] (env_elements te_result) in
           relations <- for_each (relations_step client) (firstn 10 work_packages) [] ;;
           if (lower (format input) =? "json")%string then
             lift (render_json project work_packages time_entries members relations)
           else
             lift (render_markdown project work_packages time_entries members
                     (from_date input) (to_date input)
                     (sprint_goal input) (team_name input) relations)
     | _, _ => ret (format_error "Invalid date format. Use YYYY-MM-DD")
     end)
    (fun e => ret (format_error ("Failed to generate weekly report: " ++ e))).

(** The tool [generate_weekly_report]. *)
Definition generate_weekly_report (fuel : nat) (input : GenerateWeeklyReportInput)
    : M string :=
  _generate_weekly_report_impl fuel input.

(** The text of [get_report_data]: [json.dumps] of the metadata (with the
    clock's [generated_at]) and of [format_report_data_json(...)]. *)
Variable render_report_data :
  GetReportDataInput -> Project -> list WorkPackage -> list TimeEntry ->
  list Member -> result string.

(** The tool [get_report_data]: the same validation, fetch and filter, no
    relations. *)
Definition get_report_data (fuel : nat) (input : GetReportDataInput) : M string :=
  try_except
    (client <- lift get_client ;;
     match strptime_ymd (data_from_date input), strptime_ymd (data_to_date input) with
     | Some from_dt, Some to_dt =>
         if from_dt >? to_dt then
           ret (format_error "from_date must be before or equal to to_date")
         else
           project <- call (ReqProject (data_project_id input))
                           (get_project client (data_project_id input)) ;;
           all_work_packages <-
             _fetch_all_project_work_packages fuel client (data_project_id input) ;;
           let work_packages := filter_relevant from_dt to_dt all_work_packages in
           members_result <- call (ReqMemberships (data_project_id input))
                                  (get_memberships client (data_project_id input)) ;;
           let members := dict_get [] (env_elements members_result) in
           let time_filters :=
             time_filters_json (data_from_date input) (data_to_date input)
                               (data_project_id input) in
           te_result <- call (ReqTimeEntries time_filters)
                             (get_time_entries client time_filters) ;;
           let time_entries := dict_get [] (env_elements te_result) in
           lift (render_report_data input project work_packages time_entries members)
     | _, _ => ret (format_error "Invalid date format. Use YYYY-MM-DD")
     end)
    (fun e => ret (format_error ("Failed to get report data: " ++ e))).

(** The Monday and the Sunday of the current week and of the previous week,
    as the shortcuts compute them from [datetime.now()] and print them with
    [strftime("%Y-%m-%d")]. *)
Variable this_week : result (string * string).
Variable last_week : result (string * string).

(** [GenerateWeeklyReportInput(...)] with its field check [project_id > 0]. *)
Definition validated_input (project_id : Z) (from_date to_date : string)
    (team_name : option string) : result GenerateWeeklyReportInput :=
  if project_id >? 0 then
    Ok (mkGenerateWeeklyReportInput project_id from_date to_date None team_name
                                    "markdown")
  else Raise "1 validation error for GenerateWeeklyReportInput".

(** The tools [generate_this_week_report] and [generate_last_week_report]. *)
Definition generate_this_week_report (fuel : nat) (project_id : Z)
    (team_name : option string) : M string :=
  try_except
    (dates <- lift this_week ;;
     input_data <- lift (validated_input project_id (fst dates) (snd dates) team_name) ;;
     _generate_weekly_report_impl fuel input_data)
    (fun e => ret (format_error ("Failed to generate this week's report: " ++ e))).

Definition generate_last_week_report (fuel : nat) (project_id : Z)
    (team_name : option string) : M string :=
  try_except
    (dates <- lift last_week ;;
     input_data <- lift (validated_input project_id (fst dates) (snd dates) team_name) ;;
     _generate_weekly_report_impl fuel input_data)
    (fun e => ret (format_error ("Failed to generate last week's report: " ++ e))).

End EntryPoint.

(** Modelled from the spec: the collaborator's paginated work-item listing
    (section 6: it takes a project id, a filter expression, an offset and a
    page size, and returns an envelope with a total count and an element
    list).  A server holding [records] answers with the slice that starts at
    [offset] and with the number of records it holds. *)
Definition paged_work_packages (records : list WorkPackage)
    (project_id : Z) (filters : string) (offset page_size : Z)
    : result (Envelope WorkPackage) :=
  Ok (mkEnvelope
        (Some (firstn (Z.to_nat page_size) (skipn (Z.to_nat offset) records)))
        (Some (Z.of_nat (length records)))).

(** The request for the page that starts at [offset]. *)
Definition page_request (project_id offset : Z) : request :=
  ReqWorkPackages project_id all_status_filters_json offset page_size.

(** A client whose work-item listing is [paged_work_packages records]; the
    other operations are those of [base]. *)
Definition paged_client (base : Client) (records : list WorkPackage) : Client :=
  mkClient (get_project base) (paged_work_packages records)
           (get_memberships base) (get_time_entries base) (get_relations base).

(** The offsets of the page requests a listing of [n] records needs: one
    request per started page, and one request when there is no record. *)
Definition page_offsets (n : nat) : list Z :=
  map (fun k => Z.of_nat k * page_size) (seq 0 (Nat.max 1 ((n + 499) / 500))).

Definition page_requests (project_id : Z) (n : nat) : list request :=
  map (page_request project_id) (page_offsets n).

End WeeklyReports.

(** ** The classification rule as the specification words it *)

Module Spec.

Import ReportFormatter.

(** The fixed set of status categories. *)
Inductive Category : Type := Done | InProgress | Planned | Blocked | DeScoped.

Definition category_eqb (a b : Category) : bool :=
  match a, b with
  | Done, Done | InProgress, InProgress | Planned, Planned
  | Blocked, Blocked | DeScoped, DeScoped => true
  | _, _ => false
  end.

(** The label contains one of the keywords. *)
Definition has_any (keywords : list string) (label : string) : bool :=
  existsb (fun keyword => contains keyword label) keywords.

(** [classify(label)]: substring match on the lowercased label, first match
    wins, anything else is planned. *)
Definition classify (label : string) : Category :=
  let l := lower label in
  if has_any ["closed"; "done"; "resolved"; "completed"; "finished"] l then Done
  else if has_any ["progress"; "development"; "implementing"] l then InProgress
  else if has_any ["blocked"] l then Blocked
  else if has_any ["rejected"; "cancelled"] l then DeScoped
  else if has_any ["new"; "open"; "specified"; "to do"] l then Planned
  else Planned.

(** Every keyword of the five groups. *)
Definition all_keywords : list string :=
  ["closed"; "done"; "resolved"; "completed"; "finished";
   "progress"; "development"; "implementing";
   "blocked";
   "rejected"; "cancelled";
   "new"; "open"; "specified"; "to do"].

(** The two-tier label lookup: the structured field, and the link title only
    if the structured field is empty or equals "unknown". *)
Definition status_label (wp : WorkPackage) : string :=
  let primary := dict_get "" (wp_embedded_status_name wp) in
  if is_empty primary || (lower primary =? "unknown")%string
  then dict_get "" (wp_links_status_title wp)
  else primary.

Definition category (wp : WorkPackage) : Category := classify (status_label wp).

(** The work packages of one category, in input order. *)
Definition members_of (c : Category) (work_packages : list WorkPackage)
    : list WorkPackage :=
  filter (fun wp => category_eqb (category wp) c) work_packages.

(** The blocker test: the primary label, lowercased, contains "blocked". *)
Definition is_blocker (wp : WorkPackage) : bool :=
  contains "blocked" (lower (dict_get "" (wp_embedded_status_name wp))).

(** The blocker record of a work package. *)
Definition blocker_of (wp : WorkPackage) : Blocker :=
  mkBlocker (wp_id wp) (wp_subject wp)
            (dict_get "Unassigned" (wp_embedded_assignee_name wp))
            (wp_embedded_status_name wp)
            "Status marked as blocked".

(** The type tests of the metrics. *)
Definition is_bug_type (wp : WorkPackage) : bool :=
  has_any ["bug"; "defect"] (lower (dict_get "" (wp_embedded_type_name wp))).

Definition is_feature_type (wp : WorkPackage) : bool :=
  has_any ["feature"; "story"; "task"] (lower (dict_get "" (wp_embedded_type_name wp))).

(** The closed date of a work package, [closedOn] or else [closedAt], exists
    and falls within the window. *)
Definition closed_date_in_window (from_dt to_dt : DateTime.datetime) (wp : WorkPackage)
    : bool :=
  let closed_on := str_or (dict_get "" (wp_closedOn wp)) (dict_get "" (wp_closedAt wp)) in
  negb (is_empty closed_on) &&
  match WeeklyReports.parse_timestamp closed_on with
  | Ok closed_dt => WeeklyReports.between from_dt closed_dt to_dt
  | Raise _ => false
  end.

(** A timestamp field is present and falls within [lo, hi]. *)
Definition field_between (lo hi : DateTime.datetime) (field : option string) : bool :=
  let s := dict_get "" field in
  negb (is_empty s) &&
  match WeeklyReports.parse_timestamp s with
  | Ok dt => WeeklyReports.between lo dt hi
  | Raise _ => false
  end.

(** Steps 1 to 3 of the relevance cascade. *)
Definition step1 (from_dt to_dt : DateTime.datetime) (wp : WorkPackage) : bool :=
  field_between from_dt to_dt (wp_updatedAt wp).

Definition step2 (from_dt to_dt : DateTime.datetime) (wp : WorkPackage) : bool :=
  field_between from_dt to_dt (wp_createdAt wp).

Definition step3 (to_dt : DateTime.datetime) (wp : WorkPackage) : bool :=
  WeeklyReports.is_closed_status wp &&
  field_between (to_dt - 30 * DateTime.microseconds_per_day) to_dt (wp_updatedAt wp).

(** Modelled from the spec: a well-formed date of a report request
    (inputs: calendar dates, ISO [YYYY-MM-DD]), that is four digits, two
    digits and two digits with hyphens between them, naming a day of the
    calendar. *)
Definition well_formed_ymd (s : string) : bool :=
  match s with
  | String y1 (String y2 (String y3 (String y4 (String "-"
      (String m1 (String m2 (String "-" (String d1 (String d2 EmptyString))))))))) =>
      match DateTime.four_digits y1 y2 y3 y4, DateTime.two_digits m1 m2,
            DateTime.two_digits d1 d2 with
      | Some year, Some month, Some day =>
          match DateTime.make_datetime year month day 0 0 0 0 with
          | Some _ => true
          | None => false
          end
      | _, _, _ => false
      end
  | _ => false
  end.

End Spec.

(** ** Derived notions used to state the properties *)

Import ReportFormatter DateTime WeeklyReports.

(** What [group_by_status] appends to for a category. *)
Definition append_category (c : Spec.Category) (wp : WorkPackage) (g : Groups) : Groups :=
  match c with
  | Spec.Done => append_done wp g
  | Spec.InProgress => append_in_progress wp g
  | Spec.Planned => append_planned wp g
  | Spec.Blocked => append_blocked wp g
  | Spec.DeScoped => append_de_scoped wp g
  end.

(** What [calculate_metrics] counts for a category: it has no de-scoped
    counter, a de-scoped work package lands in its final [else]. *)
Definition count_category (c : Spec.Category) (m : Metrics) : Metrics :=
  match c with
  | Spec.Done => incr_done m
  | Spec.InProgress => incr_in_progress m
  | Spec.Planned => incr_planned m
  | Spec.Blocked => incr_blocked m
  | Spec.DeScoped => incr_planned m
  end.

Definition count_type (wp : WorkPackage) (m : Metrics) : Metrics :=
  if Spec.is_bug_type wp then incr_bug m
  else if Spec.is_feature_type wp then incr_feature m
  else m.

(** Number of work packages of a category. *)
Definition count (c : Spec.Category) (work_packages : list WorkPackage) : Z :=
  Z.of_nat (length (Spec.members_of c work_packages)).

(** Number of work packages counted as bug, and as feature. *)
Definition bugs (work_packages : list WorkPackage) : Z :=
  Z.of_nat (length (filter Spec.is_bug_type work_packages)).

Definition features (work_packages : list WorkPackage) : Z :=
  Z.of_nat (length (filter (fun wp => negb (Spec.is_bug_type wp)
                                      && Spec.is_feature_type wp) work_packages)).

(** A work package with other closed dates. *)
Definition with_closed_dates (wp : WorkPackage) (closed_on closed_at : option string)
    : WorkPackage :=
  mkWorkPackage (wp_id wp) (wp_subject wp) (wp_embedded_status_name wp)
                (wp_links_status_title wp) (wp_embedded_type_name wp)
                (wp_embedded_assignee_name wp) (wp_updatedAt wp) (wp_createdAt wp)
                closed_on closed_at (wp_dueDate wp).

(** The messages of a request that is rejected before any fetch: the two
    validation messages, and the message of a failure of [get_client()]. *)
Definition rejection (get_client : result Client) (prefix message : string) : Prop :=
  message = "Invalid date format. Use YYYY-MM-DD"
  \/ message = "from_date must be before or equal to to_date"
  \/ exists exc, get_client = Raise exc /\ message = prefix ++ exc.

(** ** Work packages used as instances *)

Module Examples.

(** A work package with an id, a status label and a type label, and no
    other field. *)
Definition labelled (id : Z) (status type : string) : WorkPackage :=
  mkWorkPackage (Some id) (Some "Subject") (Some status) None (Some type)
                None None None None None None.

(** A rejected task: grouped as de-scoped. *)
Definition rejected_task : WorkPackage := labelled 7 "Rejected" "Task".

(** A work package whose label names both a blocked and an in-progress
    state. *)
Definition blocked_in_progress : WorkPackage :=
  labelled 8 "Blocked (in progress)" "Task".

(** A type label that names both a bug and a task. *)
Definition bug_task : WorkPackage := labelled 9 "New" "Bug / Task".

(** A work package with its timestamps. *)
Definition dated (id : Z) (status : string) (updated created : string)
    (closed_on : option string) : WorkPackage :=
  mkWorkPackage (Some id) (Some "Subject") (Some status) None (Some "Task")
                None (Some updated) (Some created) closed_on None None.

(** The report week of the tool's docstring: Tuesday 2025-12-02 to Monday
    2025-12-08. *)
Definition week_from : string := "2025-12-02".
Definition week_to : string := "2025-12-08".

(** Updated at midnight of the first day of the week. *)
Definition updated_first_midnight : WorkPackage :=
  dated 1 "In Progress" "2025-12-02T00:00:00Z" "2025-11-01T09:00:00Z" None.

(** Updated on the last day of the week, at 23:59. *)
Definition updated_last_evening : WorkPackage :=
  dated 2 "In Progress" "2025-12-08T23:59:00Z" "2025-11-01T09:00:00Z" None.

(** Not touched since September, closed date in the week, status not of
    the closed type. *)
Definition rejected_closed_in_week : WorkPackage :=
  dated 3 "Rejected" "2025-09-01T08:00:00Z" "2025-08-01T09:00:00Z"
        (Some "2025-12-04T10:00:00Z").

(** The same dates with a closed-type status. *)
Definition closed_in_week : WorkPackage :=
  dated 4 "Closed" "2025-09-01T08:00:00Z" "2025-08-01T09:00:00Z"
        (Some "2025-12-04T10:00:00Z").

(** The same with the closed date on the last day of the week, at 10:00. *)
Definition closed_last_morning : WorkPackage :=
  dated 10 "Closed" "2025-09-01T08:00:00Z" "2025-08-01T09:00:00Z"
        (Some "2025-12-08T10:00:00Z").

(** Updated inside the week, in progress. *)
Definition updated_in_week : WorkPackage :=
  dated 5 "In Progress" "2025-12-03T10:30:00Z" "2025-11-01T09:00:00Z" None.

(** New and not touched for sixty days. *)
Definition untouched_new : WorkPackage :=
  dated 6 "New" "2025-10-09T08:00:00Z" "2025-10-01T09:00:00Z" None.

(** [n] work packages with the ids 0 to n-1. *)
Definition numbered (n : nat) : list WorkPackage :=
  map (fun k => labelled (Z.of_nat k) "New" "Task") (seq 0 n).

(** A client whose every operation fails. *)
Definition failing_client : Client :=
  mkClient (fun _ => Raise "unreachable") (fun _ _ _ _ => Raise "unreachable")
           (fun _ => Raise "unreachable") (fun _ => Raise "unreachable")
           (fun _ => Raise "unreachable").

(** A client that answers every operation; its work-item listing is paged
    over [records]. *)
Definition serving_client (records : list WorkPackage) : Client :=
  paged_client
    (mkClient (fun id => Ok (mkProject (Some id) (Some "Demo") None))
              (fun _ _ _ _ => Raise "unreachable")
              (fun _ => Ok (mkEnvelope (Some [mkMember (Some "Ann")]) (Some 1)))
              (fun _ => Ok (mkEnvelope None None))
              (fun _ => Ok (mkEnvelope None None)))
    records.

(** A server whose listing never ends: every page holds a work package, and
    the total it reports lies beyond the next page. *)
Definition endless_client : Client :=
  mkClient (fun id => Ok (mkProject (Some id) (Some "Demo") None))
           (fun _ _ offset size =>
              Ok (mkEnvelope (Some [labelled offset "New" "Task"])
                             (Some (offset + size + 1))))
           (fun _ => Ok (mkEnvelope None None))
           (fun _ => Ok (mkEnvelope None None))
           (fun _ => Ok (mkEnvelope None None)).

(** An error line with a failure marker in front of the message. *)
Definition marked_error (message : string) : string := "Error: " ++ message.

(** A report request for the week, in markdown. *)
Definition request_for (from_date to_date : string) : GenerateWeeklyReportInput :=
  mkGenerateWeeklyReportInput 5 from_date to_date None None "markdown".

End Examples.

(** ** The structured report data *)

Module ReportData.

(** The dictionary [format_report_data_json] returns. *)
Record ReportDataJson : Type := mkReportDataJson {
  json_project_id : option Z;              (* ['project']['id'] *)
  json_project_name : option string;       (* ['project']['name'] *)
  json_project_description : string;       (* ['project']['description'] *)
  json_metrics : Metrics;
  json_done : list WorkPackage;            (* ['work_packages']['done'] *)
  json_in_progress : list WorkPackage;
  json_planned : list WorkPackage;
  json_blocked : list WorkPackage;
  json_de_scoped : list WorkPackage;
  json_time_entries : list TimeEntry;
  json_members : list Member;
  json_blockers : list Blocker;
  json_relations : list Relation
}.

Definition format_report_data_json (project : Project)
    (work_packages : list WorkPackage) (time_entries : list TimeEntry)
    (members : list Member) (relations : option (list Relation)) : ReportDataJson :=
  let metrics := calculate_metrics work_packages time_entries in
  let grouped_wps := group_by_status work_packages in
  let blockers := detect_blockers work_packages relations in
  mkReportDataJson
    (project_id_field project) (project_name project)
    (dict_get "" (project_description_raw project))
    metrics
    (done grouped_wps) (in_progress grouped_wps) (planned grouped_wps)
    (blocked grouped_wps) (de_scoped grouped_wps)
    time_entries members blockers
    (dict_get [] relations).

End ReportData.

(** ** Section E of the markdown report *)

Module ReportText.

(** [f"{x}"] for a value that may be [None]. *)
Definition fstr_int (x : option Z) : string :=
  match x with
  | Some n => str_of_int n
  | None => "None"
  end.

Definition fstr_text (x : option string) : string :=
  match x with
  | Some s => s
  | None => "None"
  end.

(** [blocker['subject'][:40]]: slicing [None] raises [TypeError]. *)
Definition subject_head (blocker : Blocker) : result string :=
  match blocker_subject blocker with
  | Some subject => Ok (String.substring 0 40 subject)
  | None => Raise "'NoneType' object is not subscriptable"
  end.

(** One row of the impediments table. *)
Definition impediment_row (blocker : Blocker) : result string :=
  match subject_head blocker with
  | Ok head =>
      Ok ("| #" ++ fstr_int (blocker_id blocker) ++ " " ++ head ++ " | High | "
          ++ blocker_assignee blocker ++ " | " ++ fstr_text (blocker_status blocker)
          ++ " |")
  | Raise exc => Raise exc
  end.

(** [for blocker in blockers: report.append(row)]. *)
Fixpoint impediment_rows (report : list string) (blockers : list Blocker)
    : result (list string) :=
  match blockers with
  | [] => Ok report
  | blocker :: rest =>
      match impediment_row blocker with
      | Ok row => impediment_rows (report ++ [row]) rest
      | Raise exc => Raise exc
      end
  end.

(** A report line that ends with a line feed of its own. *)
Definition with_newline (s : string) : string := s ++ newline.

(** Section E of [format_weekly_report_markdown]: the lines it appends to
    the report for the detected blockers, or the exception it raises. *)
Definition impediments_section (report : list string) (blockers : list Blocker)
    : result (list string) :=
  let report := (report ++ [with_newline "## E. IMPEDIMENTS & DEPENDENCIES"])%list in
  match blockers with
  | _ :: _ =>
      let report :=
        (report ++ [with_newline "### Impediments (Direct Blockers)";
                    "| Description | Severity | Owner Handling | Status |";
                    "|------------|----------|----------------|--------|"])%list in
      match impediment_rows report blockers with
      | Ok report => Ok (report ++ [""])%list
      | Raise exc => Raise exc
      end
  | [] => Ok (report ++ [with_newline "_No impediments._"])%list
  end.

End ReportText.

(** ** projects.py *)

Module Projects.

(** A project as the tools read it: one optional field per key. *)
Record ProjectJson : Type := mkProjectJson {
  pj_id : option Z;                 (* project['id'] *)
  pj_name : option string;          (* project['name'] *)
  pj_identifier : option string;    (* project['identifier'] *)
  pj_active : option bool;          (* project['active'] *)
  pj_public : option bool;          (* project['public'] *)
  pj_status : option string;        (* project['status'] *)
  pj_parent_href : option string    (* project['_links']['parent']['href'] *)
}.

(** A value of a request payload. *)
Inductive field_value : Type :=
| FText (s : string)
| FBool (b : bool)
| FInt (n : Z).

(** A request payload: the keys in insertion order. *)
Definition payload : Type := list (string * field_value).

Record Client : Type := mkClient {
  client_get_projects : option string -> result (Envelope ProjectJson);
  client_get_project : Z -> result ProjectJson;
  client_create_project : payload -> result ProjectJson;
  client_update_project : Z -> payload -> result ProjectJson;
  client_delete_project : Z -> result bool;
  client_get_subprojects : Z -> result (Envelope ProjectJson)
}.

Inductive request : Type :=
| ReqGetProjects (filters : option string)
| ReqGetProject (project_id : Z)
| ReqCreateProject (data : payload)
| ReqUpdateProject (project_id : Z) (data : payload)
| ReqDeleteProject (project_id : Z)
| ReqGetSubprojects (parent_id : Z).

(** A computation that calls the client: a value or an exception, and the
    requests sent by then. *)
Definition P (A : Type) : Type := list request -> result A * list request.

Definition ret {A : Type} (a : A) : P A := fun log => (Ok a, log).

Definition bind {A B : Type} (c : P A) (k : A -> P B) : P B :=
  fun log =>
    match c log with
    | (Ok a, log') => k a log'
    | (Raise exc, log') => (Raise exc, log')
    end.

Definition call {A : Type} (req : request) (response : result A) : P A :=
  fun log => (response, (log ++ [req])%list).

Definition lift {A : Type} (r : result A) : P A := fun log => (r, log).

(** [try: c  except Exception as e: handler(str(e))]. *)
Definition try_except {A : Type} (c : P A) (handler : string -> P A) : P A :=
  fun log =>
    match c log with
    | (Raise exc, log') => handler exc log'
    | r => r
    end.

Declare Scope projects_scope.
Delimit Scope projects_scope with projects.
Notation "x <- c ;; k" := (bind c (fun x => k))
  (at level 61, c at next level, right associativity) : projects_scope.
Local Open Scope projects_scope.

(** Truthiness of an optional flag: [project.get('active')]. *)
Definition truthy (flag : option bool) : bool := dict_get false flag.

Definition yes_no (flag : option bool) : string :=
  if truthy flag then "Yes" else "No".

Definition active_inactive (flag : option bool) : string :=
  if truthy flag then "Active" else "Inactive".

(** [f"{d.get('id', 'N/A')}"]. *)
Definition id_or_na (x : option Z) : string :=
  match x with
  | Some n => str_of_int n
  | None => "N/A"
  end.

(** *** The hierarchy of [list_projects] *)

(** The white space [int] skips around an ASCII literal: tab to carriage
    return, and the space. *)
Definition is_space (c : ascii) : bool :=
  let n := nat_of_ascii c in
  (Nat.leb 9 n && Nat.leb n 13) || Nat.eqb n 32.

Fixpoint lstrip (s : string) : string :=
  match s with
  | EmptyString => EmptyString
  | String c rest => if is_space c then lstrip rest else s
  end.

Fixpoint rstrip (s : string) : string :=
  match s with
  | EmptyString => EmptyString
  | String c rest =>
      let rest' := rstrip rest in
      if is_empty rest' && is_space c then EmptyString else String c rest'
  end.

(** The digits of an integer literal, single underscores allowed between
    digits. *)
Fixpoint int_digits (s : string) (acc : Z) (after_digit : bool) : option Z :=
  match s with
  | EmptyString => if after_digit then Some acc else None
  | String c rest =>
      match DateTime.digit c with
      | Some d => int_digits rest (10 * acc + d) true
      | None =>
          if Ascii.eqb c "_" && after_digit then int_digits rest acc false
          else None
      end
  end.

(** [int(s)] on ASCII text; [None] is its [ValueError]. *)
Definition py_int (s : string) : option Z :=
  match rstrip (lstrip s) with
  | String "+" rest => int_digits rest 0 false
  | String "-" rest => option_map Z.opp (int_digits rest 0 false)
  | t => int_digits t 0 false
  end.

(** [s.split('/')[-1]]: the text after the last slash. *)
Fixpoint last_segment_from (acc s : string) : string :=
  match s with
  | EmptyString => acc
  | String c rest =>
      if Ascii.eqb c "/" then last_segment_from EmptyString rest
      else last_segment_from (acc ++ String c EmptyString) rest
  end.

Definition last_segment (s : string) : string := last_segment_from EmptyString s.

(** [parent_map]: the children recorded for each parent id, keys in
    insertion order. *)
Definition ParentMap : Type := list (Z * list ProjectJson).

(** [if parent_id not in parent_map: parent_map[parent_id] = []] and
    [parent_map[parent_id].append(project)]. *)
Fixpoint append_child (parent_id : Z) (project : ProjectJson) (parent_map : ParentMap)
    : ParentMap :=
  match parent_map with
  | [] => [(parent_id, [project])]
  | (key, children) :: rest =>
      if key =? parent_id then (key, (children ++ [project])%list) :: rest
      else (key, children) :: append_child parent_id project rest
  end.

(** [parent_map.get(key, [])] for a key that may be [None]. *)
Fixpoint children_of (parent_map : ParentMap) (key : option Z) : list ProjectJson :=
  match parent_map, key with
  | (k, children) :: rest, Some id =>
      if k =? id then children else children_of rest key
  | _, _ => []
  end.

(** Body of the loop that fills [parent_map] and [root_projects]. *)
Definition place_project (state : ParentMap * list ProjectJson) (project : ProjectJson)
    : result (ParentMap * list ProjectJson) :=
  let (parent_map, root_projects) := state in
  let href := dict_get "" (pj_parent_href project) in
  if negb (is_empty href) then
    match py_int (last_segment href) with
    | Some parent_id => Ok (append_child parent_id project parent_map, root_projects)
    | None =>
        Raise ("invalid literal for int() with base 10: '" ++ last_segment href ++ "'")
    end
  else Ok (parent_map, (root_projects ++ [project])%list).

Fixpoint place_projects (state : ParentMap * list ProjectJson)
    (projects : list ProjectJson) : result (ParentMap * list ProjectJson) :=
  match projects with
  | [] => Ok state
  | project :: rest =>
      match place_project state project with
      | Ok state' => place_projects state' rest
      | Raise exc => Raise exc
      end
  end.

(** ["  " * indent]. *)
Fixpoint indentation (indent : nat) : string :=
  match indent with
  | O => EmptyString
  | S n => "  " ++ indentation n
  end.

(** The two lines of a project in the tree. *)
Definition tree_entry (project : ProjectJson) (indent : nat) : string :=
  indentation indent ++ "- **" ++ dict_get "Unnamed" (pj_name project)
  ++ "** (ID: " ++ ReportText.fstr_int (pj_id project) ++ ")" ++ newline
  ++ indentation indent ++ "  Status: " ++ active_inactive (pj_active project)
  ++ newline.

(** The nested function [format_tree]; [fuel] bounds the recursion depth,
    [None] is a recursion deeper than that. *)
Fixpoint format_tree (fuel : nat) (parent_map : ParentMap) (project : ProjectJson)
    (indent : nat) : option string :=
  match fuel with
  | O => None
  | S fuel' =>
      fold_left
        (fun text child =>
           match text, format_tree fuel' parent_map child (S indent) with
           | Some t, Some c => Some (t ++ c)
           | _, _ => None
           end)
        (children_of parent_map (pj_id project))
        (Some (tree_entry project indent))
  end.

Definition option_Z_eqb (a b : option Z) : bool :=
  match a, b with
  | Some x, Some y => x =? y
  | None, None => true
  | _, _ => false
  end.

(** [all_shown_ids]: the ids of the roots and of every recorded child. *)
Definition all_shown_ids (parent_map : ParentMap) (root_projects : list ProjectJson)
    : list (option Z) :=
  (map pj_id root_projects
   ++ flat_map (fun entry => map pj_id (snd entry)) parent_map)%list.

(** [orphaned]: the projects whose id is not among the shown ids. *)
Definition orphaned (parent_map : ParentMap) (root_projects projects : list ProjectJson)
    : list ProjectJson :=
  filter (fun p => negb (existsb (option_Z_eqb (pj_id p))
                                 (all_shown_ids parent_map root_projects)))
         projects.

Definition hierarchy_header (projects : list ProjectJson) : string :=
  "✅ Found " ++ str_of_int (Z.of_nat (length projects))
  ++ " project(s) in hierarchical view:" ++ newline ++ newline.

Definition orphan_entry (project : ProjectJson) : string :=
  "- **" ++ dict_get "Unnamed" (pj_name project) ++ "** (ID: "
  ++ ReportText.fstr_int (pj_id project) ++ ")" ++ newline.

Definition _format_project_hierarchy (fuel : nat) (projects : list ProjectJson)
    : option (result string) :=
  match projects with
  | [] => Some (Ok "No projects found.")
  | _ :: _ =>
      match place_projects ([], []) projects with
      | Raise exc => Some (Raise exc)
      | Ok (parent_map, root_projects) =>
          let text :=
            fold_left
              (fun text root =>
                 match text, format_tree fuel parent_map root 0 with
                 | Some t, Some r => Some (t ++ r)
                 | _, _ => None
                 end)
              root_projects (Some (hierarchy_header projects)) in
          match text with
          | None => None
          | Some text =>
              match orphaned parent_map root_projects projects with
              | [] => Some (Ok text)
              | (_ :: _) as orphans =>
                  Some (Ok (fold_left (fun t p => t ++ orphan_entry p) orphans
                              (text ++ newline ++ "**Subprojects (parent not shown)**:"
                               ++ newline)))
              end
          end
      end
  end.

(** *** The tools *)

Record AddSubprojectInput : Type := mkAddSubprojectInput {
  sub_parent_id : Z;
  sub_name : string;
  sub_identifier : string;
  sub_description : option string;
  sub_public : option bool
}.

Record UpdateProjectInput : Type := mkUpdateProjectInput {
  upd_project_id : Z;
  upd_name : option string;
  upd_identifier : option string;
  upd_description : option string;
  upd_public : option bool;
  upd_status : option string;
  upd_parent_id : option Z
}.

(** [if value is not None: data[key] = value]. *)
Definition set_if_given {A : Type} (key : string) (wrap : A -> field_value)
    (value : option A) (data : payload) : payload :=
  match value with
  | Some v => (data ++ [(key, wrap v)])%list
  | None => data
  end.

(** The payload [update_project] builds from its input. *)
Definition update_data (input : UpdateProjectInput) : payload :=
  set_if_given "parent_id" FInt (upd_parent_id input)
    (set_if_given "status" FText (upd_status input)
       (set_if_given "public" FBool (upd_public input)
          (set_if_given "description" FText (upd_description input)
             (set_if_given "identifier" FText (upd_identifier input)
                (set_if_given "name" FText (upd_name input) []))))).

(** The payload [add_subproject] builds from its input. *)
Definition subproject_data (input : AddSubprojectInput) : payload :=
  set_if_given "public" FBool (sub_public input)
    (set_if_given "description" FText (sub_description input)
       [("name", FText (sub_name input));
        ("identifier", FText (sub_identifier input));
        ("parent_id", FInt (sub_parent_id input))]).

Section Tools.

Variable format_success : string -> string.
Variable format_error : string -> string.
Variable get_client : result Client.

(** [format_project_list] of [src.utils.formatting]. *)
Variable format_project_list : list ProjectJson -> result string.

(** The outer [try] of a tool: the text of the body, or the error line made
    from the exception. *)
Definition tool (body : P string) (on_error : string -> string) : P string :=
  try_except body (fun e => ret (on_error e)).

Definition active_filters_json : string :=
  "[{" ++ json_str "active" ++ ": {" ++ json_str "operator" ++ ": " ++ json_str "="
  ++ ", " ++ json_str "values" ++ ": [" ++ json_str "t" ++ "]}}]".

Definition list_projects (fuel : nat) (active_only show_hierarchy : bool)
    : list request -> option (result string * list request) :=
  fun log =>
    match (client <- lift get_client ;;
           let filters := if active_only then Some active_filters_json else None in
           result <- call (ReqGetProjects filters) (client_get_projects client filters) ;;
           ret (dict_get [] (env_elements result))) log with
    | (Raise exc, log') => Some (Ok ("❌ Failed to list projects: " ++ exc), log')
    | (Ok projects, log') =>
        if negb show_hierarchy then
          match format_project_list projects with
          | Ok text => Some (Ok text, log')
          | Raise exc => Some (Ok ("❌ Failed to list projects: " ++ exc), log')
          end
        else
          match _format_project_hierarchy fuel projects with
          | Some (Ok text) => Some (Ok text, log')
          | Some (Raise exc) => Some (Ok ("❌ Failed to list projects: " ++ exc), log')
          | None => None
          end
    end.

Definition add_subproject (input : AddSubprojectInput) : P string :=
  tool
    (client <- lift get_client ;;
     fun log =>
       match call (ReqGetProject (sub_parent_id input))
                  (client_get_project client (sub_parent_id input)) log with
       | (Raise exc, log') =>
           (Ok (format_error ("Parent project #" ++ str_of_int (sub_parent_id input)
                              ++ " not found or inaccessible: " ++ exc)), log')
       | (Ok parent_project, log') =>
           if negb (truthy (pj_active parent_project)) then
             (Ok (format_error ("Parent project #" ++ str_of_int (sub_parent_id input)
                                ++ " is not active")), log')
           else
             (let data := subproject_data input in
              result <- call (ReqCreateProject data) (client_create_project client data) ;;
              ret (format_success ("Subproject created successfully!" ++ newline ++ newline)
                   ++ "**Subproject Name**: " ++ dict_get "N/A" (pj_name result) ++ newline
                   ++ "**Subproject ID**: #" ++ id_or_na (pj_id result) ++ newline
                   ++ "**Identifier**: " ++ dict_get "N/A" (pj_identifier result) ++ newline
                   ++ "**Public**: " ++ yes_no (pj_public result) ++ newline
                   ++ newline ++ "**Parent Project**: "
                   ++ dict_get "N/A" (pj_name parent_project) ++ " (ID: #"
                   ++ str_of_int (sub_parent_id input) ++ ")" ++ newline)) log'
       end)
    (fun e => format_error ("Failed to create subproject: " ++ e)).

Definition update_project (input : UpdateProjectInput) : P string :=
  tool
    (client <- lift get_client ;;
     let update_data := update_data input in
     match update_data with
     | [] => ret (format_error "No fields provided to update")
     | _ :: _ =>
         result <- call (ReqUpdateProject (upd_project_id input) update_data)
                        (client_update_project client (upd_project_id input) update_data) ;;
         ret (format_success ("Project #" ++ str_of_int (upd_project_id input)
                              ++ " updated successfully!" ++ newline ++ newline)
              ++ "**Name**: " ++ dict_get "N/A" (pj_name result) ++ newline
              ++ "**Identifier**: " ++ dict_get "N/A" (pj_identifier result) ++ newline
              ++ "**Public**: " ++ yes_no (pj_public result) ++ newline
              ++ "**Status**: " ++ dict_get "N/A" (pj_status result) ++ newline)
     end)
    (fun e => format_error ("Failed to update project: " ++ e)).

Definition delete_project (project_id : Z) : P string :=
  tool
    (client <- lift get_client ;;
     success <- call (ReqDeleteProject project_id) (client_delete_project client project_id) ;;
     if success : bool then
       ret (format_success ("Project #" ++ str_of_int project_id ++ " deleted successfully"))
     else
       ret (format_error ("Failed to delete project #" ++ str_of_int project_id)))
    (fun e => format_error ("Failed to delete project: " ++ e)).

(** One entry of the list [get_subprojects] prints. *)
Definition subproject_entry (idx : nat) (proj : ProjectJson) : string :=
  str_of_int (Z.of_nat idx) ++ ". **" ++ dict_get "Unknown" (pj_name proj) ++ "**" ++ newline
  ++ "   - ID: #" ++ id_or_na (pj_id proj) ++ newline
  ++ "   - Identifier: " ++ dict_get "N/A" (pj_identifier proj) ++ newline
  ++ "   - Status: " ++ active_inactive (pj_active proj) ++ newline
  ++ "   - Public: " ++ yes_no (pj_public proj) ++ newline
  ++ newline.

(** [for idx, proj in enumerate(subprojects, 1): text += entry]. *)
Fixpoint subproject_entries (idx : nat) (subprojects : list ProjectJson) (text : string)
    : string :=
  match subprojects with
  | [] => text
  | proj :: rest => subproject_entries (S idx) rest (text ++ subproject_entry idx proj)
  end.

Definition get_subprojects (parent_id : Z) : P string :=
  tool
    (client <- lift get_client ;;
     fun log =>
       match call (ReqGetProject parent_id) (client_get_project client parent_id) log with
       | (Raise exc, log') =>
           (Ok (format_error ("Parent project #" ++ str_of_int parent_id
                              ++ " not found: " ++ exc)), log')
       | (Ok parent_project, log') =>
           (result <- call (ReqGetSubprojects parent_id)
                           (client_get_subprojects client parent_id) ;;
            let subprojects := dict_get [] (env_elements result) in
            match subprojects with
            | [] =>
                ret (format_success ("No subprojects found for project: "
                                     ++ dict_get "Unknown" (pj_name parent_project)
                                     ++ " (ID: #" ++ str_of_int parent_id ++ ")"))
            | _ :: _ =>
                ret (subproject_entries 1 subprojects
                       (format_success ("Subprojects of: "
                                        ++ dict_get "Unknown" (pj_name parent_project)
                                        ++ " (ID: #" ++ str_of_int parent_id ++ ")"
                                        ++ newline ++ newline)
                        ++ "Found " ++ str_of_int (Z.of_nat (length subprojects))
                        ++ " subproject(s):" ++ newline ++ newline))
            end) log'
       end)
    (fun e => format_error ("Failed to get subprojects: " ++ e)).

End Tools.

End Projects.

(** ** Further notions used to state properties of the code *)

(** A timestamp field is absent, empty or parses. *)
Definition absent_or_parses (field : option string) : bool :=
  let s := dict_get "" field in
  is_empty s ||
  match parse_timestamp s with
  | Ok _ => true
  | Raise _ => false
  end.

(** A timestamp text is present and does not parse. *)
Definition malformed (s : string) : bool :=
  negb (is_empty s) &&
  match parse_timestamp s with
  | Ok _ => false
  | Raise _ => true
  end.

(** The closed date the filter reads. *)
Definition closed_on_text (wp : WorkPackage) : string :=
  str_or (dict_get "" (wp_closedOn wp)) (dict_get "" (wp_closedAt wp)).

(** The ids of the work packages that have one, in order. *)
Definition ids_of (work_packages : list WorkPackage) : list Z :=
  flat_map (fun wp => match wp_id wp with
                      | Some i => [i]
                      | None => []
                      end) work_packages.

(** The relations a client gives for the work packages that have an id, a
    failed lookup counting for none. *)
Definition relations_of (client : Client) (work_packages : list WorkPackage)
    : list Relation :=
  flat_map (fun wp => match wp_id wp with
                      | Some i =>
                          match get_relations client i with
                          | Ok rel_result => dict_get [] (env_elements rel_result)
                          | Raise _ => []
                          end
                      | None => []
                      end) work_packages.

(** The offsets of [n] consecutive pages from page [j] on. *)
Definition offsets_from (j n : nat) : list Z :=
  map (fun k => Z.of_nat k * page_size) (seq j n).

(** The activity tests of the hour totals. *)
Definition activity (te : TimeEntry) : string :=
  lower (dict_get "" (te_embedded_activity_name te)).

Definition is_dev_activity (te : TimeEntry) : bool :=
  contains "development" (activity te) || contains "implement" (activity te).

Definition is_qa_activity (te : TimeEntry) : bool :=
  contains "test" (activity te) || contains "qa" (activity te).

Definition is_management_activity (te : TimeEntry) : bool :=
  contains "management" (activity te) || contains "meeting" (activity te).

(** The hours of the entries, added from left to right starting at [acc]. *)
Definition add_hours (acc : float) (time_entries : list TimeEntry) : float :=
  fold_left PrimFloat.add (map (fun te => dict_get 0%float (te_hours te)) time_entries) acc.

(** Instances for the properties below. *)
Module MoreExamples.

(** Malformed update time, created in the week, status not closed-type. *)
Definition malformed_update : WorkPackage :=
  Examples.dated 10 "In Progress" "yesterday" "2025-12-03T09:00:00Z" None.

(** Closed two weeks before the end of the week, created long before. *)
Definition closed_recently : WorkPackage :=
  Examples.dated 11 "Resolved" "2025-11-24T09:00:00Z" "2025-08-01T09:00:00Z" None.

(** A client whose project lookup fails and whose listing is paged. *)
Definition no_project_client : Client :=
  paged_client Examples.failing_client (Examples.numbered 3).

(** A client that serves twelve work packages updated in the week, and
    whose relation lookup fails for odd ids. *)
Definition week_records : list WorkPackage :=
  map (fun k => Examples.dated (Z.of_nat k) "In Progress" "2025-12-03T10:30:00Z"
                               "2025-11-01T09:00:00Z" None) (seq 0 12).

Definition week_client : Client :=
  paged_client
    (mkClient (fun id => Ok (mkProject (Some id) (Some "Demo") None))
              (fun _ _ _ _ => Raise "unreachable")
              (fun _ => Ok (mkEnvelope (Some [mkMember (Some "Ann")]) (Some 1)))
              (fun _ => Ok (mkEnvelope None None))
              (fun id => if Z.odd id then Raise "404"
                         else Ok (mkEnvelope (Some [mkRelation (Some "blocks")]) (Some 1))))
    week_records.

End MoreExamples.

(** Instances for the properties of projects.py. *)
Module ProjectExamples.

Import Projects.

Definition project (id : Z) (name : string) (active : bool) (href : option string)
    : ProjectJson :=
  mkProjectJson (Some id) (Some name) None (Some active) None None href.

(** Two subprojects whose parents are not part of the list. *)
Definition subprojects_only : list ProjectJson :=
  [project 2 "Frontend" true (Some "/api/v3/projects/1");
   project 3 "Backend" true (Some "/api/v3/projects/99")].

(** A root, its child and grandchild, and a subproject of an absent
    parent. *)
Definition small_forest : list ProjectJson :=
  [project 1 "Root" true None;
   project 2 "Child" true (Some "/api/v3/projects/1");
   project 3 "Stray" true (Some "/api/v3/projects/99");
   project 4 "Grandchild" false (Some "/api/v3/projects/2")].

(** A parent link written with a trailing slash. *)
Definition trailing_slash : list ProjectJson :=
  [project 1 "Root" true None; project 2 "Child" true (Some "/api/v3/projects/1/")].

(** A client that knows an inactive project 1 and an active project 2. *)
Definition two_projects_client : Client :=
  mkClient (fun _ => Ok (mkEnvelope (Some trailing_slash) (Some 2)))
           (fun id => if id =? 1 then Ok (project 1 "Archive" false None)
                      else if id =? 2 then Ok (project 2 "Platform" true None)
                      else Raise "404 Not Found")
           (fun data => Ok (project 7 "New" true (Some "/api/v3/projects/2")))
           (fun id data => Ok (project id "Renamed" true None))
           (fun _ => Ok true)
           (fun _ => Ok (mkEnvelope None None)).

Definition success_line (message : string) : string := "OK: " ++ message.
Definition error_line (message : string) : string := "Error: " ++ message.

End ProjectExamples.

(** The status name the de-scoped table leaves in the variable [status]:
    that of the last de-scoped work package, if there is one. *)
Definition last_de_scoped_status (de_scoped_wps : list WorkPackage) : option string :=
  match rev de_scoped_wps with
  | [] => None
  | wp :: _ => Some (dict_get "Unknown" (wp_embedded_status_name wp))
  end.

(** A blocked work package without subject. *)
Definition blocked_without_subject (wp : WorkPackage) : bool :=
  Spec.is_blocker wp &&
  match wp_subject wp with
  | Some _ => false
  | None => true
  end.

(** A project whose parent link does not end in an integer. *)
Definition bad_parent_link (p : Projects.ProjectJson) : bool :=
  let href := dict_get "" (Projects.pj_parent_href p) in
  negb (is_empty href) &&
  match Projects.py_int (Projects.last_segment href) with
  | Some _ => false
  | None => true
  end.

(** A project with a parent link that ends in an integer. *)
Definition has_parent_link (p : Projects.ProjectJson) : bool :=
  let href := dict_get "" (Projects.pj_parent_href p) in
  negb (is_empty href) &&
  match Projects.py_int (Projects.last_segment href) with
  | Some _ => true
  | None => false
  end.

(** No optional field of an update is given. *)
Definition no_field_given (input : Projects.UpdateProjectInput) : bool :=
  match Projects.upd_name input, Projects.upd_identifier input,
        Projects.upd_description input, Projects.upd_public input,
        Projects.upd_status input, Projects.upd_parent_id input with
  | None, None, None, None, None, None => true
  | _, _, _, _, _, _ => false
  end.

(** A project is recorded as a root or as a child of some parent id. *)
Definition placed (state : Projects.ParentMap * list Projects.ProjectJson)
    (p : Projects.ProjectJson) : Prop :=
  In p (snd state)
  \/ exists key children, In (key, children) (fst state) /\ In p children.

(** The parent id a project's link names, if it has a link. *)
Definition parent_key (p : Projects.ProjectJson) : option Z :=
  let href := dict_get "" (Projects.pj_parent_href p) in
  if negb (is_empty href) then Projects.py_int (Projects.last_segment href) else None.

(** Every recorded child is a project of [all] whose link names the key it
    is recorded under, and every root is a project of [all] without link. *)
Definition well_placed (all : list Projects.ProjectJson)
    (state : Projects.ParentMap * list Projects.ProjectJson) : Prop :=
  (forall key children c,
     In (key, children) (fst state) -> In c children ->
     In c all /\ parent_key c = Some key)
  /\ (forall r, In r (snd state) -> In r all /\ parent_key r = None).

(** A path of the tree, from a project up to its root: each project's link
    names the id of the next one, and the last one has no link. *)
Inductive chain : list Projects.ProjectJson -> Prop :=
| chain_root (r : Projects.ProjectJson) :
    parent_key r = None -> chain [r]
| chain_link (c a : Projects.ProjectJson) (rest : list Projects.ProjectJson) :
    parent_key c = Projects.pj_id a -> parent_key c <> None ->
    chain (a :: rest) -> chain (c :: a :: rest).

(** The totals that the work-package listing of [client] reports never
    exceed [bound]. *)
Definition totals_bounded (client : Client) (bound : Z) : Prop :=
  forall project_id filters offset size wp_result,
    get_work_packages client project_id filters offset size = Ok wp_result ->
    dict_get 0 (env_total wp_result) <= bound.

(** A computation that ends, with a value or an exception. *)
Definition returns {A : Type} (c : M A) : Prop :=
  forall log, exists r log', c log = Some (r, log').

(** A computation that ends with a text: it neither raises nor runs on. *)
Definition returns_text (c : M string) : Prop :=
  forall log, exists text log', c log = Some (Ok text, log').

(** * Properties *)

(** ** Strings *)

Lemma is_empty_lower (s : string) : is_empty (lower s) = is_empty s.
Proof. destruct s; reflexivity. Qed.

Lemma is_empty_true (s : string) : is_empty s = true -> s = "".
Proof. destruct s; [reflexivity | discriminate]. Qed.

(** ** The loops of report_formatter.py, one step at a time *)

Ltac case_if :=
  match goal with
  | |- context [if ?c then _ else _] => destruct c eqn:?
  end.

Lemma classify_unknown (s : string) :
  (is_empty (lower s) || (lower s =? "unknown")%string) = true ->
  Spec.classify s = Spec.Planned.
Proof.
  intros H. apply orb_true_iff in H. unfold Spec.classify.
  destruct H as [H | H].
  - apply is_empty_true in H. rewrite H. reflexivity.
  - apply String.eqb_eq in H. rewrite H. reflexivity.
Qed.

(** The keyword chain of [group_by_status] is the specification's rule. *)
Lemma group_chain (l : string) (wp : WorkPackage) (g : Groups) :
  (if contains "closed" l || contains "done" l || contains "resolved" l
      || contains "completed" l || contains "finished" l
   then append_done wp g
   else if contains "progress" l || contains "development" l
           || contains "implementing" l
   then append_in_progress wp g
   else if contains "blocked" l then append_blocked wp g
   else if contains "rejected" l || contains "cancelled" l then append_de_scoped wp g
   else if contains "new" l || contains "open" l || contains "specified" l
           || contains "to do" l
   then append_planned wp g
   else append_planned wp g)
  = append_category
      (if Spec.has_any ["closed"; "done"; "resolved"; "completed"; "finished"] l
       then Spec.Done
       else if Spec.has_any ["progress"; "development"; "implementing"] l
       then Spec.InProgress
       else if Spec.has_any ["blocked"] l then Spec.Blocked
       else if Spec.has_any ["rejected"; "cancelled"] l then Spec.DeScoped
       else if Spec.has_any ["new"; "open"; "specified"; "to do"] l then Spec.Planned
       else Spec.Planned) wp g.
Proof.
  unfold Spec.has_any. cbn [existsb].
  rewrite ?orb_false_r, ?orb_assoc.
  repeat (case_if; [reflexivity|]). reflexivity.
Qed.

Lemma metrics_chain (l : string) (m : Metrics) :
  (if contains "closed" l || contains "done" l || contains "resolved" l
      || contains "completed" l || contains "finished" l
   then incr_done m
   else if contains "progress" l || contains "development" l
           || contains "implementing" l
   then incr_in_progress m
   else if contains "blocked" l then incr_blocked m
   else if contains "new" l || contains "open" l || contains "specified" l
           || contains "to do" l
   then incr_planned m
   else incr_planned m)
  = count_category
      (if Spec.has_any ["closed"; "done"; "resolved"; "completed"; "finished"] l
       then Spec.Done
       else if Spec.has_any ["progress"; "development"; "implementing"] l
       then Spec.InProgress
       else if Spec.has_any ["blocked"] l then Spec.Blocked
       else if Spec.has_any ["rejected"; "cancelled"] l then Spec.DeScoped
       else if Spec.has_any ["new"; "open"; "specified"; "to do"] l then Spec.Planned
       else Spec.Planned) m.
Proof.
  unfold Spec.has_any. cbn [existsb].
  rewrite ?orb_false_r, ?orb_assoc.
  repeat (case_if; try reflexivity).
Qed.

Lemma group_step_category (g : Groups) (wp : WorkPackage) :
  group_step g wp = append_category (Spec.category wp) wp g.
Proof.
  unfold group_step, Spec.category, Spec.status_label. cbv zeta.
  rewrite <- (is_empty_lower (dict_get "" (wp_embedded_status_name wp))).
  destruct (is_empty (lower (dict_get "" (wp_embedded_status_name wp)))
            || (lower (dict_get "" (wp_embedded_status_name wp)) =? "unknown")%string)
    eqn:Hfirst.
  - destruct (is_empty (lower (dict_get "" (wp_links_status_title wp)))
              || (lower (dict_get "" (wp_links_status_title wp)) =? "unknown")%string)
      eqn:Hsecond.
    + now rewrite (classify_unknown _ Hsecond).
    + unfold Spec.classify. apply group_chain.
  - rewrite Hfirst. unfold Spec.classify. apply group_chain.
Qed.

Lemma metrics_wp_step_category (m : Metrics) (wp : WorkPackage) :
  metrics_wp_step m wp = count_type wp (count_category (Spec.category wp) m).
Proof.
  unfold metrics_wp_step, count_type, Spec.is_bug_type, Spec.is_feature_type,
    Spec.has_any.
  cbn [existsb]. rewrite ?orb_false_r, ?orb_assoc.
  assert (Hstatus :
    (let status_name := lower (dict_get "" (wp_embedded_status_name wp)) in
     let status_name :=
       if is_empty status_name || (status_name =? "unknown")%string
       then lower (dict_get "" (wp_links_status_title wp))
       else status_name in
     if is_empty status_name || (status_name =? "unknown")%string then incr_planned m
     else if contains "closed" status_name || contains "done" status_name
             || contains "resolved" status_name || contains "completed" status_name
             || contains "finished" status_name
     then incr_done m
     else if contains "progress" status_name || contains "development" status_name
             || contains "implementing" status_name
     then incr_in_progress m
     else if contains "blocked" status_name then incr_blocked m
     else if contains "new" status_name || contains "open" status_name
             || contains "specified" status_name || contains "to do" status_name
     then incr_planned m
     else incr_planned m)
    = count_category (Spec.category wp) m).
  { unfold Spec.category, Spec.status_label. cbv zeta.
    rewrite <- (is_empty_lower (dict_get "" (wp_embedded_status_name wp))).
    destruct (is_empty (lower (dict_get "" (wp_embedded_status_name wp)))
              || (lower (dict_get "" (wp_embedded_status_name wp)) =? "unknown")%string)
      eqn:Hfirst.
    - destruct (is_empty (lower (dict_get "" (wp_links_status_title wp)))
                || (lower (dict_get "" (wp_links_status_title wp)) =? "unknown")%string)
        eqn:Hsecond.
      + now rewrite (classify_unknown _ Hsecond).
      + unfold Spec.classify. apply metrics_chain.
    - rewrite Hfirst. unfold Spec.classify. apply metrics_chain. }
  cbv zeta in Hstatus |- *. rewrite Hstatus. reflexivity.
Qed.

(** ** The loops of report_formatter.py as a whole *)

Lemma count_cons (c : Spec.Category) (wp : WorkPackage) (wps : list WorkPackage) :
  count c (wp :: wps)
  = (if Spec.category_eqb (Spec.category wp) c then 1 else 0) + count c wps.
Proof.
  unfold count, Spec.members_of. cbn [filter].
  destruct (Spec.category_eqb (Spec.category wp) c); cbn [length]; lia.
Qed.

Lemma group_fold (wps : list WorkPackage) (g : Groups) :
  fold_left group_step wps g
  = mkGroups (done g ++ Spec.members_of Spec.Done wps)
             (in_progress g ++ Spec.members_of Spec.InProgress wps)
             (planned g ++ Spec.members_of Spec.Planned wps)
             (blocked g ++ Spec.members_of Spec.Blocked wps)
             (de_scoped g ++ Spec.members_of Spec.DeScoped wps)
             (other g).
Proof.
  revert g. induction wps as [|wp wps IH]; intros g.
  - destruct g. cbn. now rewrite !app_nil_r.
  - cbn [fold_left]. rewrite IH, group_step_category.
    unfold Spec.members_of. cbn [filter].
    destruct (Spec.category wp); destruct g; cbn;
      rewrite <- ?app_assoc; reflexivity.
Qed.

Lemma metrics_te_step_counters (m : Metrics) (te : TimeEntry) :
  let m' := metrics_te_step m te in
  total_wps m' = total_wps m /\ done_count m' = done_count m
  /\ in_progress_count m' = in_progress_count m /\ planned_count m' = planned_count m
  /\ blocked_count m' = blocked_count m /\ bug_count m' = bug_count m
  /\ feature_count m' = feature_count m.
Proof.
  unfold metrics_te_step. cbv zeta.
  repeat case_if; cbn; repeat split; reflexivity.
Qed.

Lemma metrics_te_fold_counters (tes : list TimeEntry) (m : Metrics) :
  let m' := fold_left metrics_te_step tes m in
  total_wps m' = total_wps m /\ done_count m' = done_count m
  /\ in_progress_count m' = in_progress_count m /\ planned_count m' = planned_count m
  /\ blocked_count m' = blocked_count m /\ bug_count m' = bug_count m
  /\ feature_count m' = feature_count m.
Proof.
  revert m. induction tes as [|te tes IH]; intros m; cbn [fold_left].
  - cbv zeta. repeat split; reflexivity.
  - specialize (IH (metrics_te_step m te)). cbv zeta in IH |- *.
    pose proof (metrics_te_step_counters m te) as Hs. cbv zeta in Hs.
    intuition congruence.
Qed.

Ltac counters_cbn :=
  cbn [Spec.category_eqb count_category incr_done incr_in_progress incr_planned
       incr_blocked incr_bug incr_feature total_wps done_count in_progress_count
       planned_count blocked_count bug_count feature_count negb andb length].

Lemma metrics_wp_fold (wps : list WorkPackage) (m : Metrics) :
  let m' := fold_left metrics_wp_step wps m in
  total_wps m' = total_wps m
  /\ done_count m' = done_count m + count Spec.Done wps
  /\ in_progress_count m' = in_progress_count m + count Spec.InProgress wps
  /\ planned_count m'
     = planned_count m + count Spec.Planned wps + count Spec.DeScoped wps
  /\ blocked_count m' = blocked_count m + count Spec.Blocked wps
  /\ bug_count m' = bug_count m + bugs wps
  /\ feature_count m' = feature_count m + features wps.
Proof.
  revert m. induction wps as [|wp wps IH]; intros m; cbn [fold_left].
  - cbv zeta. unfold count, bugs, features. cbn. repeat split; lia.
  - specialize (IH (metrics_wp_step m wp)). cbv zeta in IH |- *.
    destruct IH as (H0 & H1 & H2 & H3 & H4 & H5 & H6).
    rewrite H0, H1, H2, H3, H4, H5, H6. rewrite !count_cons.
    unfold bugs, features. cbn [filter].
    rewrite metrics_wp_step_category. unfold count_type.
    destruct (Spec.category wp), (Spec.is_bug_type wp), (Spec.is_feature_type wp);
      counters_cbn; repeat split; lia.
Qed.

(** The counters of [calculate_metrics], by category and by type. *)
Lemma calculate_metrics_counters (wps : list WorkPackage) (tes : list TimeEntry) :
  let m := calculate_metrics wps tes in
  total_wps m = Z.of_nat (length wps)
  /\ done_count m = count Spec.Done wps
  /\ in_progress_count m = count Spec.InProgress wps
  /\ planned_count m = count Spec.Planned wps + count Spec.DeScoped wps
  /\ blocked_count m = count Spec.Blocked wps
  /\ bug_count m = bugs wps
  /\ feature_count m = features wps.
Proof.
  unfold calculate_metrics. cbv zeta.
  pose proof (metrics_te_fold_counters tes
                (fold_left metrics_wp_step wps (initial_metrics wps))) as Ht.
  pose proof (metrics_wp_fold wps (initial_metrics wps)) as Hw.
  cbv zeta in Ht, Hw.
  destruct Ht as (T0 & T1 & T2 & T3 & T4 & T5 & T6).
  destruct Hw as (W0 & W1 & W2 & W3 & W4 & W5 & W6).
  rewrite T0, T1, T2, T3, T4, T5, T6, W0, W1, W2, W3, W4, W5, W6.
  cbn. repeat split; lia.
Qed.

(** The groups of [group_by_status], by category. *)
Lemma group_by_status_members (wps : list WorkPackage) :
  group_by_status wps
  = mkGroups (Spec.members_of Spec.Done wps) (Spec.members_of Spec.InProgress wps)
             (Spec.members_of Spec.Planned wps) (Spec.members_of Spec.Blocked wps)
             (Spec.members_of Spec.DeScoped wps) [].
Proof. unfold group_by_status. now rewrite group_fold. Qed.

(** Every work package has one category, so the five selections split the
    list. *)
Lemma members_of_split (wps : list WorkPackage) :
  Permutation wps
    (Spec.members_of Spec.Done wps ++ Spec.members_of Spec.InProgress wps
     ++ Spec.members_of Spec.Planned wps ++ Spec.members_of Spec.Blocked wps
     ++ Spec.members_of Spec.DeScoped wps).
Proof.
  induction wps as [|wp wps IH]; [constructor|].
  unfold Spec.members_of in *. cbn [filter].
  destruct (Spec.category wp); cbn [Spec.category_eqb app];
    rewrite ?app_assoc; first [apply perm_skip | apply Permutation_cons_app];
    rewrite <- ?app_assoc; exact IH.
Qed.

Lemma blockers_fold (wps : list WorkPackage) (acc : list Blocker) :
  fold_left blockers_step wps acc
  = (acc ++ map Spec.blocker_of (filter Spec.is_blocker wps))%list.
Proof.
  revert acc. induction wps as [|wp wps IH]; intros acc; cbn [fold_left filter].
  - cbn. now rewrite app_nil_r.
  - rewrite IH. unfold blockers_step, Spec.is_blocker. cbv zeta.
    destruct (contains "blocked" (lower (dict_get "" (wp_embedded_status_name wp)))).
    + cbn [map]. now rewrite <- app_assoc.
    + reflexivity.
Qed.

Lemma classify_no_keyword (label : string) :
  Spec.has_any Spec.all_keywords (lower label) = false ->
  Spec.classify label = Spec.Planned.
Proof.
  unfold Spec.classify, Spec.has_any, Spec.all_keywords. cbn [existsb].
  intros H.
  repeat match goal with
         | E : _ || _ = false |- _ =>
             apply orb_false_iff in E; destruct E as [? E]
         end.
  repeat match goal with
         | E : contains _ _ = false |- _ => rewrite E; clear E
         end.
  reflexivity.
Qed.

(** The counters of the metrics against the sizes of the groups: they agree
    for done, in progress and blocked, and the planned counter also counts
    the de-scoped group. *)
Lemma metrics_against_groups (wps : list WorkPackage) (tes : list TimeEntry) :
  let m := calculate_metrics wps tes in
  let g := group_by_status wps in
  done_count m = Z.of_nat (length (done g))
  /\ in_progress_count m = Z.of_nat (length (in_progress g))
  /\ blocked_count m = Z.of_nat (length (blocked g))
  /\ planned_count m = Z.of_nat (length (planned g)) + Z.of_nat (length (de_scoped g)).
Proof.
  cbv zeta. rewrite group_by_status_members. cbn [done in_progress planned blocked de_scoped].
  pose proof (calculate_metrics_counters wps tes) as H. cbv zeta in H.
  unfold count in H. intuition lia.
Qed.

(** ** Claims on report_formatter.py *)

(** C2 (the code departs from the claim).  The claim asks that each status
    counter of the metrics equals the size of the matching group.  For one
    rejected task the grouping puts it in the de-scoped group and leaves the
    planned group empty, while the metrics, which have no branch for the
    rejected and cancelled keywords, count it as planned: planned_count is 1
    and the planned group has 0 entries. *)
Theorem C2_rejected_task_counted_as_planned :
  planned_count (calculate_metrics [Examples.rejected_task] []) = 1
  /\ planned (group_by_status [Examples.rejected_task]) = []
  /\ de_scoped (group_by_status [Examples.rejected_task]) = [Examples.rejected_task]
  /\ planned_count (calculate_metrics [Examples.rejected_task] [])
     <> Z.of_nat (length (planned (group_by_status [Examples.rejected_task]))).
Proof.
  repeat split; try reflexivity. vm_compute. discriminate.
Qed.

(** C6.  [group_by_status] puts every work package in exactly one of the
    five groups done, in_progress, planned, blocked, de_scoped: each group is
    the selection of the work packages of that category, in input order, and
    the five groups together are a rearrangement of the input.  A work
    package whose label contains none of the keywords, the empty and the
    "unknown" label included, is in the planned group.  The group [other] is
    empty for every input. *)
Theorem C6_grouping_is_a_partition (wps : list WorkPackage) :
  let g := group_by_status wps in
  (done g = Spec.members_of Spec.Done wps
   /\ in_progress g = Spec.members_of Spec.InProgress wps
   /\ planned g = Spec.members_of Spec.Planned wps
   /\ blocked g = Spec.members_of Spec.Blocked wps
   /\ de_scoped g = Spec.members_of Spec.DeScoped wps)
  /\ Permutation wps (done g ++ in_progress g ++ planned g ++ blocked g ++ de_scoped g)
  /\ (forall wp, In wp wps ->
        Spec.has_any Spec.all_keywords (lower (Spec.status_label wp)) = false ->
        In wp (planned g))
  /\ Spec.has_any Spec.all_keywords (lower "") = false
  /\ Spec.has_any Spec.all_keywords (lower "Unknown") = false
  /\ other g = [].
Proof.
  cbv zeta. rewrite group_by_status_members.
  cbn [done in_progress planned blocked de_scoped other].
  split; [repeat split|].
  split; [apply members_of_split|].
  split; [|repeat split].
  intros wp Hin Hnone. unfold Spec.members_of.
  apply filter_In. split; [exact Hin|].
  unfold Spec.category. now rewrite (classify_no_keyword _ Hnone).
Qed.

(** C7.  For every list of work packages and every list of time entries,
    done_count + in_progress_count + planned_count + blocked_count equals
    total_wps, and total_wps is the length of the list.  No de-scoped count
    is left out of the sum: a de-scoped work package is counted by
    planned_count. *)
Theorem C7_metrics_conservation (wps : list WorkPackage) (tes : list TimeEntry) :
  let m := calculate_metrics wps tes in
  done_count m + in_progress_count m + planned_count m + blocked_count m = total_wps m
  /\ total_wps m = Z.of_nat (length wps).
Proof.
  cbv zeta.
  pose proof (calculate_metrics_counters wps tes) as H. cbv zeta in H.
  destruct H as (H0 & H1 & H2 & H3 & H4 & _).
  split; [|exact H0].
  rewrite H0, H1, H2, H3, H4. unfold count.
  pose proof (Permutation_length (members_of_split wps)) as L.
  rewrite !length_app in L. lia.
Qed.

(** C8.  [detect_blockers] returns, in input order, the blocker records of
    exactly the work packages whose embedded status name, lowercased,
    contains "blocked" (the link title is not consulted); the reason of every
    record is "Status marked as blocked"; and the result is the same for
    every relations argument. *)
Theorem C8_detect_blockers (R R' : Type) (wps : list WorkPackage)
    (relations : option (list R)) (relations' : option (list R')) :
  detect_blockers wps relations = map Spec.blocker_of (filter Spec.is_blocker wps)
  /\ (forall b, In b (detect_blockers wps relations) ->
        blocker_reason b = "Status marked as blocked")
  /\ detect_blockers wps relations = detect_blockers wps relations'.
Proof.
  unfold detect_blockers. rewrite blockers_fold. cbn [app].
  repeat split.
  intros b Hb. apply in_map_iff in Hb. destruct Hb as (wp & <- & _). reflexivity.
Qed.

(** C10.  For every work package the metrics increment at most one of
    bug_count and feature_count: bug_count alone when the type label contains
    "bug" or "defect", whatever else it contains, and feature_count alone
    when it contains "feature", "story" or "task" and neither "bug" nor
    "defect".  Hence bug_count + feature_count <= total_wps for every list. *)
Theorem C10_type_counters_exclusive
    (m : Metrics) (wp : WorkPackage) (wps : list WorkPackage) (tes : list TimeEntry) :
  let m' := metrics_wp_step m wp in
  let total := calculate_metrics wps tes in
  bug_count m' = bug_count m + (if Spec.is_bug_type wp then 1 else 0)
  /\ feature_count m'
     = feature_count m
       + (if negb (Spec.is_bug_type wp) && Spec.is_feature_type wp then 1 else 0)
  /\ bug_count total + feature_count total <= total_wps total.
Proof.
  cbv zeta. rewrite metrics_wp_step_category. unfold count_type.
  split; [|split].
  - destruct (Spec.category wp), (Spec.is_bug_type wp), (Spec.is_feature_type wp);
      counters_cbn; lia.
  - destruct (Spec.category wp), (Spec.is_bug_type wp), (Spec.is_feature_type wp);
      counters_cbn; lia.
  - pose proof (calculate_metrics_counters wps tes) as H. cbv zeta in H.
    destruct H as (H0 & _ & _ & _ & _ & H5 & H6).
    rewrite H0, H5, H6. unfold bugs, features.
    clear. induction wps as [|w wps IH]; cbn [filter length]; [lia|].
    destruct (Spec.is_bug_type w), (Spec.is_feature_type w);
      cbn [negb andb length]; lia.
Qed.

(** C10, at a type label that names a bug and a task: only bug_count
    moves. *)
Example C10_bug_has_priority :
  bug_count (calculate_metrics [Examples.bug_task] []) = 1
  /\ feature_count (calculate_metrics [Examples.bug_task] []) = 0.
Proof. split; reflexivity. Qed.

(** C5 (as amended).  The status shown in the executive summary is "Off
    track" when the blocked counter of the metrics is positive, that is when
    the blocked group of the grouping is not empty; otherwise "At risk" when
    done_count < in_progress_count; otherwise "On track".  The list of
    detected blockers takes no part in it. *)
Theorem C5_status_indicator (R : Type) (wps : list WorkPackage)
    (tes : list TimeEntry) (relations : option (list R)) :
  let m := calculate_metrics wps tes in
  let g := group_by_status wps in
  let report := format_weekly_report_markdown wps tes relations in
  progress_line report
  = "**Progress vs Sprint Goal:** "
    ++ (if 0 <? blocked_count m then "ðŸ”´ Off track"
        else if done_count m <? in_progress_count m then "ðŸŸ¡ At risk"
        else "ðŸŸ¢ On track")
    ++ newline
  /\ blocked_count m = Z.of_nat (length (blocked g))
  /\ done_count m = Z.of_nat (length (done g))
  /\ in_progress_count m = Z.of_nat (length (in_progress g)).
Proof.
  cbv zeta.
  pose proof (metrics_against_groups wps tes) as H. cbv zeta in H.
  destruct H as (Hd & Hi & Hb & _).
  split; [|now repeat split].
  unfold format_weekly_report_markdown, status_indicator. cbv zeta.
  cbn [progress_line]. now rewrite Z.gtb_ltb.
Qed.

(** C5, the claim as stated fails: a work package labelled "Blocked (in
    progress)" is a detected blocker, the metrics count it as in progress,
    and the status of the report is "At risk", not "Off track". *)
Lemma C5_blocker_without_off_track :
  detect_blockers [Examples.blocked_in_progress] (@None (list Relation)) <> []
  /\ progress_line (format_weekly_report_markdown [Examples.blocked_in_progress] []
                      (@None (list Relation)))
     = "**Progress vs Sprint Goal:** ðŸŸ¡ At risk" ++ newline
  /\ progress_line (format_weekly_report_markdown [Examples.blocked_in_progress] []
                      (@None (list Relation)))
     <> "**Progress vs Sprint Goal:** ðŸ”´ Off track" ++ newline.
Proof.
  split; [|split].
  - vm_compute. discriminate.
  - reflexivity.
  - vm_compute. discriminate.
Qed.

(** The appendix repeats the variable [status], which the de-scoped table
    has overwritten by then: with a de-scoped work package the appendix shows
    that work package's status name. *)
Example appendix_status_after_de_scoped :
  appendix_status_line (format_weekly_report_markdown [Examples.rejected_task] []
                          (@None (list Relation)))
  = Ok "**Status:** Rejected".
Proof. reflexivity. Qed.

(** ** The relevance filter *)

(** Step 1: an update time within the window makes the work package
    relevant. *)
Lemma updated_in_window_relevant (from_dt to_dt : datetime) (wp : WorkPackage)
    (s : string) (updated_dt : datetime) :
  wp_updatedAt wp = Some s -> is_empty s = false ->
  parse_timestamp s = Ok updated_dt ->
  between from_dt updated_dt to_dt = true ->
  is_relevant from_dt to_dt wp = true.
Proof.
  intros Hs Hne Hp Hb. unfold is_relevant, relevance_checks. cbv zeta.
  rewrite Hs. cbn [dict_get]. rewrite Hne. cbn [negb bind_result].
  rewrite Hp. cbn [bind_result]. now rewrite Hb.
Qed.

(** The upper end of every date test is [to_dt], the midnight that starts
    the last day: a work package updated after it, created outside the
    window and without closed date is not relevant, whatever its status. *)
Lemma updated_after_to_dt_not_relevant (from_dt to_dt cutoff : datetime)
    (wp : WorkPackage) (s c : string) (updated_dt created_dt : datetime) :
  wp_updatedAt wp = Some s -> parse_timestamp s = Ok updated_dt ->
  to_dt < updated_dt ->
  wp_createdAt wp = Some c -> parse_timestamp c = Ok created_dt ->
  between from_dt created_dt to_dt = false ->
  wp_closedOn wp = None -> wp_closedAt wp = None ->
  sub_days to_dt 30 = Some cutoff ->
  is_relevant from_dt to_dt wp = false.
Proof.
  intros Hs Hp Hlt Hc Hpc Hbc Hon Hat Hcut.
  assert (Hout : forall lo, between lo updated_dt to_dt = false).
  { intros lo. unfold between. apply andb_false_iff. right.
    apply Z.leb_gt. exact Hlt. }
  unfold is_relevant, relevance_checks, closed_status_checks. cbv zeta.
  rewrite Hs, Hc, Hon, Hat, Hcut. cbn [dict_get str_or is_empty negb].
  destruct (is_empty s); cbn [negb];
    destruct (is_empty c); cbn [negb];
    rewrite ?Hp, ?Hpc; cbn [bind_result]; rewrite ?Hout, ?Hbc;
    destruct (is_closed_status wp); try reflexivity;
    rewrite ?Hp; cbn [bind_result]; rewrite ?Hout; reflexivity.
Qed.

(** The closed dates are read only under a closed-type status: for any
    other status they do not change the outcome. *)
Lemma closed_dates_unused_without_closed_status (from_dt to_dt : datetime)
    (wp : WorkPackage) (closed_on closed_at : option string) :
  is_closed_status wp = false ->
  is_relevant from_dt to_dt (with_closed_dates wp closed_on closed_at)
  = is_relevant from_dt to_dt wp.
Proof.
  intros Hopen.
  assert (Hopen' : is_closed_status (with_closed_dates wp closed_on closed_at) = false)
    by exact Hopen.
  unfold is_relevant, relevance_checks. cbv zeta.
  rewrite Hopen, Hopen'. reflexivity.
Qed.

(** The scenario of the specification: of three fetched work packages, the
    one updated in the week and the closed one with its closed date in the
    week are kept and grouped, the one untouched for sixty days is dropped. *)
Example week_scenario :
  exists from_dt to_dt : datetime,
    strptime_ymd Examples.week_from = Some from_dt
    /\ strptime_ymd Examples.week_to = Some to_dt
    /\ group_by_status
         (filter_relevant from_dt to_dt
            [Examples.updated_in_week; Examples.closed_in_week; Examples.untouched_new])
       = mkGroups [Examples.closed_in_week] [Examples.updated_in_week] [] [] [] [].
Proof.
  eexists. eexists.
  split; [vm_compute; reflexivity|].
  split; [vm_compute; reflexivity|].
  vm_compute. reflexivity.
Qed.

(** C1 (the code departs from the claim).  The window the filter compares
    against runs from midnight of the from-date to midnight of the to-date:
    [to_dt] is the start of the last day, not its end.  For the week
    2025-12-02 to 2025-12-08 a work package updated on 2025-12-08 at 23:59
    (in progress, created a month before) is not relevant, while the claim
    says it is; the work package updated on 2025-12-02 at 00:00 is
    relevant. *)
Theorem C1_last_day_evening_not_relevant :
  exists from_dt to_dt : datetime,
    strptime_ymd Examples.week_from = Some from_dt
    /\ strptime_ymd Examples.week_to = Some to_dt
    /\ parse_timestamp "2025-12-02T00:00:00Z" = Ok from_dt
    /\ parse_timestamp "2025-12-08T23:59:00Z"
       = Ok (to_dt + (23 * 3600 + 59 * 60) * 1000000)
    /\ is_relevant from_dt to_dt Examples.updated_first_midnight = true
    /\ is_relevant from_dt to_dt Examples.updated_last_evening = false.
Proof.
  eexists. eexists.
  split; [vm_compute; reflexivity|].
  split; [vm_compute; reflexivity|].
  repeat split; vm_compute; reflexivity.
Qed.

(** What the date format returns is the midnight that starts the day. *)
Lemma strptime_ymd_midnight (s : string) (d : datetime) :
  strptime_ymd s = Some d -> d mod microseconds_per_day = 0.
Proof.
  unfold strptime_ymd.
  destruct (strptime_year s) as [[year [|c rest]]|]; try discriminate.
  destruct (Ascii.eqb c "-") eqn:E.
  - apply Ascii.eqb_eq in E. subst c.
    destruct (strptime_month rest) as [[month rest']|]; [|discriminate].
    destruct (strptime_day rest') as [day|]; [|discriminate].
    unfold make_datetime.
    match goal with |- (if ?b then _ else _) = _ -> _ => destruct b end; [|discriminate].
    intros H. inversion H. unfold microseconds_per_day.
    replace ((((ymd2ord year month day * 24 + 0) * 60 + 0) * 60 + 0) * 1000000 + 0)
      with (ymd2ord year month day * (86400 * 1000000)) by ring.
    apply Z.mod_mul. discriminate.
  - destruct c as [[] [] [] [] [] [] [] []]; try discriminate E; discriminate.
Qed.

(** A closed date between the two ends the filter compares against makes a
    work package of closed-type status relevant. *)
Lemma closed_date_between_ends_relevant (from_dt to_dt : datetime) (wp : WorkPackage) :
  is_closed_status wp = true ->
  Spec.closed_date_in_window from_dt to_dt wp = true ->
  is_relevant from_dt to_dt wp = true.
Proof.
  intros Hclosed Hdate.
  unfold Spec.closed_date_in_window in Hdate. cbv zeta in Hdate.
  apply andb_true_iff in Hdate. destruct Hdate as [Hne Hin].
  destruct (parse_timestamp
              (str_or (dict_get "" (wp_closedOn wp)) (dict_get "" (wp_closedAt wp))))
    as [closed_dt|] eqn:Hparse; [|discriminate].
  unfold is_relevant, relevance_checks, closed_status_checks. cbv zeta.
  rewrite Hclosed, Hne, Hparse. cbn [bind_result]. rewrite Hin.
  destruct (negb (is_empty (dict_get "" (wp_updatedAt wp))));
    destruct (negb (is_empty (dict_get "" (wp_createdAt wp))));
    destruct (parse_timestamp (dict_get "" (wp_updatedAt wp)));
    destruct (parse_timestamp (dict_get "" (wp_createdAt wp)));
    cbn [bind_result];
    repeat (case_if; cbn [bind_result]); try reflexivity;
    destruct (sub_days to_dt 30); repeat case_if; reflexivity.
Qed.

(** C3 (as amended).  The window of a request is the one the code compares
    against: [from_dt] and [to_dt] are what the date format gives for the
    from-date and the to-date of the request, the midnight that starts each
    of the two days.  For every work package whose status label is of the
    closed type, if its closed date ([closedOn], or [closedAt] when
    [closedOn] is absent or empty) is present, parses and lies between
    00:00 of the from-date and 00:00 of the to-date, both included, the
    work package is relevant.  Nothing is said of a closed date later on
    the to-date. *)
Theorem C3_closed_date_of_closed_status (from_date to_date : string)
    (from_dt to_dt : datetime) (wp : WorkPackage) :
  strptime_ymd from_date = Some from_dt ->
  strptime_ymd to_date = Some to_dt ->
  is_closed_status wp = true ->
  Spec.closed_date_in_window from_dt to_dt wp = true ->
  is_relevant from_dt to_dt wp = true
  /\ from_dt mod microseconds_per_day = 0
  /\ to_dt mod microseconds_per_day = 0.
Proof.
  intros Hfrom Hto Hclosed Hdate.
  split; [now apply closed_date_between_ends_relevant|].
  split; eapply strptime_ymd_midnight; eassumption.
Qed.

(** C3, at a closed work package not touched for three months whose closed
    date is in the week. *)
Lemma C3_closed_date_of_closed_status_witness :
  exists from_dt to_dt : datetime,
    strptime_ymd Examples.week_from = Some from_dt
    /\ strptime_ymd Examples.week_to = Some to_dt
    /\ is_closed_status Examples.closed_in_week = true
    /\ Spec.closed_date_in_window from_dt to_dt Examples.closed_in_week = true
    /\ Spec.step1 from_dt to_dt Examples.closed_in_week = false
    /\ Spec.step2 from_dt to_dt Examples.closed_in_week = false
    /\ Spec.step3 to_dt Examples.closed_in_week = false
    /\ is_relevant from_dt to_dt Examples.closed_in_week = true.
Proof.
  eexists. eexists.
  split; [vm_compute; reflexivity|].
  split; [vm_compute; reflexivity|].
  split; [vm_compute; reflexivity|].
  split; [vm_compute; reflexivity|].
  split; [vm_compute; reflexivity|].
  split; [vm_compute; reflexivity|].
  split; [vm_compute; reflexivity|].
  refine (proj1 (C3_closed_date_of_closed_status Examples.week_from Examples.week_to
                   _ _ Examples.closed_in_week _ _ _ _));
    vm_compute; reflexivity.
Defined.

(** What the amended statement leaves out: the end of the window is the
    midnight that starts the to-date (see C1), so a closed work package
    whose closed date is 10:00 on the to-date, and which steps 1 to 3 do not
    keep, is dropped. *)
Example closed_on_last_day_dropped :
  exists from_dt to_dt : datetime,
    strptime_ymd Examples.week_from = Some from_dt
    /\ strptime_ymd Examples.week_to = Some to_dt
    /\ is_closed_status Examples.closed_last_morning = true
    /\ Spec.closed_date_in_window from_dt to_dt Examples.closed_last_morning = false
    /\ Spec.closed_date_in_window from_dt (to_dt + microseconds_per_day - 1)
         Examples.closed_last_morning = true
    /\ is_relevant from_dt to_dt Examples.closed_last_morning = false.
Proof.
  eexists. eexists.
  split; [vm_compute; reflexivity|].
  split; [vm_compute; reflexivity|].
  repeat split; vm_compute; reflexivity.
Qed.

(** C3, the claim as stated fails: a rejected work package fails steps 1 to
    3 and has its closed date in the week, and is not relevant, because the
    closed-date test is made only under a closed-type status. *)
Lemma C3_closed_date_ignored_without_closed_status :
  exists from_dt to_dt : datetime,
    strptime_ymd Examples.week_from = Some from_dt
    /\ strptime_ymd Examples.week_to = Some to_dt
    /\ Spec.step1 from_dt to_dt Examples.rejected_closed_in_week = false
    /\ Spec.step2 from_dt to_dt Examples.rejected_closed_in_week = false
    /\ Spec.step3 to_dt Examples.rejected_closed_in_week = false
    /\ Spec.closed_date_in_window from_dt to_dt Examples.rejected_closed_in_week = true
    /\ is_relevant from_dt to_dt Examples.rejected_closed_in_week = false.
Proof.
  eexists. eexists.
  split; [vm_compute; reflexivity|].
  split; [vm_compute; reflexivity|].
  repeat split; vm_compute; reflexivity.
Qed.

(** ** The record fetcher *)

Lemma firstn_plus {A : Type} (a b : nat) (l : list A) :
  firstn (a + b) l = (firstn a l ++ firstn b (skipn a l))%list.
Proof.
  revert l. induction a as [|a IH]; intros l; [reflexivity|].
  destruct l as [|x l]; cbn [Nat.add firstn skipn app].
  - now rewrite firstn_nil.
  - now rewrite IH.
Qed.

Lemma div_500_bounds (n : nat) :
  (500 * (n / 500) <= n < 500 * (n / 500) + 500)%nat.
Proof.
  pose proof (Nat.div_mod_eq n 500) as E.
  pose proof (Nat.mod_upper_bound n 500) as U.
  lia.
Qed.

(** One turn of the [while True] loop, for any client. *)
Lemma fetch_loop_step (client : Client) (project_id : Z) (fuel : nat)
    (acc : list WorkPackage) (offset : Z) (log : list request) :
  fetch_loop (S fuel) client project_id acc offset log
  = match get_work_packages client project_id all_status_filters_json offset page_size with
    | Raise exc => Some (Raise exc, (log ++ [page_request project_id offset])%list)
    | Ok wp_result =>
        match dict_get [] (env_elements wp_result) with
        | [] => Some (Ok acc, (log ++ [page_request project_id offset])%list)
        | _ :: _ =>
            if offset + page_size >=? dict_get 0 (env_total wp_result)
            then Some (Ok (acc ++ dict_get [] (env_elements wp_result))%list,
                       (log ++ [page_request project_id offset])%list)
            else fetch_loop fuel client project_id
                   (acc ++ dict_get [] (env_elements wp_result))%list
                   (offset + page_size)
                   (log ++ [page_request project_id offset])%list
        end
    end.
Proof.
  cbn [fetch_loop]. unfold bind, call, page_request.
  destruct (get_work_packages client project_id all_status_filters_json offset page_size)
    as [wp_result|exc]; [|reflexivity].
  destruct (dict_get [] (env_elements wp_result)); [reflexivity|].
  destruct (offset + page_size >=? dict_get 0 (env_total wp_result)); reflexivity.
Qed.

Section PagedServer.

Variable base : Client.
Variable project_id : Z.
Variable records : list WorkPackage.

Let pages : nat := Nat.max 1 ((length records + 499) / 500).

(** From page [j] on, with the records before it accumulated, the loop
    requests the remaining [S d] pages and returns all records. *)
Lemma fetch_loop_paged (d : nat) :
  forall (fuel j : nat) (log : list request),
    (S d <= fuel)%nat ->
    (j + S d = pages)%nat ->
    fetch_loop fuel (paged_client base records) project_id
               (firstn (500 * j) records) (Z.of_nat j * page_size) log
    = Some (Ok records,
            (log ++ map (page_request project_id)
                        (map (fun k => Z.of_nat k * page_size) (seq j (S d))))%list).
Proof.
  subst pages. pose proof (div_500_bounds (length records + 499)) as Hq.
  induction d as [|d IH]; intros fuel j log Hfuel Hpages.
  - destruct fuel as [|fuel]; [lia|]. rewrite fetch_loop_step.
    cbn [paged_client get_work_packages paged_work_packages env_elements env_total dict_get].
    replace (Z.to_nat page_size) with 500%nat by reflexivity.
    replace (Z.to_nat (Z.of_nat j * page_size)) with (500 * j)%nat
      by (unfold page_size; lia).
    destruct (Nat.eq_dec (length records) 0) as [Hzero | Hpos].
    + apply length_zero_iff_nil in Hzero. rewrite Hzero.
      rewrite skipn_nil, !firstn_nil. reflexivity.
    + assert (Hlo : (500 * j < length records)%nat) by lia.
      assert (Hhi : (length records <= 500 * j + 500)%nat) by lia.
      rewrite (firstn_all2 (n := 500) (skipn (500 * j) records))
        by (rewrite length_skipn; lia).
      destruct (skipn (500 * j) records) as [|w rest] eqn:Hskip.
      * apply (f_equal (@length _)) in Hskip. rewrite length_skipn in Hskip.
        cbn [length] in Hskip. lia.
      * replace (Z.of_nat j * page_size + page_size >=? Z.of_nat (length records))
          with true by (symmetry; apply Z.geb_le; unfold page_size; lia).
        rewrite <- Hskip, firstn_skipn. reflexivity.
  - destruct fuel as [|fuel]; [lia|]. rewrite fetch_loop_step.
    cbn [paged_client get_work_packages paged_work_packages env_elements env_total dict_get].
    replace (Z.to_nat page_size) with 500%nat by reflexivity.
    replace (Z.to_nat (Z.of_nat j * page_size)) with (500 * j)%nat
      by (unfold page_size; lia).
    assert (Hlo : (500 * j + 500 < length records)%nat) by lia.
    destruct (firstn 500 (skipn (500 * j) records)) as [|w rest] eqn:Hpage.
    + apply (f_equal (@length _)) in Hpage.
      rewrite length_firstn, length_skipn in Hpage. cbn [length] in Hpage. lia.
    + replace (Z.of_nat j * page_size + page_size >=? Z.of_nat (length records))
        with false
        by (symmetry; rewrite Z.geb_leb; apply Z.leb_gt; unfold page_size; lia).
      rewrite <- Hpage, <- firstn_plus.
      replace (500 * j + 500)%nat with (500 * S j)%nat by lia.
      replace (Z.of_nat j * page_size + page_size) with (Z.of_nat (S j) * page_size)
        by lia.
      rewrite (IH fuel (S j)) by lia.
      rewrite <- app_assoc. reflexivity.
Qed.

(** Against a paged server the fetcher returns the server's records, after
    the page requests at offsets 0, 500, 1000, ... *)
Lemma fetch_all_paged (fuel : nat) :
  (length records / 500 < fuel)%nat ->
  _fetch_all_project_work_packages fuel (paged_client base records) project_id []
  = Some (Ok records, page_requests project_id (length records)).
Proof.
  intros Hfuel. unfold _fetch_all_project_work_packages.
  pose proof (fetch_loop_paged (pages - 1) fuel 0 []) as H.
  subst pages.
  pose proof (div_500_bounds (length records + 499)) as Hq.
  pose proof (div_500_bounds (length records)) as Hr. cbn [firstn Nat.mul Z.of_nat Z.mul app] in H.
  replace (S (Nat.max 1 ((length records + 499) / 500) - 1))
    with (Nat.max 1 ((length records + 499) / 500)) in H by lia.
  apply H; lia.
Qed.

End PagedServer.

(** C4.  Against a server that holds the records and pages them by offset,
    the fetcher, given one unit of fuel per page, returns exactly the
    server's records in order (none twice, none missing) after one request
    per started page, at offsets 0, 500, 1000, ...: three requests at 0, 500
    and 1000 for 1234 records, a single request at 0 for 500 records.  For
    any client, a turn of the loop ends the fetch when the page has no
    element or when offset + page size reaches the reported total, and
    otherwise goes on at offset + page size. *)
Theorem C4_pagination_exact
    (base : Client) (project_id : Z) (records : list WorkPackage) (fuel : nat)
    (client : Client) (acc : list WorkPackage) (offset : Z) (log : list request) :
  (length records / 500 < fuel)%nat ->
  (_fetch_all_project_work_packages fuel (paged_client base records) project_id []
   = Some (Ok records, page_requests project_id (length records))
   /\ (length records = 1234%nat ->
       page_offsets (length records) = [0; 500; 1000])
   /\ (length records = 500%nat -> page_offsets (length records) = [0]))
  /\ (forall wp_result,
        get_work_packages client project_id all_status_filters_json offset page_size
        = Ok wp_result ->
        let elements := dict_get [] (env_elements wp_result) in
        let total := dict_get 0 (env_total wp_result) in
        let log' := (log ++ [page_request project_id offset])%list in
        (elements = [] ->
         fetch_loop (S fuel) client project_id acc offset log = Some (Ok acc, log'))
        /\ (elements <> [] -> total <= offset + page_size ->
            fetch_loop (S fuel) client project_id acc offset log
            = Some (Ok (acc ++ elements)%list, log'))
        /\ (elements <> [] -> offset + page_size < total ->
            fetch_loop (S fuel) client project_id acc offset log
            = fetch_loop fuel client project_id (acc ++ elements)%list
                         (offset + page_size) log')).
Proof.
  intros Hfuel. split.
  - split; [now apply fetch_all_paged|].
    split; intros ->; reflexivity.
  - intros wp_result Hresp. cbv zeta. rewrite fetch_loop_step, Hresp.
    destruct (dict_get [] (env_elements wp_result)) as [|w rest].
    + repeat split; congruence.
    + split; [discriminate|]. split; intros _ Hcmp.
      * now rewrite (proj2 (Z.geb_le _ _) Hcmp).
      * rewrite Z.geb_leb. now rewrite (proj2 (Z.leb_gt _ _) Hcmp).
Qed.

(** C4, for a server with 1234 records: three requests, at offsets 0, 500
    and 1000, and the 1234 records returned. *)
Lemma C4_pagination_exact_witness :
  (length (Examples.numbered 1234) / 500 < 3)%nat
  /\ _fetch_all_project_work_packages 3
       (paged_client Examples.failing_client (Examples.numbered 1234)) 5 []
     = Some (Ok (Examples.numbered 1234),
             [page_request 5 0; page_request 5 500; page_request 5 1000]).
Proof.
  assert (H : (length (Examples.numbered 1234) / 500 < 3)%nat).
  { vm_compute. apply le_n. }
  split; [exact H|].
  exact (proj1 (proj1 (C4_pagination_exact Examples.failing_client 5
                         (Examples.numbered 1234) 3
                         Examples.failing_client [] 0 [] H))).
Defined.

(** C4, for a total that is a multiple of the page size: one request. *)
Example fetch_500_records :
  _fetch_all_project_work_packages 1
    (paged_client Examples.failing_client (Examples.numbered 500)) 5 []
  = Some (Ok (Examples.numbered 500), [page_request 5 0]).
Proof. vm_compute. reflexivity. Qed.

(** ** The report entry point *)

Lemma try_except_never_raises {A : Type} (c : M A) (handler : string -> A)
    (log : list request) (exc : string) (log' : list request) :
  try_except c (fun e => ret (handler e)) log <> Some (Raise exc, log').
Proof.
  unfold try_except, ret.
  destruct (c log) as [[[value|e] l]|]; discriminate.
Qed.

(** *** The dates the format takes *)

Lemma digit_spec (a : ascii) (x : Z) :
  digit a = Some x ->
  (48 <= nat_of_ascii a <= 57)%nat /\ x = Z.of_nat (nat_of_ascii a) - 48.
Proof.
  unfold digit. cbv zeta.
  destruct (Nat.leb 48 (nat_of_ascii a) && Nat.leb (nat_of_ascii a) 57)%bool eqn:E;
    [|discriminate].
  apply andb_true_iff in E. destruct E as [E1 E2].
  apply Nat.leb_le in E1. apply Nat.leb_le in E2.
  intros H. inversion H. lia.
Qed.

(** An ASCII digit is a decimal digit, with the same value. *)
Lemma digit_take_decimal (a : ascii) (x : Z) (rest : string) :
  digit a = Some x -> take_decimal (String a rest) = Some (x, rest).
Proof.
  intros H. apply digit_spec in H. destruct H as [Hn ->].
  unfold take_decimal, utf8_head. cbv zeta.
  replace (Z.of_nat (nat_of_ascii a) <? 128) with true
    by (symmetry; apply Z.ltb_lt; lia).
  unfold decimal_value, decimal_zeros. cbn [find].
  replace ((48 <=? Z.of_nat (nat_of_ascii a)) && (Z.of_nat (nat_of_ascii a) <? 48 + 10))
    with true
    by (symmetry; apply andb_true_iff; split; [apply Z.leb_le | apply Z.ltb_lt]; lia).
  reflexivity.
Qed.

Lemma digit_not_hyphen (b : ascii) (y : Z) :
  digit b = Some y -> Ascii.eqb b "-" = false.
Proof.
  intros H. apply digit_spec in H. destruct H as [Hn _].
  destruct (Ascii.eqb b "-") eqn:E; [|reflexivity].
  apply Ascii.eqb_eq in E. subst b. cbn in Hn. lia.
Qed.

Lemma digit_not_space (b : ascii) (y : Z) :
  digit b = Some y -> Ascii.eqb b " " = false.
Proof.
  intros H. apply digit_spec in H. destruct H as [Hn _].
  destruct (Ascii.eqb b " ") eqn:E; [|reflexivity].
  apply Ascii.eqb_eq in E. subst b. cbn in Hn. lia.
Qed.

Lemma days_in_month_le_31 (year month : Z) : days_in_month year month <= 31.
Proof.
  unfold days_in_month.
  destruct (month =? 2); [destruct (is_leap year); lia|].
  destruct ((month =? 4) || (month =? 6) || (month =? 9) || (month =? 11)); lia.
Qed.

Lemma make_datetime_midnight_bounds (year month day : Z) (d : datetime) :
  make_datetime year month day 0 0 0 0 = Some d ->
  1 <= month <= 12 /\ 1 <= day <= 31.
Proof.
  unfold make_datetime.
  destruct (1 <=? year); [|discriminate].
  destruct (year <=? 9999); [|discriminate].
  destruct (1 <=? month) eqn:E1; [|discriminate].
  destruct (month <=? 12) eqn:E2; [|discriminate].
  destruct (1 <=? day) eqn:E3; [|discriminate].
  destruct (day <=? days_in_month year month) eqn:E4; [|discriminate].
  intros _. pose proof (days_in_month_le_31 year month).
  apply Z.leb_le in E1, E2, E3, E4. lia.
Qed.

(** The month, by its second character. *)
Lemma strptime_month_equation (a b : ascii) (rest : string) :
  strptime_month (String a (String b (String "-" rest)))
  = if Ascii.eqb b "-" then
      match digit a with
      | Some x => if 1 <=? x then Some (x, String "-" rest) else None
      | None => None
      end
    else
      match two_digits a b with
      | Some x => if (1 <=? x) && (x <=? 12) then Some (x, rest) else None
      | None => None
      end.
Proof.
  destruct b as [[] [] [] [] [] [] [] []]; reflexivity.
Qed.

Lemma strptime_month_two_digits (a b : ascii) (x y : Z) (rest : string) :
  digit a = Some x -> digit b = Some y -> 1 <= 10 * x + y <= 12 ->
  strptime_month (String a (String b (String "-" rest))) = Some (10 * x + y, rest).
Proof.
  intros Ha Hb Hm.
  rewrite strptime_month_equation, (digit_not_hyphen b y Hb).
  unfold two_digits. rewrite Ha, Hb.
  replace ((1 <=? 10 * x + y) && (10 * x + y <=? 12)) with true
    by (symmetry; apply andb_true_iff; split; apply Z.leb_le; lia).
  reflexivity.
Qed.

Lemma strptime_day_two_digits (a b : ascii) (x y : Z) :
  digit a = Some x -> digit b = Some y -> 1 <= 10 * x + y <= 31 ->
  strptime_day (String a (String b EmptyString)) = Some (10 * x + y).
Proof.
  intros Ha Hb Hd.
  pose proof (digit_spec a x Ha) as [Hxr _].
  pose proof (digit_spec b y Hb) as [Hyr Hy].
  pose proof (digit_spec a x Ha) as [_ Hx].
  unfold strptime_day. rewrite (digit_not_space a x Ha), Ha.
  cbn [last_digit_from]. rewrite Hb, (digit_take_decimal b y EmptyString Hb).
  destruct (x =? 3) eqn:E3.
  - apply Z.eqb_eq in E3.
    replace (0 <=? y) with true by (symmetry; apply Z.leb_le; lia).
    replace (y <=? 1) with true by (symmetry; apply Z.leb_le; lia).
    f_equal. lia.
  - apply Z.eqb_neq in E3. destruct ((x =? 1) || (x =? 2)) eqn:E12; [reflexivity|].
    apply orb_false_iff in E12. destruct E12 as [E1 E2].
    apply Z.eqb_neq in E1, E2.
    destruct (x =? 0) eqn:E0.
    + apply Z.eqb_eq in E0.
      replace (1 <=? y) with true by (symmetry; apply Z.leb_le; lia).
      f_equal. lia.
    + apply Z.eqb_neq in E0. exfalso. lia.
Qed.

(** Every well-formed date is taken by the date format: a date the format
    rejects is not well-formed. *)
Lemma well_formed_date_is_accepted (s : string) :
  Spec.well_formed_ymd s = true -> exists d, strptime_ymd s = Some d.
Proof.
  unfold Spec.well_formed_ymd.
  destruct s as [|y1 [|y2 [|y3 [|y4 [|h1 [|m1 [|m2 [|h2 [|d1 [|d2 [|]]]]]]]]]]];
    try discriminate;
    (destruct h1 as [[] [] [] [] [] [] [] []]; try discriminate);
    (destruct h2 as [[] [] [] [] [] [] [] []]; try discriminate).
  unfold four_digits, two_digits.
  destruct (digit y1) as [a|] eqn:Ey1; [|discriminate].
  destruct (digit y2) as [b|] eqn:Ey2; [|discriminate].
  destruct (digit y3) as [c|] eqn:Ey3; [|discriminate].
  destruct (digit y4) as [d|] eqn:Ey4; [|discriminate].
  destruct (digit m1) as [e|] eqn:Em1; [|discriminate].
  destruct (digit m2) as [f|] eqn:Em2; [|discriminate].
  destruct (digit d1) as [g|] eqn:Ed1; [|discriminate].
  destruct (digit d2) as [h|] eqn:Ed2; [|discriminate].
  destruct (make_datetime (100 * (10 * a + b) + (10 * c + d)) (10 * e + f)
                          (10 * g + h) 0 0 0 0) as [dt|] eqn:Emake; [|discriminate].
  intros _. exists dt.
  pose proof (make_datetime_midnight_bounds _ _ _ _ Emake) as [Hm Hd].
  unfold strptime_ymd, strptime_year.
  rewrite (digit_take_decimal y1 a _ Ey1), (digit_take_decimal y2 b _ Ey2),
    (digit_take_decimal y3 c _ Ey3), (digit_take_decimal y4 d _ Ey4).
  rewrite (strptime_month_two_digits m1 m2 e f _ Em1 Em2 Hm).
  rewrite (strptime_day_two_digits d1 d2 g h Ed1 Ed2 Hd).
  rewrite <- Emake. f_equal. ring.
Qed.

(** The date format takes more than the well-formed dates: a month and a
    day of one digit, a day padded with a space, and a year or the second
    digit of a day written in the decimal digits of another script (here
    the full-width digits). *)
Example dates_accepted_beyond_well_formed :
  strptime_ymd "2025-1-5" = strptime_ymd "2025-01-05"
  /\ strptime_ymd "2025-12- 2" = strptime_ymd "2025-12-02"
  /\ strptime_ymd "２０２５-12-08" = strptime_ymd "2025-12-08"
  /\ strptime_ymd "2025-12-1８" = strptime_ymd "2025-12-18"
  /\ strptime_ymd "2025-01-05" <> None
  /\ strptime_ymd "2025-12-02" <> None
  /\ strptime_ymd "2025-12-08" <> None
  /\ strptime_ymd "2025-12-18" <> None
  /\ Spec.well_formed_ymd "2025-1-5" = false
  /\ Spec.well_formed_ymd "2025-12- 2" = false
  /\ Spec.well_formed_ymd "２０２５-12-08" = false
  /\ Spec.well_formed_ymd "2025-12-1８" = false.
Proof. repeat split; try reflexivity; vm_compute; discriminate. Qed.

(** Dates the format rejects: a month or a day out of range, a day that the
    month does not have, text before or after the date, a month in
    full-width digits. *)
Example dates_rejected :
  map strptime_ymd ["2025-13-02"; "2025-12-32"; "2025-02-29"; "2025-00-10";
                    "0000-01-01"; " 2025-12-08"; "2025-12-08 "; "2025/12/08";
                    "08-12-2025"; "2025-1２-08"; EmptyString]
  = [None; None; None; None; None; None; None; None; None; None; None].
Proof. vm_compute. reflexivity. Qed.

(** *** Computations that end *)

Lemma returns_ret {A : Type} (a : A) : returns (ret a).
Proof. intros log. now eexists; eexists. Qed.

Lemma returns_lift {A : Type} (r : result A) : returns (lift r).
Proof. intros log. now eexists; eexists. Qed.

Lemma returns_call {A : Type} (req : request) (response : result A) :
  returns (call req response).
Proof. intros log. now eexists; eexists. Qed.

Lemma returns_bind {A B : Type} (c : M A) (k : A -> M B) :
  returns c -> (forall a, returns (k a)) -> returns (bind c k).
Proof.
  intros Hc Hk log. unfold bind.
  destruct (Hc log) as ([a|exc] & log' & ->); [apply Hk|].
  now eexists; eexists.
Qed.

Lemma returns_try_except {A : Type} (c : M A) (handler : string -> M A) :
  returns c -> (forall exc, returns (handler exc)) -> returns (try_except c handler).
Proof.
  intros Hc Hh log. unfold try_except.
  destruct (Hc log) as ([a|exc] & log' & ->); [|apply Hh].
  now eexists; eexists.
Qed.

(** A body that ends, under a handler that turns the exception into an
    error line, ends with a text. *)
Lemma try_except_returns_text (c : M string) (handler : string -> string) :
  returns c -> returns_text (try_except c (fun e => ret (handler e))).
Proof.
  intros Hc log. unfold try_except, ret.
  destruct (Hc log) as ([a|exc] & log' & ->); now eexists; eexists.
Qed.

Lemma relations_loop_returns (client : Client) (wps : list WorkPackage) :
  forall acc, returns (for_each (relations_step client) wps acc).
Proof.
  induction wps as [|wp wps IH]; intros acc; cbn [for_each]; [apply returns_ret|].
  apply returns_bind; [|exact IH].
  unfold relations_step. apply returns_try_except; [|intros; apply returns_ret].
  destruct (wp_id wp); [|intros log; now eexists; eexists].
  apply returns_bind; [apply returns_call | intros; apply returns_ret].
Qed.

(** The fetch loop ends when the totals the server reports are bounded and
    the fuel covers one page request per 500 of the bound. *)
Lemma fetch_loop_returns (client : Client) (bound : Z) (project_id : Z) :
  totals_bounded client bound ->
  forall (fuel : nat) acc offset,
    (0 < fuel)%nat -> bound < offset + page_size * Z.of_nat fuel ->
    returns (fetch_loop fuel client project_id acc offset).
Proof.
  intros Hbound fuel.
  induction fuel as [|fuel IH]; intros acc offset Hpos Hfuel log; [lia|].
  rewrite fetch_loop_step.
  destruct (get_work_packages client project_id all_status_filters_json offset page_size)
    as [wp_result|exc] eqn:Hresp; [|now eexists; eexists].
  destruct (dict_get [] (env_elements wp_result)) as [|w rest]; [now eexists; eexists|].
  destruct (offset + page_size >=? dict_get 0 (env_total wp_result)) eqn:Hcmp;
    [now eexists; eexists|].
  rewrite Z.geb_leb in Hcmp. apply Z.leb_gt in Hcmp.
  pose proof (Hbound _ _ _ _ _ Hresp) as Htotal.
  unfold page_size in *.
  apply IH; lia.
Qed.

Section EntryPointProperties.

Variable format_error : string -> string.
Variable get_client : result Client.
Variable render_markdown :
  Project -> list WorkPackage -> list TimeEntry -> list Member ->
  string -> string -> option string -> option string -> list Relation ->
  result string.
Variable render_json :
  Project -> list WorkPackage -> list TimeEntry -> list Member ->
  list Relation -> result string.
Variable render_report_data :
  GetReportDataInput -> Project -> list WorkPackage -> list TimeEntry ->
  list Member -> result string.
Variable this_week : result (string * string).
Variable last_week : result (string * string).

Section BoundedTotals.

Variable bound : Z.
Hypothesis client_bounded :
  forall client, get_client = Ok client -> totals_bounded client bound.
Variable fuel : nat.
Hypothesis fuel_positive : (0 < fuel)%nat.
Hypothesis fuel_covers_bound : bound < page_size * Z.of_nat fuel.

Lemma impl_returns_text (input : GenerateWeeklyReportInput) :
  returns_text (_generate_weekly_report_impl format_error get_client render_markdown
                  render_json fuel input).
Proof.
  unfold _generate_weekly_report_impl.
  apply try_except_returns_text.
  intros log. unfold bind at 1. unfold lift at 1.
  destruct get_client as [client|exc] eqn:Hclient; [|now eexists; eexists].
  revert log.
  destruct (strptime_ymd (from_date input)) as [from_dt|]; [|apply returns_ret].
  destruct (strptime_ymd (to_date input)) as [to_dt|]; [|apply returns_ret].
  destruct (from_dt >? to_dt); [apply returns_ret|].
  apply returns_bind; [apply returns_call|intros project].
  apply returns_bind.
  { unfold _fetch_all_project_work_packages.
    apply (fetch_loop_returns client bound);
      [now apply client_bounded | exact fuel_positive | lia]. }
  intros all_work_packages. cbv zeta.
  apply returns_bind; [apply returns_call|intros members_result].
  apply returns_bind; [apply returns_call|intros te_result].
  apply returns_bind; [apply relations_loop_returns|intros relations].
  destruct (lower (format input) =? "json")%string; apply returns_lift.
Qed.

Lemma report_data_returns_text (input : GetReportDataInput) :
  returns_text (get_report_data format_error get_client render_report_data fuel input).
Proof.
  unfold get_report_data.
  apply try_except_returns_text.
  intros log. unfold bind at 1. unfold lift at 1.
  destruct get_client as [client|exc] eqn:Hclient; [|now eexists; eexists].
  revert log.
  destruct (strptime_ymd (data_from_date input)) as [from_dt|]; [|apply returns_ret].
  destruct (strptime_ymd (data_to_date input)) as [to_dt|]; [|apply returns_ret].
  destruct (from_dt >? to_dt); [apply returns_ret|].
  apply returns_bind; [apply returns_call|intros project].
  apply returns_bind.
  { unfold _fetch_all_project_work_packages.
    apply (fetch_loop_returns client bound);
      [now apply client_bounded | exact fuel_positive | lia]. }
  intros all_work_packages. cbv zeta.
  apply returns_bind; [apply returns_call|intros members_result].
  apply returns_bind; [apply returns_call|intros te_result].
  apply returns_lift.
Qed.

Lemma week_report_returns_text (week : result (string * string)) (prefix : string)
    (project_id : Z) (team_name : option string) :
  returns_text
    (try_except
       (dates <- lift week ;;
        input_data <- lift (validated_input project_id (fst dates) (snd dates)
                                            team_name) ;;
        _generate_weekly_report_impl format_error get_client render_markdown render_json
                                     fuel input_data)%report
       (fun e => ret (format_error (prefix ++ e)))).
Proof.
  apply (try_except_returns_text _ (fun e => format_error (prefix ++ e))).
  apply returns_bind; [apply returns_lift|intros dates].
  apply returns_bind; [apply returns_lift|intros input_data].
  intros log. destruct (impl_returns_text input_data log) as (text & log' & ->).
  now eexists; eexists.
Qed.

End BoundedTotals.

(** C9 (as amended).  For every report request whose from_date or to_date
    is rejected by the date format [%Y-%m-%d] (which takes every well-formed
    date and some more, see [well_formed_date_is_accepted] and
    [dates_accepted_beyond_well_formed]), or whose from_date is after its
    to_date, [generate_weekly_report] (and [get_report_data] for the same
    dates) returns an error line built by [format_error] and sends no
    request to the client, whatever the fuel.  None of the four tools ever
    ends with an exception: an exception of the body becomes an error line.
    And each of the four tools does end, with a text, when the totals the
    server reports are bounded and the fuel covers one page request per 500
    of the bound. *)
Theorem C9_invalid_dates_rejected_before_fetch
    (fuel : nat) (input : GenerateWeeklyReportInput) :
  let data_input :=
    mkGetReportDataInput (project_id input) (from_date input) (to_date input) in
  (strptime_ymd (from_date input) = None
   \/ strptime_ymd (to_date input) = None
   \/ exists from_dt to_dt,
        strptime_ymd (from_date input) = Some from_dt
        /\ strptime_ymd (to_date input) = Some to_dt
        /\ to_dt < from_dt) ->
  (exists message,
     generate_weekly_report format_error get_client render_markdown render_json
                            fuel input []
     = Some (Ok (format_error message), [])
     /\ rejection get_client "Failed to generate weekly report: " message)
  /\ (exists message,
        get_report_data format_error get_client render_report_data fuel data_input []
        = Some (Ok (format_error message), [])
        /\ rejection get_client "Failed to get report data: " message)
  /\ (forall fuel' input' log exc log',
        generate_weekly_report format_error get_client render_markdown render_json
                               fuel' input' log
        <> Some (Raise exc, log'))
  /\ (forall fuel' input' log exc log',
        get_report_data format_error get_client render_report_data fuel' input' log
        <> Some (Raise exc, log'))
  /\ (forall fuel' project_id team_name log exc log',
        generate_this_week_report format_error get_client render_markdown render_json
                                  this_week fuel' project_id team_name log
        <> Some (Raise exc, log'))
  /\ (forall fuel' project_id team_name log exc log',
        generate_last_week_report format_error get_client render_markdown render_json
                                  last_week fuel' project_id team_name log
        <> Some (Raise exc, log'))
  /\ (forall bound fuel',
        (forall client, get_client = Ok client -> totals_bounded client bound) ->
        (0 < fuel')%nat -> bound < page_size * Z.of_nat fuel' ->
        (forall input',
           returns_text (generate_weekly_report format_error get_client render_markdown
                           render_json fuel' input'))
        /\ (forall input',
              returns_text (get_report_data format_error get_client render_report_data
                              fuel' input'))
        /\ (forall project_id team_name,
              returns_text (generate_this_week_report format_error get_client
                              render_markdown render_json this_week fuel' project_id
                              team_name))
        /\ (forall project_id team_name,
              returns_text (generate_last_week_report format_error get_client
                              render_markdown render_json last_week fuel' project_id
                              team_name))).
Proof.
  cbv zeta. intros Hbad.
  split; [|split; [|split; [|split; [|split; [|split]]]]];
    try (intros; apply try_except_never_raises).
  - unfold generate_weekly_report, _generate_weekly_report_impl,
      try_except, bind, lift, ret, rejection.
    destruct get_client as [client|exc].
    + destruct Hbad as [Hf | [Ht | (from_dt & to_dt & Hf & Ht & Hlt)]].
      * rewrite Hf. eexists. split; [reflexivity|]. now left.
      * rewrite Ht. destruct (strptime_ymd (from_date input));
          (eexists; split; [reflexivity|]; now left).
      * rewrite Hf, Ht. rewrite (proj2 (Z.gtb_lt _ _) Hlt).
        eexists. split; [reflexivity|]. right. now left.
    + eexists. split; [reflexivity|]. right. right. now exists exc.
  - unfold get_report_data, try_except, bind, lift, ret, rejection.
    cbn [data_from_date data_to_date data_project_id].
    destruct get_client as [client|exc].
    + destruct Hbad as [Hf | [Ht | (from_dt & to_dt & Hf & Ht & Hlt)]].
      * rewrite Hf. eexists. split; [reflexivity|]. now left.
      * rewrite Ht. destruct (strptime_ymd (from_date input));
          (eexists; split; [reflexivity|]; now left).
      * rewrite Hf, Ht. rewrite (proj2 (Z.gtb_lt _ _) Hlt).
        eexists. split; [reflexivity|]. right. now left.
    + eexists. split; [reflexivity|]. right. right. now exists exc.
  - intros bound fuel' Hbounded Hpos Hfuel.
    split; [|split; [|split]]; intros.
    + now apply (impl_returns_text bound).
    + now apply (report_data_returns_text bound).
    + now apply (week_report_returns_text bound).
    + now apply (week_report_returns_text bound).
Qed.

End EntryPointProperties.

(** C9, at a from_date whose month is 13: the error line, and no request
    sent. *)
Lemma C9_invalid_dates_rejected_before_fetch_witness :
  strptime_ymd (from_date (Examples.request_for "2025-13-02" "2025-12-08")) = None
  /\ exists message,
       generate_weekly_report Examples.marked_error
         (Ok (Examples.serving_client (Examples.numbered 3)))
         (fun _ _ _ _ _ _ _ _ _ => Ok "report") (fun _ _ _ _ _ => Ok "{}")
         0 (Examples.request_for "2025-13-02" "2025-12-08") []
       = Some (Ok (Examples.marked_error message), [])
       /\ rejection (Ok (Examples.serving_client (Examples.numbered 3)))
                    "Failed to generate weekly report: " message.
Proof.
  split; [reflexivity|].
  exact (proj1 (C9_invalid_dates_rejected_before_fetch Examples.marked_error
                  (Ok (Examples.serving_client (Examples.numbered 3)))
                  (fun _ _ _ _ _ _ _ _ _ => Ok "report") (fun _ _ _ _ _ => Ok "{}")
                  (fun _ _ _ _ _ => Ok "{}") (Ok ("2025-12-01", "2025-12-07"))
                  (Ok ("2025-11-24", "2025-11-30"))
                  0 (Examples.request_for "2025-13-02" "2025-12-08")
                  (or_introl eq_refl))).
Defined.

(** C9, the claim as stated fails: the from_date 2025-1-5 is not a
    well-formed YYYY-MM-DD date, and the request is served: the project, a
    page of work packages, the memberships and the time entries are
    requested, and the report comes back, not an error line. *)
Lemma C9_one_digit_date_is_fetched_for :
  Spec.well_formed_ymd "2025-1-5" = false
  /\ generate_weekly_report Examples.marked_error
       (Ok (Examples.serving_client (Examples.numbered 3)))
       (fun _ _ _ _ _ _ _ _ _ => Ok "report") (fun _ _ _ _ _ => Ok "{}")
       1 (Examples.request_for "2025-1-5" "2025-12-08") []
     = Some (Ok "report",
             [ReqProject 5; page_request 5 0; ReqMemberships 5;
              ReqTimeEntries (time_filters_json "2025-1-5" "2025-12-08" 5)]).
Proof. split; vm_compute; reflexivity. Qed.

(** The same for a year in full-width digits. *)
Example full_width_year_is_fetched_for :
  generate_weekly_report Examples.marked_error
    (Ok (Examples.serving_client (Examples.numbered 3)))
    (fun _ _ _ _ _ _ _ _ _ => Ok "report") (fun _ _ _ _ _ => Ok "{}")
    1 (Examples.request_for "２０２５-12-02" "2025-12-08") []
  = Some (Ok "report",
          [ReqProject 5; page_request 5 0; ReqMemberships 5;
           ReqTimeEntries (time_filters_json "２０２５-12-02" "2025-12-08" 5)]).
Proof. vm_compute. reflexivity. Qed.

(** Without a bound on the totals the fetch need not end: against a server
    whose total always lies beyond the next page the loop uses up any fuel,
    and so does the report. *)
Lemma fetch_runs_on_with_growing_totals (fuel : nat) :
  forall acc offset log,
    fetch_loop fuel Examples.endless_client 5 acc offset log = None.
Proof.
  induction fuel as [|fuel IH]; intros acc offset log; [reflexivity|].
  rewrite fetch_loop_step.
  cbn [Examples.endless_client get_work_packages env_elements env_total dict_get].
  rewrite Z.geb_leb. rewrite (proj2 (Z.leb_gt _ _)) by lia.
  apply IH.
Qed.

Example report_runs_on_with_growing_totals (fuel : nat) :
  generate_weekly_report Examples.marked_error (Ok Examples.endless_client)
    (fun _ _ _ _ _ _ _ _ _ => Ok "report") (fun _ _ _ _ _ => Ok "{}")
    fuel (Examples.request_for Examples.week_from Examples.week_to) []
  = None.
Proof.
  assert (Hfrom : strptime_ymd Examples.week_from = Some 63900316800000000)
    by (vm_compute; reflexivity).
  assert (Hto : strptime_ymd Examples.week_to = Some 63900835200000000)
    by (vm_compute; reflexivity).
  unfold generate_weekly_report, _generate_weekly_report_impl, Examples.request_for.
  cbn [from_date to_date project_id]. rewrite Hfrom, Hto.
  unfold try_except, bind at 1, lift.
  change (63900316800000000 >? 63900835200000000) with false. cbv iota.
  unfold bind at 1. unfold call at 1.
  cbn [Examples.endless_client get_project].
  unfold bind at 1. unfold _fetch_all_project_work_packages.
  now rewrite fetch_runs_on_with_growing_totals.
Qed.

Example malformed_date_rejected :
  generate_weekly_report Examples.marked_error
    (Ok (Examples.serving_client (Examples.numbered 3)))
    (fun _ _ _ _ _ _ _ _ _ => Ok "report") (fun _ _ _ _ _ => Ok "{}")
    0 (Examples.request_for "2025-13-02" "2025-12-08") []
  = Some (Ok "Error: Invalid date format. Use YYYY-MM-DD", []).
Proof. vm_compute. reflexivity. Qed.

Example reversed_dates_rejected :
  generate_weekly_report Examples.marked_error
    (Ok (Examples.serving_client (Examples.numbered 3)))
    (fun _ _ _ _ _ _ _ _ _ => Ok "report") (fun _ _ _ _ _ => Ok "{}")
    0 (Examples.request_for "2025-12-08" "2025-12-02") []
  = Some (Ok "Error: from_date must be before or equal to to_date", []).
Proof. vm_compute. reflexivity. Qed.

(** A shortcut called with project id 0: the input model refuses it, and
    the refusal comes back as an error line. *)
Example this_week_invalid_project :
  generate_this_week_report Examples.marked_error
    (Ok (Examples.serving_client (Examples.numbered 3)))
    (fun _ _ _ _ _ _ _ _ _ => Ok "report") (fun _ _ _ _ _ => Ok "{}")
    (Ok ("2025-12-01", "2025-12-07")) 1 0 None []
  = Some (Ok ("Error: Failed to generate this week's report: "
              ++ "1 validation error for GenerateWeeklyReportInput"), []).
Proof. vm_compute. reflexivity. Qed.

(** A valid request is served: the project, one page of work packages, the
    memberships and the time entries are requested, and no relation, since
    no work package of the server has a date in the week. *)
Example valid_request_served :
  generate_weekly_report Examples.marked_error
    (Ok (Examples.serving_client (Examples.numbered 3)))
    (fun _ _ _ _ _ _ _ _ _ => Ok "report") (fun _ _ _ _ _ => Ok "{}")
    1 (Examples.request_for Examples.week_from Examples.week_to) []
  = Some (Ok "report",
          [ReqProject 5; page_request 5 0; ReqMemberships 5;
           ReqTimeEntries
             (time_filters_json Examples.week_from Examples.week_to 5)]).
Proof. vm_compute. reflexivity. Qed.

(** * Further properties of the code *)

(** ** The relevance filter as a whole *)

(** The filter loop keeps exactly the relevant work packages, in the order
    they were fetched: it neither repeats, reorders nor adds one. *)
Theorem filter_relevant_is_filter (from_dt to_dt : datetime)
    (all_work_packages : list WorkPackage) :
  filter_relevant from_dt to_dt all_work_packages
  = filter (is_relevant from_dt to_dt) all_work_packages.
Proof.
  unfold filter_relevant.
  enough (H : forall acc,
             fold_left (fun work_packages wp =>
                          if is_relevant from_dt to_dt wp
                          then (work_packages ++ [wp])%list else work_packages)
                       all_work_packages acc
             = (acc ++ filter (is_relevant from_dt to_dt) all_work_packages)%list)
    by apply (H []).
  induction all_work_packages as [|wp wps IH]; intros acc; cbn [fold_left filter].
  - now rewrite app_nil_r.
  - rewrite IH. destruct (is_relevant from_dt to_dt wp); [|reflexivity].
    now rewrite <- app_assoc.
Qed.

(** A work package whose update time is present and does not parse is kept
    if and only if its status is closed-type, whatever its creation and
    closed dates say. *)
Theorem malformed_update_time_policy (from_dt to_dt : datetime) (wp : WorkPackage) :
  malformed (dict_get "" (wp_updatedAt wp)) = true ->
  is_relevant from_dt to_dt wp = is_closed_status wp.
Proof.
  unfold malformed. intros H. apply andb_true_iff in H. destruct H as [Hne Hbad].
  unfold is_relevant, relevance_checks. cbv zeta. rewrite Hne.
  destruct (parse_timestamp (dict_get "" (wp_updatedAt wp))); [discriminate|].
  reflexivity.
Qed.

Lemma malformed_update_time_policy_witness :
  malformed (dict_get "" (wp_updatedAt MoreExamples.malformed_update)) = true
  /\ exists from_dt to_dt : datetime,
       strptime_ymd Examples.week_from = Some from_dt
       /\ strptime_ymd Examples.week_to = Some to_dt
       /\ Spec.step2 from_dt to_dt MoreExamples.malformed_update = true
       /\ is_relevant from_dt to_dt MoreExamples.malformed_update
          = is_closed_status MoreExamples.malformed_update
       /\ is_closed_status MoreExamples.malformed_update = false.
Proof.
  split; [reflexivity|].
  eexists. eexists.
  split; [vm_compute; reflexivity|].
  split; [vm_compute; reflexivity|].
  split; [vm_compute; reflexivity|].
  split; [|reflexivity].
  apply (malformed_update_time_policy _ _ MoreExamples.malformed_update).
  reflexivity.
Defined.

(** For a work package whose status is not closed-type the filter is: updated
    within the window, or created within the window provided the update time
    is absent or parses. *)
Theorem relevance_without_closed_status (from_dt to_dt : datetime) (wp : WorkPackage) :
  is_closed_status wp = false ->
  is_relevant from_dt to_dt wp
  = Spec.step1 from_dt to_dt wp
    || (absent_or_parses (wp_updatedAt wp) && Spec.step2 from_dt to_dt wp).
Proof.
  intros Hopen.
  unfold is_relevant, relevance_checks, Spec.step1, Spec.step2, Spec.field_between,
    absent_or_parses. cbv zeta. rewrite Hopen.
  destruct (is_empty (dict_get "" (wp_updatedAt wp)));
    destruct (is_empty (dict_get "" (wp_createdAt wp)));
    destruct (parse_timestamp (dict_get "" (wp_updatedAt wp))) as [u|];
    destruct (parse_timestamp (dict_get "" (wp_createdAt wp))) as [c|];
    cbn [negb andb orb bind_result];
    try destruct (between from_dt u to_dt);
    try destruct (between from_dt c to_dt);
    reflexivity.
Qed.

Lemma relevance_without_closed_status_witness :
  is_closed_status Examples.updated_in_week = false
  /\ exists from_dt to_dt : datetime,
       strptime_ymd Examples.week_from = Some from_dt
       /\ strptime_ymd Examples.week_to = Some to_dt
       /\ is_relevant from_dt to_dt Examples.updated_in_week
          = Spec.step1 from_dt to_dt Examples.updated_in_week
            || (absent_or_parses (wp_updatedAt Examples.updated_in_week)
                && Spec.step2 from_dt to_dt Examples.updated_in_week).
Proof.
  split; [reflexivity|].
  eexists. eexists.
  split; [vm_compute; reflexivity|].
  split; [vm_compute; reflexivity|].
  apply (relevance_without_closed_status _ _ Examples.updated_in_week).
  reflexivity.
Defined.

(** For a work package whose status is closed-type the filter is: one of the
    four date tests holds (updated in the window, created in the window,
    updated within the 30 days before the report end, closed date in the
    window), or one of its timestamps is present and does not parse. *)
Theorem relevance_with_closed_status (from_dt to_dt cutoff : datetime)
    (wp : WorkPackage) :
  is_closed_status wp = true ->
  sub_days to_dt 30 = Some cutoff ->
  is_relevant from_dt to_dt wp
  = Spec.step1 from_dt to_dt wp || Spec.step2 from_dt to_dt wp
    || Spec.step3 to_dt wp || Spec.closed_date_in_window from_dt to_dt wp
    || malformed (dict_get "" (wp_updatedAt wp))
    || malformed (dict_get "" (wp_createdAt wp))
    || malformed (closed_on_text wp).
Proof.
  intros Hclosed Hcut.
  assert (Ecut : to_dt - 30 * microseconds_per_day = cutoff).
  { unfold sub_days in Hcut.
    destruct (microseconds_per_day <=? to_dt - 30 * microseconds_per_day);
      congruence. }
  unfold is_relevant, relevance_checks, closed_status_checks, Spec.step1, Spec.step2,
    Spec.step3, Spec.closed_date_in_window, Spec.field_between, malformed,
    closed_on_text. cbv zeta.
  rewrite Hclosed, Hcut, Ecut.
  destruct (is_empty (dict_get "" (wp_updatedAt wp)));
    destruct (is_empty (dict_get "" (wp_createdAt wp)));
    destruct (is_empty (str_or (dict_get "" (wp_closedOn wp))
                               (dict_get "" (wp_closedAt wp))));
    destruct (parse_timestamp (dict_get "" (wp_updatedAt wp))) as [u|];
    destruct (parse_timestamp (dict_get "" (wp_createdAt wp))) as [c|];
    destruct (parse_timestamp (str_or (dict_get "" (wp_closedOn wp))
                                      (dict_get "" (wp_closedAt wp)))) as [d|];
    cbn [negb andb orb bind_result];
    try destruct (between from_dt u to_dt);
    try destruct (between from_dt c to_dt);
    try destruct (between cutoff u to_dt);
    try destruct (between from_dt d to_dt);
    reflexivity.
Qed.

Lemma relevance_with_closed_status_witness :
  is_closed_status MoreExamples.closed_recently = true
  /\ exists from_dt to_dt cutoff : datetime,
       strptime_ymd Examples.week_from = Some from_dt
       /\ strptime_ymd Examples.week_to = Some to_dt
       /\ sub_days to_dt 30 = Some cutoff
       /\ Spec.step3 to_dt MoreExamples.closed_recently = true
       /\ is_relevant from_dt to_dt MoreExamples.closed_recently
          = Spec.step1 from_dt to_dt MoreExamples.closed_recently
            || Spec.step2 from_dt to_dt MoreExamples.closed_recently
            || Spec.step3 to_dt MoreExamples.closed_recently
            || Spec.closed_date_in_window from_dt to_dt MoreExamples.closed_recently
            || malformed (dict_get "" (wp_updatedAt MoreExamples.closed_recently))
            || malformed (dict_get "" (wp_createdAt MoreExamples.closed_recently))
            || malformed (closed_on_text MoreExamples.closed_recently).
Proof.
  split; [reflexivity|].
  eexists. eexists. eexists.
  split; [vm_compute; reflexivity|].
  split; [vm_compute; reflexivity|].
  split; [vm_compute; reflexivity|].
  split; [vm_compute; reflexivity|].
  eapply relevance_with_closed_status.
  - reflexivity.
  - vm_compute. reflexivity.
Defined.

(** ** The record fetcher against any client *)

Lemma fetch_loop_requests (client : Client) (project_id : Z) (fuel : nat) :
  forall (acc : list WorkPackage) (j : nat) (log : list request)
         (r : result (list WorkPackage)) (log' : list request),
    fetch_loop fuel client project_id acc (Z.of_nat j * page_size) log = Some (r, log') ->
    exists n : nat,
      (1 <= n <= fuel)%nat
      /\ log' = (log ++ map (page_request project_id) (offsets_from j n))%list
      /\ (forall exc, r = Raise exc ->
            get_work_packages client project_id all_status_filters_json
                              (Z.of_nat (j + n - 1) * page_size) page_size
            = Raise exc).
Proof.
  induction fuel as [|fuel IH]; intros acc j log r log' Hrun; [discriminate|].
  rewrite fetch_loop_step in Hrun.
  destruct (get_work_packages client project_id all_status_filters_json
                              (Z.of_nat j * page_size) page_size)
    as [wp_result|exc0] eqn:Hresp.
  - destruct (dict_get [] (env_elements wp_result)) as [|w rest].
    + inversion Hrun; subst. exists 1%nat. repeat split; try lia. discriminate.
    + destruct (Z.of_nat j * page_size + page_size >=? dict_get 0 (env_total wp_result)).
      * inversion Hrun; subst. exists 1%nat. repeat split; try lia. discriminate.
      * replace (Z.of_nat j * page_size + page_size) with (Z.of_nat (S j) * page_size)
          in Hrun by lia.
        apply IH in Hrun. destruct Hrun as (n & Hn & Hlog & Hexc).
        exists (S n). split; [lia|]. split.
        -- rewrite Hlog, <- app_assoc. reflexivity.
        -- intros exc Hr. replace (j + S n - 1)%nat with (S j + n - 1)%nat by lia.
           now apply Hexc.
  - inversion Hrun; subst. exists 1%nat. split; [lia|]. split; [reflexivity|].
    intros exc Hr. inversion Hr; subst.
    replace (j + 1 - 1)%nat with j by lia. exact Hresp.
Qed.

(** Whatever the client answers, a fetch that ends has sent between one and
    [fuel] requests, all of them work-package listings of the project with
    the all-statuses filter and page size 500, at the consecutive offsets 0,
    500, 1000, ...; and it ends with an exception only when the last of these
    requests raised it. *)
Theorem fetch_sends_consecutive_pages (client : Client) (project_id : Z) (fuel : nat)
    (r : result (list WorkPackage)) (log' : list request) :
  _fetch_all_project_work_packages fuel client project_id [] = Some (r, log') ->
  exists n : nat,
    (1 <= n <= fuel)%nat
    /\ log' = map (page_request project_id) (offsets_from 0 n)
    /\ (forall exc, r = Raise exc ->
          get_work_packages client project_id all_status_filters_json
                            (Z.of_nat (n - 1) * page_size) page_size
          = Raise exc).
Proof.
  unfold _fetch_all_project_work_packages. intros Hrun.
  apply (fetch_loop_requests client project_id fuel [] 0 []) in Hrun.
  destruct Hrun as (n & Hn & Hlog & Hexc). exists n. repeat split; try lia.
  - exact Hlog.
  - intros exc Hr. now apply Hexc.
Qed.

Lemma fetch_sends_consecutive_pages_witness :
  _fetch_all_project_work_packages 5
    (paged_client Examples.failing_client (Examples.numbered 1234)) 5 []
  = Some (Ok (Examples.numbered 1234),
          [page_request 5 0; page_request 5 500; page_request 5 1000])
  /\ exists n : nat,
       (1 <= n <= 5)%nat
       /\ [page_request 5 0; page_request 5 500; page_request 5 1000]
          = map (page_request 5) (offsets_from 0 n).
Proof.
  assert (H : _fetch_all_project_work_packages 5
                (paged_client Examples.failing_client (Examples.numbered 1234)) 5 []
              = Some (Ok (Examples.numbered 1234),
                      [page_request 5 0; page_request 5 500; page_request 5 1000])).
  { vm_compute. reflexivity. }
  split; [exact H|].
  destruct (fetch_sends_consecutive_pages _ _ _ _ _ H) as (n & Hn & Hlog & _).
  exists n. split; [exact Hn | exact Hlog].
Defined.

(** A listing that reports no total is read as a single page: the fetch
    returns the elements of the first answer after one request. *)
Theorem fetch_without_total_is_one_page (client : Client) (project_id : Z) (fuel : nat)
    (elements : option (list WorkPackage)) :
  get_work_packages client project_id all_status_filters_json 0 page_size
  = Ok (mkEnvelope elements None) ->
  _fetch_all_project_work_packages (S fuel) client project_id []
  = Some (Ok (dict_get [] elements), [page_request project_id 0]).
Proof.
  intros Hresp. unfold _fetch_all_project_work_packages.
  rewrite fetch_loop_step, Hresp. cbn [env_elements env_total dict_get app].
  destruct (dict_get [] elements) eqn:He; reflexivity.
Qed.

Lemma fetch_without_total_is_one_page_witness :
  _fetch_all_project_work_packages 1
    (mkClient (fun _ => Raise "x")
              (fun _ _ _ _ => Ok (mkEnvelope (Some (Examples.numbered 500)) None))
              (fun _ => Raise "x") (fun _ => Raise "x") (fun _ => Raise "x")) 5 []
  = Some (Ok (Examples.numbered 500), [page_request 5 0]).
Proof.
  apply (fetch_without_total_is_one_page
           (mkClient (fun _ => Raise "x")
              (fun _ _ _ _ => Ok (mkEnvelope (Some (Examples.numbered 500)) None))
              (fun _ => Raise "x") (fun _ => Raise "x") (fun _ => Raise "x"))
           5 0 (Some (Examples.numbered 500))).
  reflexivity.
Defined.

(** ** The relation lookups *)

Lemma relations_loop (client : Client) (wps : list WorkPackage) :
  forall (acc : list Relation) (log : list request),
    for_each (relations_step client) wps acc log
    = Some (Ok (acc ++ relations_of client wps)%list,
            (log ++ map ReqRelations (ids_of wps))%list).
Proof.
  induction wps as [|wp wps IH]; intros acc log.
  - cbn. now rewrite !app_nil_r.
  - cbn [for_each]. unfold bind at 1. unfold relations_step at 1.
    unfold try_except, raise, bind, call, ret, ids_of, relations_of.
    cbn [flat_map]. fold (ids_of wps). fold (relations_of client wps).
    destruct (wp_id wp) as [i|].
    + destruct (get_relations client i) as [rel_result|exc];
        rewrite IH; cbn [map app]; rewrite <- ?app_assoc; reflexivity.
    + rewrite IH. cbn [map app]. reflexivity.
Qed.

(** The relation lookups never fail and never stop the report: the loop
    over the first ten relevant work packages sends one request per work
    package that has an id, in order and at most ten in all, ignores every
    lookup that raises, and returns the relations of the others. *)
Theorem relation_lookups_bounded_and_safe (client : Client)
    (work_packages : list WorkPackage) (log : list request) :
  for_each (relations_step client) (firstn 10 work_packages) [] log
  = Some (Ok (relations_of client (firstn 10 work_packages)),
          (log ++ map ReqRelations (ids_of (firstn 10 work_packages)))%list)
  /\ (length (ids_of (firstn 10 work_packages)) <= 10)%nat.
Proof.
  split; [apply relations_loop|].
  assert (H : forall l : list WorkPackage, (length (ids_of l) <= length l)%nat).
  { induction l as [|wp l IH]; [apply le_n|].
    unfold ids_of in *. cbn [flat_map]. rewrite length_app.
    destruct (wp_id wp); cbn [length]; lia. }
  etransitivity; [apply H|]. apply firstn_le_length.
Qed.

(** ** The report run as a whole *)

Lemma fetch_all_paged_after (base : Client) (project_id : Z)
    (records : list WorkPackage) (fuel : nat) (log : list request) :
  (length records / 500 < fuel)%nat ->
  _fetch_all_project_work_packages fuel (paged_client base records) project_id log
  = Some (Ok records, (log ++ page_requests project_id (length records))%list).
Proof.
  intros Hfuel. unfold _fetch_all_project_work_packages.
  pose proof (fetch_loop_paged base project_id records
                (Nat.max 1 ((length records + 499) / 500) - 1) fuel 0 log) as H.
  pose proof (div_500_bounds (length records + 499)) as Hq.
  pose proof (div_500_bounds (length records)) as Hr.
  cbn [firstn Nat.mul Z.of_nat Z.mul] in H.
  replace (S (Nat.max 1 ((length records + 499) / 500) - 1))
    with (Nat.max 1 ((length records + 499) / 500)) in H by lia.
  apply H; lia.
Qed.

Section ReportRun.

Variable format_error : string -> string.
Variable render_markdown :
  Project -> list WorkPackage -> list TimeEntry -> list Member ->
  string -> string -> option string -> option string -> list Relation ->
  result string.
Variable render_json :
  Project -> list WorkPackage -> list TimeEntry -> list Member ->
  list Relation -> result string.

(** When the project lookup fails, the report stops there: the entry point
    returns the error line that names the failure, and the project lookup is
    the only request sent. *)
Theorem project_lookup_failure_aborts (client : Client) (fuel : nat)
    (input : GenerateWeeklyReportInput) (from_dt to_dt : datetime) (exc : string) :
  strptime_ymd (from_date input) = Some from_dt ->
  strptime_ymd (to_date input) = Some to_dt ->
  from_dt <= to_dt ->
  get_project client (project_id input) = Raise exc ->
  generate_weekly_report format_error (Ok client) render_markdown render_json
                         fuel input []
  = Some (Ok (format_error ("Failed to generate weekly report: " ++ exc)),
          [ReqProject (project_id input)]).
Proof.
  intros Hf Ht Hle Hproject.
  unfold generate_weekly_report, _generate_weekly_report_impl,
    try_except, bind, lift, call, ret.
  rewrite Hf, Ht.
  replace (from_dt >? to_dt) with false by (symmetry; rewrite Z.gtb_ltb; apply Z.ltb_ge; exact Hle).
  rewrite Hproject. reflexivity.
Qed.

(** A report run against a client that answers: the requests are sent one
    after the other in a fixed order (the project, the pages of work
    packages, the memberships, the time entries of the window, then the
    relations of the first ten relevant work packages that have an id); the
    text is the JSON rendering exactly when the format, lowercased, is
    "json", and the markdown rendering for any other format; and an exception
    of the rendering comes back as an error line. *)
Theorem report_run_request_order (base : Client) (records : list WorkPackage)
    (fuel : nat) (input : GenerateWeeklyReportInput) (from_dt to_dt : datetime)
    (project : Project) (members_result : Envelope Member)
    (te_result : Envelope TimeEntry) :
  let client := paged_client base records in
  let time_filters :=
    time_filters_json (from_date input) (to_date input) (project_id input) in
  let work_packages := filter (is_relevant from_dt to_dt) records in
  let members := dict_get [] (env_elements members_result) in
  let time_entries := dict_get [] (env_elements te_result) in
  let relations := relations_of client (firstn 10 work_packages) in
  let rendered :=
    if (lower (format input) =? "json")%string
    then render_json project work_packages time_entries members relations
    else render_markdown project work_packages time_entries members
           (from_date input) (to_date input) (sprint_goal input) (team_name input)
           relations in
  strptime_ymd (from_date input) = Some from_dt ->
  strptime_ymd (to_date input) = Some to_dt ->
  from_dt <= to_dt ->
  (length records / 500 < fuel)%nat ->
  get_project base (project_id input) = Ok project ->
  get_memberships base (project_id input) = Ok members_result ->
  get_time_entries base time_filters = Ok te_result ->
  generate_weekly_report format_error (Ok client) render_markdown render_json
                         fuel input []
  = Some (Ok (match rendered with
              | Ok text => text
              | Raise exc => format_error ("Failed to generate weekly report: " ++ exc)
              end),
          (ReqProject (project_id input)
           :: page_requests (project_id input) (length records)
           ++ [ReqMemberships (project_id input); ReqTimeEntries time_filters]
           ++ map ReqRelations (ids_of (firstn 10 work_packages)))%list).
Proof.
  cbv zeta. intros Hf Ht Hle Hfuel Hproject Hmembers Hentries.
  unfold generate_weekly_report, _generate_weekly_report_impl.
  unfold try_except, bind at 1, lift at 1.
  rewrite Hf, Ht.
  replace (from_dt >? to_dt) with false
    by (symmetry; rewrite Z.gtb_ltb; apply Z.ltb_ge; exact Hle).
  unfold bind at 1, call at 1.
  cbn [paged_client get_project get_memberships get_time_entries app].
  rewrite Hproject.
  unfold bind at 1.
  change (mkClient (get_project base) (paged_work_packages records)
                   (get_memberships base) (get_time_entries base) (get_relations base))
    with (paged_client base records).
  rewrite (fetch_all_paged_after base (project_id input) records fuel
             [ReqProject (project_id input)] Hfuel).
  rewrite filter_relevant_is_filter.
  unfold bind at 1, call at 1. rewrite Hmembers.
  unfold bind at 1, call at 1. rewrite Hentries.
  unfold bind at 1. rewrite relations_loop. cbn [app].
  unfold lift.
  rewrite <- !app_assoc. cbn [app].
  destruct (lower (format input) =? "json")%string;
    match goal with
    | |- context [match ?r with Ok _ => _ | Raise _ => _ end] => destruct r
    end; reflexivity.
Qed.

End ReportRun.

Lemma project_lookup_failure_aborts_witness :
  strptime_ymd Examples.week_from <> None
  /\ get_project MoreExamples.no_project_client 5 = Raise "unreachable"
  /\ generate_weekly_report Examples.marked_error (Ok MoreExamples.no_project_client)
       (fun _ _ _ _ _ _ _ _ _ => Ok "report") (fun _ _ _ _ _ => Ok "{}")
       0 (Examples.request_for Examples.week_from Examples.week_to) []
     = Some (Ok "Error: Failed to generate weekly report: unreachable", [ReqProject 5]).
Proof.
  split; [discriminate|]. split; [reflexivity|].
  eapply (project_lookup_failure_aborts Examples.marked_error
            (fun _ _ _ _ _ _ _ _ _ => Ok "report") (fun _ _ _ _ _ => Ok "{}")
            MoreExamples.no_project_client 0
            (Examples.request_for Examples.week_from Examples.week_to)).
  - vm_compute. reflexivity.
  - vm_compute. reflexivity.
  - vm_compute. discriminate.
  - reflexivity.
Defined.

Lemma report_run_request_order_witness :
  generate_weekly_report Examples.marked_error (Ok MoreExamples.week_client)
    (fun _ wps _ _ _ _ _ _ rels =>
       Ok (str_of_int (Z.of_nat (length wps)) ++ " work packages, "
           ++ str_of_int (Z.of_nat (length rels)) ++ " relations"))
    (fun _ _ _ _ _ => Raise "not serializable")
    1 (Examples.request_for Examples.week_from Examples.week_to) []
  = Some (Ok "12 work packages, 5 relations",
          [ReqProject 5; page_request 5 0; ReqMemberships 5;
           ReqTimeEntries (time_filters_json Examples.week_from Examples.week_to 5);
           ReqRelations 0; ReqRelations 1; ReqRelations 2; ReqRelations 3;
           ReqRelations 4; ReqRelations 5; ReqRelations 6; ReqRelations 7;
           ReqRelations 8; ReqRelations 9]).
Proof.
  etransitivity.
  - eapply (report_run_request_order Examples.marked_error _ _ _
              MoreExamples.week_records 1
              (Examples.request_for Examples.week_from Examples.week_to)).
    + vm_compute. reflexivity.
    + vm_compute. reflexivity.
    + vm_compute. discriminate.
    + vm_compute. apply le_n.
    + reflexivity.
    + reflexivity.
    + reflexivity.
  - vm_compute. reflexivity.
Defined.

(** ** The hour totals *)

Lemma metrics_wp_step_hours (m : Metrics) (wp : WorkPackage) :
  let m' := metrics_wp_step m wp in
  total_hours m' = total_hours m /\ dev_hours m' = dev_hours m
  /\ qa_hours m' = qa_hours m /\ management_hours m' = management_hours m.
Proof.
  cbv zeta. rewrite metrics_wp_step_category. unfold count_type.
  destruct (Spec.category wp), (Spec.is_bug_type wp), (Spec.is_feature_type wp);
    repeat split; reflexivity.
Qed.

Lemma metrics_wp_fold_hours (wps : list WorkPackage) (m : Metrics) :
  let m' := fold_left metrics_wp_step wps m in
  total_hours m' = total_hours m /\ dev_hours m' = dev_hours m
  /\ qa_hours m' = qa_hours m /\ management_hours m' = management_hours m.
Proof.
  revert m. induction wps as [|wp wps IH]; intros m; cbn [fold_left].
  - cbv zeta. repeat split; reflexivity.
  - specialize (IH (metrics_wp_step m wp)). cbv zeta in IH |- *.
    pose proof (metrics_wp_step_hours m wp) as Hs. cbv zeta in Hs.
    intuition congruence.
Qed.

Lemma metrics_te_fold_hours (tes : list TimeEntry) (m : Metrics) :
  let m' := fold_left metrics_te_step tes m in
  total_hours m' = add_hours (total_hours m) tes
  /\ dev_hours m' = add_hours (dev_hours m) (filter is_dev_activity tes)
  /\ qa_hours m'
     = add_hours (qa_hours m)
         (filter (fun te => negb (is_dev_activity te) && is_qa_activity te) tes)
  /\ management_hours m'
     = add_hours (management_hours m)
         (filter (fun te => negb (is_dev_activity te) && negb (is_qa_activity te)
                            && is_management_activity te) tes).
Proof.
  revert m. induction tes as [|te tes IH]; intros m; cbn [fold_left filter].
  - cbv zeta. unfold add_hours. cbn. repeat split; reflexivity.
  - specialize (IH (metrics_te_step m te)). cbv zeta in IH |- *.
    destruct IH as (H0 & H1 & H2 & H3). rewrite H0, H1, H2, H3.
    unfold metrics_te_step, is_dev_activity, is_qa_activity, is_management_activity,
      activity. cbv zeta.
    destruct (contains "development" (lower (dict_get "" (te_embedded_activity_name te)))
              || contains "implement" (lower (dict_get "" (te_embedded_activity_name te))));
      [|destruct (contains "test" (lower (dict_get "" (te_embedded_activity_name te)))
                 || contains "qa" (lower (dict_get "" (te_embedded_activity_name te))));
        [|destruct (contains "management"
                      (lower (dict_get "" (te_embedded_activity_name te)))
                    || contains "meeting"
                         (lower (dict_get "" (te_embedded_activity_name te))))]];
      cbn [negb andb]; unfold add_hours; cbn [map fold_left];
      repeat split; reflexivity.
Qed.

(** The hours of the metrics: total_hours adds the hours of every time
    entry, a missing value counting as 0, from left to right; each entry is
    added to at most one of the three activity totals, development before
    QA before management, by the first keyword group its activity name
    matches, and to none of them when it matches no group.  The work packages
    do not enter the hours. *)
Theorem hours_by_first_matching_activity (wps : list WorkPackage)
    (tes : list TimeEntry) :
  let m := calculate_metrics wps tes in
  total_hours m = add_hours 0%float tes
  /\ dev_hours m = add_hours 0%float (filter is_dev_activity tes)
  /\ qa_hours m
     = add_hours 0%float
         (filter (fun te => negb (is_dev_activity te) && is_qa_activity te) tes)
  /\ management_hours m
     = add_hours 0%float
         (filter (fun te => negb (is_dev_activity te) && negb (is_qa_activity te)
                            && is_management_activity te) tes).
Proof.
  cbv zeta. unfold calculate_metrics.
  pose proof (metrics_te_fold_hours tes
                (fold_left metrics_wp_step wps (initial_metrics wps))) as Ht.
  pose proof (metrics_wp_fold_hours wps (initial_metrics wps)) as Hw.
  cbv zeta in Ht, Hw.
  destruct Ht as (T0 & T1 & T2 & T3). destruct Hw as (W0 & W1 & W2 & W3).
  rewrite T0, T1, T2, T3, W0, W1, W2, W3. repeat split; reflexivity.
Qed.

(** ** The structured report data *)

(** The data returned for custom processing lose no work package: the
    five exported lists (the group [other] is not exported) together hold
    every work package of the input exactly once, their sizes add up to the
    total_wps of the exported metrics, the blockers are those of the blocker
    detection, and a missing relations argument is exported as the empty
    list. *)
Theorem report_data_loses_no_work_package (project : Project)
    (wps : list WorkPackage) (tes : list TimeEntry) (members : list Member)
    (relations : option (list Relation)) :
  let data := ReportData.format_report_data_json project wps tes members relations in
  Permutation wps
    (ReportData.json_done data ++ ReportData.json_in_progress data
     ++ ReportData.json_planned data ++ ReportData.json_blocked data
     ++ ReportData.json_de_scoped data)
  /\ Z.of_nat (length (ReportData.json_done data)
               + length (ReportData.json_in_progress data)
               + length (ReportData.json_planned data)
               + length (ReportData.json_blocked data)
               + length (ReportData.json_de_scoped data))
     = total_wps (ReportData.json_metrics data)
  /\ ReportData.json_blockers data
     = map Spec.blocker_of (filter Spec.is_blocker wps)
  /\ ReportData.json_relations
       (ReportData.format_report_data_json project wps tes members None) = [].
Proof.
  cbv zeta. unfold ReportData.format_report_data_json. cbv zeta.
  cbn [ReportData.json_done ReportData.json_in_progress ReportData.json_planned
       ReportData.json_blocked ReportData.json_de_scoped ReportData.json_metrics
       ReportData.json_blockers ReportData.json_relations].
  rewrite group_by_status_members.
  cbn [done in_progress planned blocked de_scoped].
  pose proof (members_of_split wps) as Hperm.
  split; [exact Hperm|]. split; [|split; [|reflexivity]].
  - pose proof (calculate_metrics_counters wps tes) as H. cbv zeta in H.
    destruct H as (H0 & _). rewrite H0.
    apply Permutation_length in Hperm. rewrite !length_app in Hperm. lia.
  - unfold detect_blockers. rewrite blockers_fold. reflexivity.
Qed.

(** ** The status lines and section E of the markdown report *)

Lemma fold_left_keeps_last {A B : Type} (f : A -> B) (l : list A) (start : B) :
  fold_left (fun _ x => f x) l start
  = match rev l with
    | [] => start
    | x :: _ => f x
    end.
Proof.
  revert start. induction l as [|x l IH]; intros start; [reflexivity|].
  cbn [fold_left rev]. rewrite IH.
  destruct (rev l) as [|y r]; reflexivity.
Qed.

Lemma impediments_exception_of_blocked (wps : list WorkPackage) :
  impediments_exception (map Spec.blocker_of (filter Spec.is_blocker wps))
  = if existsb blocked_without_subject wps
    then Some "'NoneType' object is not subscriptable"
    else None.
Proof.
  induction wps as [|wp wps IH]; [reflexivity|].
  cbn [filter existsb]. unfold blocked_without_subject at 1.
  destruct (Spec.is_blocker wp); cbn [andb orb map impediments_exception].
  - unfold Spec.blocker_of at 1. cbn [blocker_subject].
    destruct (wp_subject wp); cbn [orb]; [exact IH | reflexivity].
  - exact IH.
Qed.

(** The appendix of the markdown report is reached only when section E did
    not fail, that is when no detected blocker lacks its subject; if one
    does, the function raises the [TypeError] of section E and there is no
    appendix line.  When the appendix is reached, its status line shows the
    status indicator only if no work package is de-scoped; otherwise it
    shows the embedded status name of the last de-scoped work package
    ("Unknown" when it has none), since the de-scoped table reuses the
    variable that holds the indicator. *)
Theorem appendix_status_after_de_scoped_table (R : Type) (wps : list WorkPackage)
    (tes : list TimeEntry) (relations : option (list R)) :
  appendix_status_line (format_weekly_report_markdown wps tes relations)
  = if existsb blocked_without_subject wps
    then Raise "'NoneType' object is not subscriptable"
    else Ok ("**Status:** "
             ++ match last_de_scoped_status (Spec.members_of Spec.DeScoped wps) with
                | Some name => name
                | None => status_indicator (calculate_metrics wps tes)
                end).
Proof.
  unfold format_weekly_report_markdown, status_after_de_scoped, last_de_scoped_status.
  cbv zeta. cbn [appendix_status_line].
  unfold detect_blockers. rewrite blockers_fold. cbn [app].
  rewrite impediments_exception_of_blocked.
  destruct (existsb blocked_without_subject wps); [reflexivity|].
  rewrite fold_left_keeps_last, group_by_status_members. cbn [de_scoped].
  destruct (rev (Spec.members_of Spec.DeScoped wps)); reflexivity.
Qed.

(** A blocked work package without subject next to a rejected one: section
    B has its line, the appendix is never reached. *)
Example appendix_not_reached_without_subject :
  let wps := [Examples.rejected_task;
              mkWorkPackage (Some 11) None (Some "Blocked") None (Some "Task")
                            None None None None None None] in
  let report := format_weekly_report_markdown wps [] (@None (list Relation)) in
  progress_line report = "**Progress vs Sprint Goal:** ðŸ”´ Off track" ++ newline
  /\ appendix_status_line report = Raise "'NoneType' object is not subscriptable".
Proof. split; reflexivity. Qed.

(** Section E and the appendix agree: the section raises exactly the
    exception that keeps the appendix line from being appended. *)
Lemma impediments_section_raises_the_exception (report : list string)
    (blockers : list ReportFormatter.Blocker) (exc : string) :
  ReportText.impediments_section report blockers = Raise exc
  <-> impediments_exception blockers = Some exc.
Proof.
  unfold ReportText.impediments_section. cbv zeta.
  destruct blockers as [|b rest]; [split; discriminate|].
  match goal with
  | |- context [ReportText.impediment_rows ?r ?l] => generalize r; generalize l
  end.
  intros l. induction l as [|x l IH]; intros r.
  - cbn. split; discriminate.
  - cbn [ReportText.impediment_rows impediments_exception].
    unfold ReportText.impediment_row, ReportText.subject_head.
    destruct (blocker_subject x).
    + apply IH.
    + split; intros H; inversion H; reflexivity.
Qed.

Lemma impediment_rows_outcome (blockers : list ReportFormatter.Blocker) :
  forall report : list string,
    match ReportText.impediment_rows report blockers with
    | Ok report' =>
        forallb (fun b => match blocker_subject b with Some _ => true | None => false end)
                blockers = true
        /\ length report' = (length report + length blockers)%nat
    | Raise _ =>
        forallb (fun b => match blocker_subject b with Some _ => true | None => false end)
                blockers = false
    end.
Proof.
  induction blockers as [|b rest IH]; intros report; cbn [ReportText.impediment_rows forallb].
  - split; [reflexivity | cbn; lia].
  - unfold ReportText.impediment_row, ReportText.subject_head.
    destruct (blocker_subject b); cbn [andb]; [|reflexivity].
    specialize (IH (report ++ [("| #" ++ ReportText.fstr_int (blocker_id b) ++ " "
                                ++ String.substring 0 40 s ++ " | High | "
                                ++ blocker_assignee b ++ " | "
                                ++ ReportText.fstr_text (blocker_status b) ++ " |")%string])%list).
    destruct (ReportText.impediment_rows _ rest); [|exact IH].
    destruct IH as [Hall Hlen]. split; [exact Hall|].
    rewrite Hlen, length_app. cbn [length]. lia.
Qed.

Lemma blockers_all_have_subject (wps : list WorkPackage) :
  forallb (fun b => match blocker_subject b with Some _ => true | None => false end)
          (map Spec.blocker_of (filter Spec.is_blocker wps))
  = negb (existsb blocked_without_subject wps).
Proof.
  induction wps as [|wp wps IH]; [reflexivity|].
  cbn [filter existsb]. unfold blocked_without_subject at 1.
  destruct (Spec.is_blocker wp); cbn [andb orb map forallb].
  - unfold Spec.blocker_of at 1. cbn [blocker_subject].
    destruct (wp_subject wp); cbn [andb orb negb]; [exact IH | reflexivity].
  - exact IH.
Qed.

(** Section E of the markdown report fails, and the report with it,
    exactly when some work package is a detected blocker and has no subject:
    the row of such a blocker slices [None].  Otherwise the section adds the
    heading and either the line "No impediments" or a table with one row per
    blocker. *)
Theorem impediments_section_fails_without_subject (R : Type)
    (report : list string) (wps : list WorkPackage) (relations : option (list R)) :
  match ReportText.impediments_section report (detect_blockers wps relations) with
  | Raise exc =>
      existsb blocked_without_subject wps = true
      /\ exc = "'NoneType' object is not subscriptable"
  | Ok report' =>
      existsb blocked_without_subject wps = false
      /\ length report'
         = (length report
            + match filter Spec.is_blocker wps with
              | [] => 2
              | _ :: _ => 5 + length (filter Spec.is_blocker wps)
              end)%nat
  end.
Proof.
  unfold detect_blockers. rewrite blockers_fold. cbn [app].
  pose proof (blockers_all_have_subject wps) as Hsub.
  unfold ReportText.impediments_section. cbv zeta.
  destruct (filter Spec.is_blocker wps) as [|wp blocked_wps] eqn:Hblocked.
  - cbn [map]. cbn [map forallb] in Hsub. split.
    + destruct (existsb blocked_without_subject wps); [discriminate | reflexivity].
    + rewrite !length_app. cbn [length]. lia.
  - cbn [map]. cbn [map] in Hsub.
    match goal with
    | |- context [ReportText.impediment_rows ?r ?b] =>
        pose proof (impediment_rows_outcome b r) as Hrows;
        destruct (ReportText.impediment_rows r b) as [report'|exc] eqn:Hrun
    end.
    + destruct Hrows as [Hall Hlen]. rewrite Hall in Hsub. split.
      * destruct (existsb blocked_without_subject wps); [discriminate | reflexivity].
      * rewrite length_app, Hlen, !length_app. cbn [length]. rewrite length_map. lia.
    + rewrite Hrows in Hsub. split.
      * destruct (existsb blocked_without_subject wps); [reflexivity | discriminate].
      * clear - Hrun.
        match type of Hrun with
        | ReportText.impediment_rows ?r ?b = _ => revert Hrun; generalize r; generalize b
        end.
        induction l as [|b rest IH]; intros r Hrun; [discriminate|].
        cbn [ReportText.impediment_rows] in Hrun.
        unfold ReportText.impediment_row, ReportText.subject_head in Hrun.
        destruct (blocker_subject b).
        -- eapply IH. exact Hrun.
        -- now inversion Hrun.
Qed.

(** ** projects.py: the hierarchy *)

Import Projects.

Lemma option_Z_eqb_refl (x : option Z) : option_Z_eqb x x = true.
Proof. destruct x; [apply Z.eqb_refl | reflexivity]. Qed.

Lemma append_child_keeps (parent_id : Z) (project p : ProjectJson) (pm : ParentMap)
    (key : Z) (children : list ProjectJson) :
  In (key, children) pm -> In p children ->
  exists children', In (key, children') (append_child parent_id project pm)
                    /\ In p children'.
Proof.
  induction pm as [|[k ch] rest IH]; intros Hin Hp; [contradiction|].
  cbn [append_child]. destruct Hin as [Heq | Hin].
  - inversion Heq; subst. destruct (key =? parent_id).
    + exists (children ++ [project])%list. split; [now left|].
      apply in_or_app. now left.
    + exists children. split; [now left | exact Hp].
  - destruct (k =? parent_id).
    + exists children. split; [now right | exact Hp].
    + destruct (IH Hin Hp) as (children' & Hin' & Hp').
      exists children'. split; [now right | exact Hp'].
Qed.

Lemma append_child_adds (parent_id : Z) (project : ProjectJson) (pm : ParentMap) :
  exists key children, In (key, children) (append_child parent_id project pm)
                       /\ In project children.
Proof.
  induction pm as [|[k ch] rest IH]; cbn [append_child].
  - exists parent_id, [project]. split; now left.
  - destruct (k =? parent_id).
    + exists k, (ch ++ [project])%list. split; [now left|].
      apply in_or_app. right. now left.
    + destruct IH as (key & children & Hin & Hp).
      exists key, children. split; [now right | exact Hp].
Qed.

Lemma place_project_placed (state state' : ParentMap * list ProjectJson)
    (project : ProjectJson) :
  place_project state project = Ok state' ->
  placed state' project /\ (forall p, placed state p -> placed state' p).
Proof.
  destruct state as [pm roots]. unfold place_project.
  destruct (negb (is_empty (dict_get "" (pj_parent_href project)))).
  - destruct (py_int (last_segment (dict_get "" (pj_parent_href project))))
      as [parent_id|]; [|discriminate].
    intros H. inversion H; subst. unfold placed. cbn [fst snd]. split.
    + right. apply append_child_adds.
    + intros p [Hroot | (key & children & Hin & Hp)]; [now left|].
      right. destruct (append_child_keeps parent_id project p pm key children Hin Hp)
        as (children' & Hin' & Hp').
      now exists key, children'.
  - intros H. inversion H; subst. unfold placed. cbn [fst snd]. split.
    + left. apply in_or_app. right. now left.
    + intros p [Hroot | Hchild]; [|now right].
      left. apply in_or_app. now left.
Qed.

Lemma place_projects_placed (projects : list ProjectJson) :
  forall state state',
    place_projects state projects = Ok state' ->
    (forall p, In p projects -> placed state' p)
    /\ (forall p, placed state p -> placed state' p).
Proof.
  induction projects as [|project rest IH]; intros state state' Hrun.
  - inversion Hrun; subst. split; [intros p []|auto].
  - cbn [place_projects] in Hrun.
    destruct (place_project state project) as [state1|] eqn:Hstep; [|discriminate].
    destruct (place_project_placed _ _ _ Hstep) as [Hnew Hold].
    destruct (IH _ _ Hrun) as [Hrest Hkeep]. split.
    + intros p [<- | Hin]; [now apply Hkeep | now apply Hrest].
    + intros p Hp. now apply Hkeep, Hold.
Qed.

Lemma placed_is_shown (pm : ParentMap) (roots : list ProjectJson) (p : ProjectJson) :
  placed (pm, roots) p ->
  existsb (option_Z_eqb (pj_id p)) (all_shown_ids pm roots) = true.
Proof.
  intros Hp. apply existsb_exists. exists (pj_id p).
  split; [|apply option_Z_eqb_refl].
  unfold all_shown_ids. apply in_or_app. destruct Hp as [Hroot | (key & ch & Hin & Hc)].
  - left. now apply in_map.
  - right. apply in_flat_map. exists (key, ch). split; [exact Hin|].
    cbn [snd]. now apply in_map.
Qed.

Lemma no_orphan (projects : list ProjectJson) (pm : ParentMap)
    (roots : list ProjectJson) :
  place_projects ([], []) projects = Ok (pm, roots) ->
  orphaned pm roots projects = [].
Proof.
  intros Hrun. destruct (place_projects_placed _ _ _ Hrun) as [Hall _].
  unfold orphaned.
  assert (H : forall l, (forall p, In p l -> placed (pm, roots) p) ->
                        filter (fun p => negb (existsb (option_Z_eqb (pj_id p))
                                                       (all_shown_ids pm roots))) l = []).
  { induction l as [|p l IHl]; intros Hl; [reflexivity|].
    cbn [filter]. rewrite (placed_is_shown pm roots p) by (apply Hl; now left).
    cbn [negb]. apply IHl. intros q Hq. apply Hl. now right. }
  now apply H.
Qed.

(** The hierarchical listing never prints its section "Subprojects (parent
    not shown)": every project is either a root or recorded as a child, so
    the list of orphans is always empty, and a text that is returned is the
    header followed by the trees of the root projects only. *)
Theorem hierarchy_never_lists_orphans (fuel : nat) (projects : list ProjectJson)
    (text : string) :
  projects <> [] ->
  _format_project_hierarchy fuel projects = Some (Ok text) ->
  exists (parent_map : ParentMap) (root_projects : list ProjectJson),
    place_projects ([], []) projects = Ok (parent_map, root_projects)
    /\ orphaned parent_map root_projects projects = []
    /\ fold_left
         (fun text root =>
            match text, format_tree fuel parent_map root 0 with
            | Some t, Some r => Some (t ++ r)
            | _, _ => None
            end)
         root_projects (Some (hierarchy_header projects))
       = Some text.
Proof.
  intros Hne Hrun. unfold _format_project_hierarchy in Hrun.
  destruct projects as [|p0 rest]; [contradiction|].
  destruct (place_projects ([], []) (p0 :: rest)) as [[pm roots]|] eqn:Hplace;
    [|discriminate].
  exists pm, roots. split; [reflexivity|].
  pose proof (no_orphan _ _ _ Hplace) as Horph. split; [exact Horph|].
  cbv zeta in Hrun. rewrite Horph in Hrun.
  match type of Hrun with
  | match ?t with _ => _ end = _ => destruct t as [t0|]; [|discriminate]
  end.
  now inversion Hrun.
Qed.

Lemma hierarchy_never_lists_orphans_witness :
  ProjectExamples.small_forest <> []
  /\ exists text,
       _format_project_hierarchy 3 ProjectExamples.small_forest = Some (Ok text)
       /\ exists (parent_map : ParentMap) (root_projects : list ProjectJson),
            place_projects ([], []) ProjectExamples.small_forest
            = Ok (parent_map, root_projects)
            /\ orphaned parent_map root_projects ProjectExamples.small_forest = []
            /\ fold_left
                 (fun text root =>
                    match text, format_tree 3 parent_map root 0 with
                    | Some t, Some r => Some (t ++ r)
                    | _, _ => None
                    end)
                 root_projects (Some (hierarchy_header ProjectExamples.small_forest))
               = Some text.
Proof.
  split; [discriminate|].
  eexists. split; [vm_compute; reflexivity|].
  apply (hierarchy_never_lists_orphans 3 ProjectExamples.small_forest).
  - discriminate.
  - vm_compute. reflexivity.
Defined.

Lemma place_projects_all_children (projects : list ProjectJson) :
  forallb has_parent_link projects = true ->
  forall pm roots, exists pm', place_projects (pm, roots) projects = Ok (pm', roots).
Proof.
  induction projects as [|p rest IH]; intros Hall pm roots.
  - now exists pm.
  - cbn [forallb] in Hall. apply andb_true_iff in Hall. destruct Hall as [Hp Hrest].
    cbn [place_projects]. unfold place_project, has_parent_link in *. cbv zeta in Hp.
    apply andb_true_iff in Hp. destruct Hp as [Hne Hint]. rewrite Hne.
    destruct (py_int (last_segment (dict_get "" (pj_parent_href p)))) as [k|];
      [|discriminate].
    apply IH. exact Hrest.
Qed.

(** When every project of the list has a parent link, that is when the list
    holds subprojects only, the hierarchical listing announces their number
    and shows none of them, whatever the recursion depth allowed. *)
Theorem subprojects_only_are_not_shown (fuel : nat) (projects : list ProjectJson) :
  projects <> [] ->
  forallb has_parent_link projects = true ->
  _format_project_hierarchy fuel projects = Some (Ok (hierarchy_header projects)).
Proof.
  intros Hne Hall. unfold _format_project_hierarchy.
  destruct projects as [|p0 rest]; [contradiction|].
  destruct (place_projects_all_children _ Hall [] []) as (pm & Hplace).
  match goal with
  | |- context [place_projects ?a ?b] =>
      replace (place_projects a b) with (@Ok (ParentMap * list ProjectJson) (pm, []))
        by (symmetry; exact Hplace)
  end.
  cbv zeta. cbn [fold_left].
  now rewrite (no_orphan _ _ _ Hplace).
Qed.

Lemma subprojects_only_are_not_shown_witness :
  ProjectExamples.subprojects_only <> []
  /\ forallb has_parent_link ProjectExamples.subprojects_only = true
  /\ _format_project_hierarchy 0 ProjectExamples.subprojects_only
     = Some (Ok (hierarchy_header ProjectExamples.subprojects_only)).
Proof.
  split; [discriminate|]. split; [reflexivity|].
  apply (subprojects_only_are_not_shown 0 ProjectExamples.subprojects_only).
  - discriminate.
  - reflexivity.
Defined.

Lemma place_projects_bad_link (projects : list ProjectJson) :
  existsb bad_parent_link projects = true ->
  forall state, exists exc, place_projects state projects = Raise exc.
Proof.
  induction projects as [|p rest IH]; intros Hbad state; [discriminate|].
  cbn [existsb] in Hbad. cbn [place_projects].
  destruct (place_project state p) as [state1|exc] eqn:Hstep; [|now exists exc].
  apply orb_true_iff in Hbad. destruct Hbad as [Hp | Hrest]; [|now apply IH].
  exfalso. destruct state as [pm roots].
  unfold place_project, bad_parent_link in *. cbv zeta in Hp.
  apply andb_true_iff in Hp. destruct Hp as [Hne Hint]. rewrite Hne in Hstep.
  destruct (py_int (last_segment (dict_get "" (pj_parent_href p)))); discriminate.
Qed.

Section ListProjects.

Variable get_client : result Client.
Variable format_project_list : list ProjectJson -> result string.

(** One parent link that does not end in an integer (a trailing slash is
    enough) makes the whole hierarchical listing fail: [list_projects]
    returns the line "Failed to list projects" after its single request, for
    every recursion depth allowed, and shows no project at all. *)
Theorem bad_parent_link_fails_the_listing (client : Client) (active_only : bool)
    (listing : Envelope ProjectJson) :
  let filters := if active_only then Some active_filters_json else None in
  get_client = Ok client ->
  client_get_projects client filters = Ok listing ->
  existsb bad_parent_link (dict_get [] (env_elements listing)) = true ->
  exists exc,
    forall fuel,
      list_projects get_client format_project_list fuel active_only true []
      = Some (Ok ("❌ Failed to list projects: " ++ exc), [ReqGetProjects filters]).
Proof.
  cbv zeta. intros Hclient Hlist Hbad.
  destruct (place_projects_bad_link _ Hbad ([], [])) as (exc & Hplace).
  exists exc. intros fuel.
  unfold list_projects, bind, lift, call, ret. rewrite Hclient, Hlist.
  cbn [negb app]. unfold _format_project_hierarchy.
  destruct (dict_get [] (env_elements listing)) as [|p0 rest]; [discriminate|].
  match goal with
  | |- context [place_projects ?a ?b] =>
      replace (place_projects a b) with (@Raise (ParentMap * list ProjectJson) exc)
        by (symmetry; exact Hplace)
  end.
  reflexivity.
Qed.

End ListProjects.

Lemma bad_parent_link_fails_the_listing_witness :
  existsb bad_parent_link ProjectExamples.trailing_slash = true
  /\ exists exc,
       forall fuel,
         list_projects (Ok ProjectExamples.two_projects_client)
                       (fun _ => Ok "flat list") fuel true true []
         = Some (Ok ("❌ Failed to list projects: " ++ exc),
                 [ReqGetProjects (Some active_filters_json)]).
Proof.
  split; [reflexivity|].
  apply (bad_parent_link_fails_the_listing (Ok ProjectExamples.two_projects_client)
           (fun _ => Ok "flat list") ProjectExamples.two_projects_client true
           (mkEnvelope (Some ProjectExamples.trailing_slash) (Some 2))).
  - reflexivity.
  - reflexivity.
  - reflexivity.
Defined.

(** ** projects.py: the recursion of the hierarchy *)

Lemma append_child_entries (k : Z) (p : ProjectJson) (pm : ParentMap)
    (key : Z) (children : list ProjectJson) :
  In (key, children) (append_child k p pm) ->
  In (key, children) pm
  \/ (key = k /\ exists old, children = (old ++ [p])%list
                             /\ (old = [] \/ In (key, old) pm)).
Proof.
  induction pm as [|[k0 ch0] rest IH]; cbn [append_child]; intros Hin.
  - destruct Hin as [Heq | []]. inversion Heq; subst.
    right. split; [reflexivity|]. exists []. split; [reflexivity | now left].
  - destruct (k0 =? k) eqn:Hk.
    + apply Z.eqb_eq in Hk. subst k0. destruct Hin as [Heq | Hin].
      * inversion Heq; subst. right. split; [reflexivity|].
        exists ch0. split; [reflexivity|]. right. now left.
      * left. now right.
    + destruct Hin as [Heq | Hin].
      * left. now left.
      * destruct (IH Hin) as [Hold | (Hkey & old & Hch & Hwhere)].
        -- left. now right.
        -- right. split; [exact Hkey|]. exists old. split; [exact Hch|].
           destruct Hwhere as [Hnil | Hin']; [now left | right; now right].
Qed.

Lemma place_project_well_placed (all : list ProjectJson)
    (state state' : ParentMap * list ProjectJson) (project : ProjectJson) :
  In project all -> well_placed all state ->
  place_project state project = Ok state' -> well_placed all state'.
Proof.
  intros Hall [Hch Hroot]. destruct state as [pm roots]. cbn [fst snd] in *.
  unfold place_project.
  destruct (negb (is_empty (dict_get "" (pj_parent_href project)))) eqn:Hlink.
  - destruct (py_int (last_segment (dict_get "" (pj_parent_href project))))
      as [k|] eqn:Hint; [|discriminate].
    intros H. inversion H; subst. split; cbn [fst snd]; [|exact Hroot].
    intros key children c Hin Hc.
    apply append_child_entries in Hin.
    destruct Hin as [Hold | (Hkey & old & Hnew & Hwhere)]; [now apply (Hch key children)|].
    subst. apply in_app_or in Hc. destruct Hc as [Hc | [<- | []]].
    + destruct Hwhere as [-> | Hin']; [contradiction | now apply (Hch k old)].
    + split; [exact Hall|]. unfold parent_key. cbv zeta. now rewrite Hlink.
  - intros H. inversion H; subst. split; cbn [fst snd]; [exact Hch|].
    intros r Hr. apply in_app_or in Hr. destruct Hr as [Hr | [<- | []]].
    + now apply Hroot.
    + split; [exact Hall|]. unfold parent_key. cbv zeta. now rewrite Hlink.
Qed.

Lemma place_projects_well_placed (all projects : list ProjectJson) :
  forall state state',
    incl projects all -> well_placed all state ->
    place_projects state projects = Ok state' -> well_placed all state'.
Proof.
  induction projects as [|p rest IH]; intros state state' Hincl Hwp Hrun.
  - now inversion Hrun; subst.
  - cbn [place_projects] in Hrun.
    destruct (place_project state p) as [state1|] eqn:Hstep; [|discriminate].
    apply (IH state1 state'); [| |exact Hrun].
    + intros x Hx. apply Hincl. now right.
    + apply (place_project_well_placed all state state1 p); auto.
      apply Hincl. now left.
Qed.

Lemma children_of_entry (pm : ParentMap) (key : option Z) (c : ProjectJson) :
  In c (children_of pm key) ->
  exists k children, key = Some k /\ In (k, children) pm /\ In c children.
Proof.
  induction pm as [|[k0 ch0] rest IH]; cbn [children_of]; [intros []|].
  destruct key as [id|]; [|intros []].
  destruct (k0 =? id) eqn:Hk.
  - apply Z.eqb_eq in Hk. subst. intros Hc. exists id, ch0.
    repeat split; [now left | exact Hc].
  - intros Hc. destruct (IH Hc) as (k & children & Hkey & Hin & Hc').
    exists k, children. repeat split; [exact Hkey | now right | exact Hc'].
Qed.

Lemma chain_parent (path : list ProjectJson) :
  chain path ->
  forall x, In x path ->
    parent_key x = None
    \/ exists a, In a (tl path) /\ parent_key x = pj_id a.
Proof.
  induction 1 as [r Hr | c a rest Hlink Hsome Hchain IH]; intros x Hx.
  - destruct Hx as [<- | []]. now left.
  - destruct Hx as [<- | Hx].
    + right. exists a. split; [now left | exact Hlink].
    + destruct (IH x Hx) as [Hnone | (b & Hb & Hkey)]; [now left|].
      right. exists b. split; [now right | exact Hkey].
Qed.

Lemma same_id_same_project (all : list ProjectJson) :
  NoDup (map pj_id all) ->
  forall a b, In a all -> In b all -> pj_id a = pj_id b -> a = b.
Proof.
  induction all as [|p rest IH]; intros Hnd a b Ha Hb Hid; [contradiction|].
  cbn [map] in Hnd. inversion Hnd as [|? ? Hnotin Hnd']; subst.
  destruct Ha as [<- | Ha], Hb as [<- | Hb].
  - reflexivity.
  - exfalso. apply Hnotin. rewrite Hid. now apply in_map.
  - exfalso. apply Hnotin. rewrite <- Hid. now apply in_map.
  - now apply IH.
Qed.

Lemma fold_option_some {A : Type} (g : A -> option string) (l : list A) :
  (forall x, In x l -> g x <> None) ->
  forall t : string,
    fold_left (fun text x => match text, g x with
                             | Some t, Some c => Some (t ++ c)
                             | _, _ => None
                             end) l (Some t) <> None.
Proof.
  induction l as [|x l IH]; intros Hall t; cbn [fold_left]; [discriminate|].
  destruct (g x) as [c|] eqn:Hg.
  - apply IH. intros y Hy. apply Hall. now right.
  - exfalso. apply (Hall x); [now left | exact Hg].
Qed.

Section Recursion.

Variable all : list ProjectJson.
Variable parent_map : ParentMap.
Variable root_projects : list ProjectJson.
Hypothesis distinct_ids : NoDup (map pj_id all).
Hypothesis Hplaced : well_placed all (parent_map, root_projects).

(** Along a path of distinct projects of the list, the tree of a project is
    formatted as soon as the depth allowed exceeds the number of projects
    that are not on the path. *)
Lemma format_tree_completes (fuel : nat) :
  forall (p : ProjectJson) (anc : list ProjectJson) (indent : nat),
    chain (p :: anc) -> NoDup (p :: anc) -> incl (p :: anc) all ->
    (length all < fuel + length (p :: anc))%nat ->
    format_tree fuel parent_map p indent <> None.
Proof.
  induction fuel as [|fuel IH]; intros p anc indent Hchain Hnd Hincl Hfuel.
  - exfalso. pose proof (NoDup_incl_length Hnd Hincl). lia.
  - cbn [format_tree]. apply fold_option_some.
    intros c Hc. apply (IH c (p :: anc) (S indent)).
    + destruct (children_of_entry _ _ _ Hc) as (k & children & Hid & Hin & Hcin).
      destruct (proj1 Hplaced k children c Hin Hcin) as [_ Hkey].
      apply chain_link; [congruence | congruence | exact Hchain].
    + constructor; [|exact Hnd]. intros Hon.
      destruct (children_of_entry _ _ _ Hc) as (k & children & Hid & Hin & Hcin).
      destruct (proj1 Hplaced k children c Hin Hcin) as [_ Hkey].
      destruct (chain_parent _ Hchain c Hon) as [Hnone | (a & Ha & Hlink)];
        [congruence|].
      cbn [tl] in Ha.
      assert (a = p).
      { apply (same_id_same_project all distinct_ids).
        - apply Hincl. now right.
        - apply Hincl. now left.
        - congruence. }
      subst a. inversion Hnd; contradiction.
    + intros x [<- | Hx]; [|now apply Hincl].
      destruct (children_of_entry _ _ _ Hc) as (k & children & Hid & Hin & Hcin).
      now destruct (proj1 Hplaced k children c Hin Hcin).
    + cbn [length] in *. lia.
Qed.

End Recursion.

(** With pairwise distinct project ids and parent links that all end in an
    integer, the hierarchical listing always completes: a recursion depth
    equal to the number of projects is enough, whatever the shape of the
    links (a chain, a link to an absent project, a link to itself). *)
Theorem hierarchy_completes_with_distinct_ids (projects : list ProjectJson) :
  NoDup (map pj_id projects) ->
  existsb bad_parent_link projects = false ->
  exists text, _format_project_hierarchy (length projects) projects = Some (Ok text).
Proof.
  intros Hnd Hgood. unfold _format_project_hierarchy.
  destruct projects as [|p0 rest] eqn:Hprojects; [now eexists|].
  rewrite <- Hprojects in *.
  destruct (place_projects ([], []) projects) as [[pm roots]|exc] eqn:Hplace.
  - assert (Hwp : well_placed projects (pm, roots)).
    { apply (place_projects_well_placed projects projects ([], []) (pm, roots));
        [apply incl_refl | | exact Hplace].
      split; cbn [fst snd]; intros; contradiction. }
    cbv zeta. rewrite (no_orphan _ _ _ Hplace).
    match goal with
    | |- context [fold_left ?f roots ?start] =>
        destruct (fold_left f roots start) as [text|] eqn:Hfold
    end; [now eexists|].
    exfalso. revert Hfold.
    apply (fold_option_some (fun root => format_tree (length projects) pm root 0)).
    intros r Hr. destruct (proj2 Hwp r Hr) as [Hin Hroot].
    apply (format_tree_completes projects pm roots Hnd Hwp (length projects) r [] 0).
    + now constructor.
    + constructor; [intros [] | constructor].
    + intros x [<- | []]. exact Hin.
    + cbn [length]. lia.
  - exfalso. clear - Hgood Hplace.
    assert (H : forall l state,
               existsb bad_parent_link l = false ->
               forall exc, place_projects state l <> Raise exc).
    { induction l as [|p l IH]; intros state Hl e; cbn [place_projects]; [discriminate|].
      cbn [existsb] in Hl. apply orb_false_iff in Hl. destruct Hl as [Hp Hl].
      destruct (place_project state p) as [state1|e1] eqn:Hstep; [now apply IH|].
      exfalso. destruct state as [pm roots].
      unfold place_project, bad_parent_link in *. cbv zeta in Hp.
      destruct (negb (is_empty (dict_get "" (pj_parent_href p)))); [|discriminate].
      destruct (py_int (last_segment (dict_get "" (pj_parent_href p))));
        discriminate. }
    exact (H _ _ Hgood exc Hplace).
Qed.

Lemma hierarchy_completes_with_distinct_ids_witness :
  NoDup (map pj_id ProjectExamples.small_forest)
  /\ existsb bad_parent_link ProjectExamples.small_forest = false
  /\ exists text,
       _format_project_hierarchy (length ProjectExamples.small_forest)
                                 ProjectExamples.small_forest
       = Some (Ok text).
Proof.
  assert (Hnd : NoDup (map pj_id ProjectExamples.small_forest)).
  { cbn. repeat constructor; cbn; intuition discriminate. }
  split; [exact Hnd|]. split; [reflexivity|].
  exact (hierarchy_completes_with_distinct_ids ProjectExamples.small_forest
           Hnd eq_refl).
Defined.

(** ** projects.py: the tools *)

Section ToolProperties.

Variable format_success : string -> string.
Variable format_error : string -> string.

(** [add_subproject] creates nothing under a parent it could not check: a
    create request is sent only after the lookup of the parent succeeded and
    showed it active, it is then the second and last request, and its payload
    is that of the input with the parent id. *)
Theorem subproject_only_under_active_parent (get_client : result Client)
    (input : AddSubprojectInput) (r : result string) (log' : list request)
    (data : payload) :
  add_subproject format_success format_error get_client input [] = (r, log') ->
  In (ReqCreateProject data) log' ->
  exists client parent,
    get_client = Ok client
    /\ client_get_project client (sub_parent_id input) = Ok parent
    /\ pj_active parent = Some true
    /\ data = subproject_data input
    /\ In ("parent_id", FInt (sub_parent_id input)) data
    /\ log' = [ReqGetProject (sub_parent_id input); ReqCreateProject data].
Proof.
  unfold add_subproject, tool, try_except, bind, lift, call, ret, truthy.
  destruct get_client as [client|exc]; cbn [app].
  - destruct (client_get_project client (sub_parent_id input)) as [parent|exc] eqn:Hparent.
    + destruct (pj_active parent) as [[|]|] eqn:Hactive; cbn [dict_get negb].
      * destruct (client_create_project client (subproject_data input));
          intros Hrun Hin; inversion Hrun; subst;
          (destruct Hin as [Hin | [Hin | []]]; [discriminate|]);
          inversion Hin; subst; exists client, parent; repeat split; auto;
          unfold subproject_data, set_if_given;
          destruct (sub_description input), (sub_public input); cbn; auto.
      * intros Hrun Hin. inversion Hrun; subst.
        destruct Hin as [Hin | []]. discriminate.
      * intros Hrun Hin. inversion Hrun; subst.
        destruct Hin as [Hin | []]. discriminate.
    + intros Hrun Hin. inversion Hrun; subst.
      destruct Hin as [Hin | []]. discriminate.
  - intros Hrun Hin. inversion Hrun; subst. contradiction.
Qed.

(** [get_subprojects] asks for the subprojects only after the lookup of the
    parent succeeded; when the lookup fails it returns the error line that
    names the parent, and the lookup is its only request. *)
Theorem subprojects_listed_only_for_known_parent (get_client : result Client)
    (parent_id : Z) (r : result string) (log' : list request) :
  get_subprojects format_success format_error get_client parent_id [] = (r, log') ->
  (forall k, In (ReqGetSubprojects k) log' ->
     exists client parent,
       get_client = Ok client /\ client_get_project client parent_id = Ok parent
       /\ k = parent_id
       /\ log' = [ReqGetProject parent_id; ReqGetSubprojects parent_id])
  /\ (forall client exc,
        get_client = Ok client -> client_get_project client parent_id = Raise exc ->
        r = Ok (format_error ("Parent project #" ++ str_of_int parent_id
                              ++ " not found: " ++ exc))
        /\ log' = [ReqGetProject parent_id]).
Proof.
  unfold get_subprojects, tool, try_except, bind, lift, call, ret.
  destruct get_client as [client|exc]; cbn [app].
  - destruct (client_get_project client parent_id) as [parent|exc] eqn:Hparent.
    + intros Hrun. split.
      * intros k Hin. exists client, parent.
        destruct (client_get_subprojects client parent_id) as [listing|e];
          [destruct (dict_get [] (env_elements listing))|];
          inversion Hrun; subst;
          (destruct Hin as [Hin | [Hin | []]]; [discriminate|]);
          inversion Hin; subst; repeat split; auto.
      * intros c e Hc He. inversion Hc; subst. congruence.
    + intros Hrun. inversion Hrun; subst. split.
      * intros k [Hin | []]. discriminate.
      * intros c e Hc He. inversion Hc; subst.
        rewrite Hparent in He. inversion He; subst. now split.
  - intros Hrun. inversion Hrun; subst. split.
    + intros k [].
    + intros c e Hc. discriminate.
Qed.

(** [update_project] sends nothing when no field is given and returns the
    line "No fields provided to update"; otherwise it sends one update
    request, whose payload has a key for each field given and for no other,
    in the order name, identifier, description, public, status, parent_id. *)
Theorem update_sends_exactly_the_given_fields (client : Client)
    (input : UpdateProjectInput) :
  let run := update_project format_success format_error (Ok client) input [] in
  let given {A : Type} (key : string) (value : option A) : list string :=
    match value with
    | Some _ => [key]
    | None => []
    end in
  map fst (update_data input)
  = (given "name" (upd_name input) ++ given "identifier" (upd_identifier input)
     ++ given "description" (upd_description input)
     ++ given "public" (upd_public input) ++ given "status" (upd_status input)
     ++ given "parent_id" (upd_parent_id input))%list
  /\ (if no_field_given input
      then run = (Ok (format_error "No fields provided to update"), [])
      else snd run = [ReqUpdateProject (upd_project_id input) (update_data input)]
           /\ exists text, fst run = Ok text).
Proof.
  cbv zeta.
  unfold update_project, tool, try_except, bind, lift, call, ret, no_field_given,
    update_data, set_if_given.
  destruct (upd_name input), (upd_identifier input), (upd_description input),
    (upd_public input), (upd_status input), (upd_parent_id input);
    cbn [app map fst snd]; (split; [reflexivity|]);
    try reflexivity;
    match goal with
    | |- context [client_update_project ?c ?i ?d] =>
        destruct (client_update_project c i d)
    end; cbn [fst snd]; (split; [reflexivity | eexists; reflexivity]).
Qed.

End ToolProperties.

Lemma subproject_only_under_active_parent_witness :
  exists r log',
    add_subproject ProjectExamples.success_line ProjectExamples.error_line
      (Ok ProjectExamples.two_projects_client)
      (mkAddSubprojectInput 2 "Frontend" "frontend" None (Some false)) [] = (r, log')
    /\ log' = [ReqGetProject 2;
               ReqCreateProject [("name", FText "Frontend");
                                 ("identifier", FText "frontend");
                                 ("parent_id", FInt 2); ("public", FBool false)]]
    /\ exists client parent,
         Ok ProjectExamples.two_projects_client = Ok client
         /\ client_get_project client 2 = Ok parent
         /\ pj_active parent = Some true.
Proof.
  eexists. eexists. split; [vm_compute; reflexivity|]. split; [reflexivity|].
  destruct (subproject_only_under_active_parent
              ProjectExamples.success_line ProjectExamples.error_line
              (Ok ProjectExamples.two_projects_client)
              (mkAddSubprojectInput 2 "Frontend" "frontend" None (Some false))
              _ _ [("name", FText "Frontend"); ("identifier", FText "frontend");
                   ("parent_id", FInt 2); ("public", FBool false)]
              eq_refl (or_intror (or_introl eq_refl)))
    as (client & parent & Hc & Hp & Ha & _).
  exists client, parent. auto.
Defined.

(** Under the inactive project 1 nothing is created. *)
Example subproject_refused_under_inactive_parent :
  add_subproject ProjectExamples.success_line ProjectExamples.error_line
    (Ok ProjectExamples.two_projects_client)
    (mkAddSubprojectInput 1 "Frontend" "frontend" None None) []
  = (Ok "Error: Parent project #1 is not active", [ReqGetProject 1]).
Proof. vm_compute. reflexivity. Qed.

Lemma subprojects_listed_only_for_known_parent_witness :
  get_subprojects ProjectExamples.success_line ProjectExamples.error_line
    (Ok ProjectExamples.two_projects_client) 9 []
  = (Ok "Error: Parent project #9 not found: 404 Not Found", [ReqGetProject 9])
  /\ forall k, ~ In (ReqGetSubprojects k) [ReqGetProject 9].
Proof.
  assert (Hrun : get_subprojects ProjectExamples.success_line ProjectExamples.error_line
                   (Ok ProjectExamples.two_projects_client) 9 []
                 = (Ok "Error: Parent project #9 not found: 404 Not Found",
                    [ReqGetProject 9])).
  { vm_compute. reflexivity. }
  split; [exact Hrun|].
  intros k Hin.
  destruct (proj1 (subprojects_listed_only_for_known_parent
                     ProjectExamples.success_line ProjectExamples.error_line
                     _ _ _ _ Hrun) k Hin)
    as (client & parent & Hc & Hp & _).
  inversion Hc; subst. vm_compute in Hp. discriminate.
Defined.

(** ** Blockers and the blocked group *)

Lemma blocked_label_is_known (l : string) :
  contains "blocked" l = true ->
  (is_empty l || (l =? "unknown")%string) = false.
Proof.
  intros H. destruct l as [|c l]; [discriminate|]. cbn [is_empty orb].
  destruct (String.eqb_spec (String c l) "unknown") as [E|]; [|reflexivity].
  rewrite E in H. discriminate.
Qed.

(** The detected blockers and the blocked group differ in one direction
    only.  A detected blocker is grouped as done, in progress or blocked,
    never as planned or de-scoped: it leaves the blocked group exactly when
    its label also carries a done or in-progress keyword.  And a work package
    that is not a detected blocker is in the blocked group only through the
    link title, when its embedded status name is empty or "unknown". *)
Theorem blockers_against_blocked_group (wp : WorkPackage) :
  let primary := lower (dict_get "" (wp_embedded_status_name wp)) in
  (Spec.is_blocker wp = true ->
   Spec.category wp
   = if Spec.has_any ["closed"; "done"; "resolved"; "completed"; "finished"] primary
     then Spec.Done
     else if Spec.has_any ["progress"; "development"; "implementing"] primary
     then Spec.InProgress
     else Spec.Blocked)
  /\ (Spec.is_blocker wp = false -> Spec.category wp = Spec.Blocked ->
      (is_empty primary || (primary =? "unknown")%string) = true).
Proof.
  cbv zeta. unfold Spec.is_blocker, Spec.category, Spec.status_label. cbv zeta.
  rewrite <- (is_empty_lower (dict_get "" (wp_embedded_status_name wp))).
  split.
  - intros Hb. rewrite (blocked_label_is_known _ Hb).
    unfold Spec.classify. cbv zeta.
    destruct (Spec.has_any ["closed"; "done"; "resolved"; "completed"; "finished"]
                (lower (dict_get "" (wp_embedded_status_name wp)))); [reflexivity|].
    destruct (Spec.has_any ["progress"; "development"; "implementing"]
                (lower (dict_get "" (wp_embedded_status_name wp)))); [reflexivity|].
    unfold Spec.has_any at 1. cbn [existsb]. now rewrite Hb.
  - intros Hb Hcat.
    destruct (is_empty (lower (dict_get "" (wp_embedded_status_name wp)))
              || (lower (dict_get "" (wp_embedded_status_name wp)) =? "unknown")%string);
      [reflexivity|].
    exfalso. unfold Spec.classify in Hcat. cbv zeta in Hcat.
    unfold Spec.has_any at 3 in Hcat. cbn [existsb] in Hcat. rewrite Hb in Hcat.
    cbn [orb] in Hcat.
    repeat match type of Hcat with
           | (if ?c then _ else _) = _ => destruct c
           end; discriminate.
Qed.

(** ** The other report tools *)

Section OtherTools.

Variable format_error : string -> string.
Variable get_client : result WeeklyReports.Client.
Variable render_markdown :
  Project -> list WorkPackage -> list TimeEntry -> list Member ->
  string -> string -> option string -> option string -> list Relation ->
  result string.
Variable render_json :
  Project -> list WorkPackage -> list TimeEntry -> list Member ->
  list Relation -> result string.
Variable render_report_data :
  GetReportDataInput -> Project -> list WorkPackage -> list TimeEntry ->
  list Member -> result string.

Lemma impl_result (fuel : nat) (input : GenerateWeeklyReportInput)
    (handler : string -> WeeklyReports.M string) (log : list WeeklyReports.request) :
  WeeklyReports.try_except
    (fun log => _generate_weekly_report_impl format_error get_client render_markdown
                  render_json fuel input log)
    handler log
  = _generate_weekly_report_impl format_error get_client render_markdown render_json
                                 fuel input log.
Proof.
  unfold WeeklyReports.try_except at 1.
  destruct (_generate_weekly_report_impl format_error get_client render_markdown
              render_json fuel input log) as [[[text|exc] log']|] eqn:Hrun;
    try reflexivity.
  exfalso. revert Hrun. unfold _generate_weekly_report_impl.
  apply try_except_never_raises.
Qed.

(** The week shortcuts are the weekly report for the dates they compute, in
    markdown and without sprint goal, when the project id is positive; for a
    project id that is zero or negative the input model refuses the request,
    and the shortcut returns an error line without sending anything. *)
Theorem week_shortcuts_are_the_weekly_report
    (this_week last_week : result (string * string)) (fuel : nat) (project_id : Z)
    (team_name : option string) (log : list WeeklyReports.request)
    (dates : string * string) :
  let input :=
    mkGenerateWeeklyReportInput project_id (fst dates) (snd dates) None team_name
                                "markdown" in
  (this_week = Ok dates ->
   if project_id >? 0 then
     generate_this_week_report format_error get_client render_markdown render_json
                               this_week fuel project_id team_name log
     = generate_weekly_report format_error get_client render_markdown render_json
                              fuel input log
   else
     exists exc,
       generate_this_week_report format_error get_client render_markdown render_json
                                 this_week fuel project_id team_name log
       = Some (Ok (format_error ("Failed to generate this week's report: " ++ exc)),
               log))
  /\ (last_week = Ok dates ->
      if project_id >? 0 then
        generate_last_week_report format_error get_client render_markdown render_json
                                  last_week fuel project_id team_name log
        = generate_weekly_report format_error get_client render_markdown render_json
                                 fuel input log
      else
        exists exc,
          generate_last_week_report format_error get_client render_markdown render_json
                                    last_week fuel project_id team_name log
          = Some (Ok (format_error ("Failed to generate last week's report: " ++ exc)),
                  log)).
Proof.
  cbv zeta. split; intros Hweek.
  - unfold generate_this_week_report, generate_weekly_report, validated_input.
    rewrite Hweek.
    destruct (project_id >? 0).
    + unfold WeeklyReports.bind, WeeklyReports.lift.
      apply impl_result.
    + eexists. reflexivity.
  - unfold generate_last_week_report, generate_weekly_report, validated_input.
    rewrite Hweek.
    destruct (project_id >? 0).
    + unfold WeeklyReports.bind, WeeklyReports.lift.
      apply impl_result.
    + eexists. reflexivity.
Qed.

(** [get_report_data] against a client that answers sends the same requests
    as the weekly report up to the time entries (the project, the pages of
    work packages, the memberships, the time entries of the window) and
    never looks up a relation; its text is that of its rendering, an
    exception of the rendering coming back as an error line. *)
Theorem report_data_request_order (base : WeeklyReports.Client)
    (records : list WorkPackage) (fuel : nat) (input : GetReportDataInput)
    (from_dt to_dt : datetime) (project : Project)
    (members_result : Envelope Member) (te_result : Envelope TimeEntry) :
  let client := paged_client base records in
  let time_filters :=
    time_filters_json (data_from_date input) (data_to_date input)
                      (data_project_id input) in
  let work_packages := filter (is_relevant from_dt to_dt) records in
  let members := dict_get [] (env_elements members_result) in
  let time_entries := dict_get [] (env_elements te_result) in
  strptime_ymd (data_from_date input) = Some from_dt ->
  strptime_ymd (data_to_date input) = Some to_dt ->
  from_dt <= to_dt ->
  (length records / 500 < fuel)%nat ->
  WeeklyReports.get_project base (data_project_id input) = Ok project ->
  get_memberships base (data_project_id input) = Ok members_result ->
  get_time_entries base time_filters = Ok te_result ->
  get_report_data format_error (Ok client) render_report_data fuel input []
  = Some (Ok (match render_report_data input project work_packages time_entries
                                       members with
              | Ok text => text
              | Raise exc => format_error ("Failed to get report data: " ++ exc)
              end),
          (ReqProject (data_project_id input)
           :: page_requests (data_project_id input) (length records)
           ++ [ReqMemberships (data_project_id input); ReqTimeEntries time_filters])%list).
Proof.
  cbv zeta. intros Hf Ht Hle Hfuel Hproject Hmembers Hentries.
  unfold get_report_data.
  unfold WeeklyReports.try_except, WeeklyReports.bind at 1, WeeklyReports.lift at 1.
  rewrite Hf, Ht.
  replace (from_dt >? to_dt) with false
    by (symmetry; rewrite Z.gtb_ltb; apply Z.ltb_ge; exact Hle).
  unfold WeeklyReports.bind at 1, WeeklyReports.call at 1.
  cbn [paged_client WeeklyReports.get_project get_memberships get_time_entries app].
  rewrite Hproject.
  unfold WeeklyReports.bind at 1.
  change (WeeklyReports.mkClient (WeeklyReports.get_project base)
            (paged_work_packages records)
            (get_memberships base) (get_time_entries base) (get_relations base))
    with (paged_client base records).
  rewrite (fetch_all_paged_after base (data_project_id input) records fuel
             [ReqProject (data_project_id input)] Hfuel).
  rewrite filter_relevant_is_filter.
  unfold WeeklyReports.bind at 1, WeeklyReports.call at 1. rewrite Hmembers.
  unfold WeeklyReports.bind at 1, WeeklyReports.call at 1. rewrite Hentries.
  unfold WeeklyReports.lift.
  rewrite <- !app_assoc. cbn [app].
  match goal with
  | |- context [match ?r with Ok _ => _ | Raise _ => _ end] => destruct r
  end; reflexivity.
Qed.

End OtherTools.

Lemma week_shortcuts_are_the_weekly_report_witness :
  generate_this_week_report Examples.marked_error
    (Ok (Examples.serving_client (Examples.numbered 3)))
    (fun _ _ _ _ _ _ _ _ _ => Ok "report") (fun _ _ _ _ _ => Ok "{}")
    (Ok ("2025-12-01", "2025-12-07")) 1 5 (Some "Alpha") []
  = generate_weekly_report Examples.marked_error
      (Ok (Examples.serving_client (Examples.numbered 3)))
      (fun _ _ _ _ _ _ _ _ _ => Ok "report") (fun _ _ _ _ _ => Ok "{}")
      1 (mkGenerateWeeklyReportInput 5 "2025-12-01" "2025-12-07" None (Some "Alpha")
                                     "markdown") [].
Proof.
  exact (proj1 (week_shortcuts_are_the_weekly_report Examples.marked_error
                  (Ok (Examples.serving_client (Examples.numbered 3)))
                  (fun _ _ _ _ _ _ _ _ _ => Ok "report") (fun _ _ _ _ _ => Ok "{}")
                  (Ok ("2025-12-01", "2025-12-07")) (Ok ("2025-11-24", "2025-11-30"))
                  1 5 (Some "Alpha") [] ("2025-12-01", "2025-12-07"))
               eq_refl).
Defined.

Lemma report_data_request_order_witness :
  get_report_data Examples.marked_error (Ok MoreExamples.week_client)
    (fun _ _ wps _ _ => Ok (str_of_int (Z.of_nat (length wps)) ++ " work packages"))
    1 (mkGetReportDataInput 5 Examples.week_from Examples.week_to) []
  = Some (Ok "12 work packages",
          [ReqProject 5; page_request 5 0; ReqMemberships 5;
           ReqTimeEntries (time_filters_json Examples.week_from Examples.week_to 5)]).
Proof.
  etransitivity.
  - eapply (report_data_request_order Examples.marked_error _ _
              MoreExamples.week_records 1
              (mkGetReportDataInput 5 Examples.week_from Examples.week_to)).
    + vm_compute. reflexivity.
    + vm_compute. reflexivity.
    + vm_compute. discriminate.
    + vm_compute. apply le_n.
    + reflexivity.
    + reflexivity.
    + reflexivity.
  - vm_compute. reflexivity.
Defined.

(** ** The filter and the link-title fallback *)

(** The relevance filter reads the embedded status name only.  A work
    package whose embedded status name is empty or "unknown" is never
    closed-type for the filter, whatever its link title: even when the
    grouping puts it in the done group through the link title, it is kept
    only by an update or creation time inside the window. *)
Theorem link_title_status_is_not_closed_for_filter (from_dt to_dt : datetime)
    (wp : WorkPackage) :
  let primary := lower (dict_get "" (wp_embedded_status_name wp)) in
  (is_empty primary || (primary =? "unknown")%string) = true ->
  is_closed_status wp = false
  /\ Spec.category wp = Spec.classify (dict_get "" (wp_links_status_title wp))
  /\ is_relevant from_dt to_dt wp
     = Spec.step1 from_dt to_dt wp
       || (absent_or_parses (wp_updatedAt wp) && Spec.step2 from_dt to_dt wp).
Proof.
  cbv zeta. intros Hprimary.
  assert (Hopen : is_closed_status wp = false).
  { unfold is_closed_status. cbv zeta.
    apply orb_true_iff in Hprimary. destruct Hprimary as [He | Hu].
    - apply is_empty_true in He. rewrite He. reflexivity.
    - apply String.eqb_eq in Hu. rewrite Hu. reflexivity. }
  split; [exact Hopen|]. split.
  - unfold Spec.category, Spec.status_label. cbv zeta.
    rewrite <- (is_empty_lower (dict_get "" (wp_embedded_status_name wp))).
    now rewrite Hprimary.
  - now apply relevance_without_closed_status.
Qed.

Lemma link_title_status_is_not_closed_for_filter_witness :
  let wp := mkWorkPackage (Some 12) (Some "Subject") None (Some "Closed") (Some "Task")
                          None (Some "2025-11-24T09:00:00Z")
                          (Some "2025-08-01T09:00:00Z") (Some "2025-12-04T10:00:00Z")
                          None None in
  exists from_dt to_dt : datetime,
    strptime_ymd Examples.week_from = Some from_dt
    /\ strptime_ymd Examples.week_to = Some to_dt
    /\ Spec.category wp = Spec.Done
    /\ is_closed_status wp = false
    /\ is_relevant from_dt to_dt wp = false.
Proof.
  cbv zeta. eexists. eexists.
  split; [vm_compute; reflexivity|].
  split; [vm_compute; reflexivity|].
  split; [reflexivity|].
  match goal with
  | |- is_closed_status ?wp = false /\ is_relevant ?f ?t ?wp = false =>
      destruct (link_title_status_is_not_closed_for_filter f t wp eq_refl)
        as (Hopen & _ & Hrel)
  end.
  split; [exact Hopen|]. rewrite Hrel. vm_compute. reflexivity.
Defined.
